(** * Asteroidino: bus decoder, DVG sequencer, NMI pacer, DAC driver and
      vector logger

    A shallow embedding of the emulator glue in
    [src/asteroidino/src/main.cpp]: the 6502 bus callbacks, the
    PROM-sequenced vector generator, the direct-opcode interpreter kept
    beside it, the instruction-count NMI pacer of [emulation_task], the
    button scan and the rendering loop; and of the two libraries beside
    it, [lib/vector_dac/vector_dac.cpp] and
    [lib/vector_logger/vector_logger.cpp].

    C integers are [Z] with the conversions written out ([u8], [u16],
    [s16], [u32]); C arrays are lists updated by index; the headers that
    are not part of the sources ([asteroid_roms.h], [dvg_prom.h]) enter as
    section variables, so every result holds for any ROM and PROM content.
    Two constants of the library headers are kept as section variables as
    well, the command word of [vector_dac.h] and the numeric codes of the
    log modes of [vector_logger.h]: the results do not depend on their
    values beyond what is stated.  What the drivers do
    to the outside (pins, SPI, the serial line) is the list of events or
    bytes they produce, in order.  [Serial.printf] tracing and the static
    counters that only throttle it are left out: they never feed back into
    the emulated machine. *)

From Stdlib Require Import Ascii String ZArith List Bool Lia.
From stdpp Require Import base list pretty.
Import ListNotations.

Local Open Scope Z_scope.

(** ** C integer conversions *)

Definition u8 (z : Z) : Z := z mod 256.
Definition u16 (z : Z) : Z := z mod 65536.
Definition u32 (z : Z) : Z := z mod 4294967296.
Definition s16 (z : Z) : Z := (z + 32768) mod 65536 - 32768.

(** C truthiness of an integer expression. *)
Definition nz (z : Z) : bool := negb (z =? 0).

(** Array read [a[i]]; every read in the sources is guarded or masked, the
    default only makes the function total. *)
Definition aget {A} (d : A) (a : list A) (i : Z) : A :=
  default d (a !! Z.to_nat i).

(** Array write [a[i] = v]. *)
Definition aset {A} (a : list A) (i : Z) (v : A) : list A :=
  <[Z.to_nat i := v]> a.

(** ** config.h (as written out by [setup_cpu.sh]) *)

Definition VECT_POINTS_PER_FRAME : Z := 2048.
Definition MEM_SIZE_RAM : Z := 0x1000.
Definition MEM_SIZE_VECTOR : Z := 0x800.

(** ** Global state *)

Module vector_buffer.
Record t := mk {
  points : list (Z * Z);
  intensity : list Z;
  count : Z
}.
End vector_buffer.

Module dvg_state.
Record t := mk {
  pc : Z;
  x : Z; y : Z;
  xpos : Z; ypos : Z;
  scale : Z;
  intensity : Z;
  dvx : Z; dvy : Z;
  op : Z;
  data : Z;
  state_latch : Z;
  stack : list Z;
  stack_ptr : Z;
  halt : bool;
  running : bool
}.

Definition set_pc v (d : t) :=
  mk v (x d) (y d) (xpos d) (ypos d) (scale d) (intensity d) (dvx d) (dvy d)
     (op d) (data d) (state_latch d) (stack d) (stack_ptr d) (halt d) (running d).
Definition set_x v (d : t) :=
  mk (pc d) v (y d) (xpos d) (ypos d) (scale d) (intensity d) (dvx d) (dvy d)
     (op d) (data d) (state_latch d) (stack d) (stack_ptr d) (halt d) (running d).
Definition set_y v (d : t) :=
  mk (pc d) (x d) v (xpos d) (ypos d) (scale d) (intensity d) (dvx d) (dvy d)
     (op d) (data d) (state_latch d) (stack d) (stack_ptr d) (halt d) (running d).
Definition set_xpos v (d : t) :=
  mk (pc d) (x d) (y d) v (ypos d) (scale d) (intensity d) (dvx d) (dvy d)
     (op d) (data d) (state_latch d) (stack d) (stack_ptr d) (halt d) (running d).
Definition set_ypos v (d : t) :=
  mk (pc d) (x d) (y d) (xpos d) v (scale d) (intensity d) (dvx d) (dvy d)
     (op d) (data d) (state_latch d) (stack d) (stack_ptr d) (halt d) (running d).
Definition set_scale v (d : t) :=
  mk (pc d) (x d) (y d) (xpos d) (ypos d) v (intensity d) (dvx d) (dvy d)
     (op d) (data d) (state_latch d) (stack d) (stack_ptr d) (halt d) (running d).
Definition set_intensity v (d : t) :=
  mk (pc d) (x d) (y d) (xpos d) (ypos d) (scale d) v (dvx d) (dvy d)
     (op d) (data d) (state_latch d) (stack d) (stack_ptr d) (halt d) (running d).
Definition set_dvx v (d : t) :=
  mk (pc d) (x d) (y d) (xpos d) (ypos d) (scale d) (intensity d) v (dvy d)
     (op d) (data d) (state_latch d) (stack d) (stack_ptr d) (halt d) (running d).
Definition set_dvy v (d : t) :=
  mk (pc d) (x d) (y d) (xpos d) (ypos d) (scale d) (intensity d) (dvx d) v
     (op d) (data d) (state_latch d) (stack d) (stack_ptr d) (halt d) (running d).
Definition set_op v (d : t) :=
  mk (pc d) (x d) (y d) (xpos d) (ypos d) (scale d) (intensity d) (dvx d) (dvy d)
     v (data d) (state_latch d) (stack d) (stack_ptr d) (halt d) (running d).
Definition set_data v (d : t) :=
  mk (pc d) (x d) (y d) (xpos d) (ypos d) (scale d) (intensity d) (dvx d) (dvy d)
     (op d) v (state_latch d) (stack d) (stack_ptr d) (halt d) (running d).
Definition set_state_latch v (d : t) :=
  mk (pc d) (x d) (y d) (xpos d) (ypos d) (scale d) (intensity d) (dvx d) (dvy d)
     (op d) (data d) v (stack d) (stack_ptr d) (halt d) (running d).
Definition set_stack v (d : t) :=
  mk (pc d) (x d) (y d) (xpos d) (ypos d) (scale d) (intensity d) (dvx d) (dvy d)
     (op d) (data d) (state_latch d) v (stack_ptr d) (halt d) (running d).
Definition set_stack_ptr v (d : t) :=
  mk (pc d) (x d) (y d) (xpos d) (ypos d) (scale d) (intensity d) (dvx d) (dvy d)
     (op d) (data d) (state_latch d) (stack d) v (halt d) (running d).
Definition set_halt v (d : t) :=
  mk (pc d) (x d) (y d) (xpos d) (ypos d) (scale d) (intensity d) (dvx d) (dvy d)
     (op d) (data d) (state_latch d) (stack d) (stack_ptr d) v (running d).
Definition set_running v (d : t) :=
  mk (pc d) (x d) (y d) (xpos d) (ypos d) (scale d) (intensity d) (dvx d) (dvy d)
     (op d) (data d) (state_latch d) (stack d) (stack_ptr d) (halt d) v.
End dvg_state.

Module buttons.
Record t := mk {
  rotate_left : bool;
  rotate_right : bool;
  thrust : bool;
  hyperspace : bool;
  fire : bool;
  start : bool;
  coin : bool
}.
End buttons.

(** The globals of [main.cpp] that the bus and the DVG touch.  [millis_now]
    is the host clock read by [millis()]; [game_start_time] is the static
    of that name in the IN1 branch of the read callback. *)
Record machine := mkMachine {
  ram : list Z;
  vector_ram : list Z;
  vbuf : vector_buffer.t;
  dvg : dvg_state.t;
  btn : buttons.t;
  dip_switches : Z;
  clock_3khz : bool;
  total_cpu_cycles : Z;
  dvg_frame_count : Z;
  millis_now : Z;
  game_start_time : Z
}.

Definition set_ram v (m : machine) :=
  mkMachine v (vector_ram m) (vbuf m) (dvg m) (btn m) (dip_switches m)
            (clock_3khz m) (total_cpu_cycles m) (dvg_frame_count m)
            (millis_now m) (game_start_time m).
Definition set_vector_ram v (m : machine) :=
  mkMachine (ram m) v (vbuf m) (dvg m) (btn m) (dip_switches m)
            (clock_3khz m) (total_cpu_cycles m) (dvg_frame_count m)
            (millis_now m) (game_start_time m).
Definition set_vbuf v (m : machine) :=
  mkMachine (ram m) (vector_ram m) v (dvg m) (btn m) (dip_switches m)
            (clock_3khz m) (total_cpu_cycles m) (dvg_frame_count m)
            (millis_now m) (game_start_time m).
Definition set_dvg v (m : machine) :=
  mkMachine (ram m) (vector_ram m) (vbuf m) v (btn m) (dip_switches m)
            (clock_3khz m) (total_cpu_cycles m) (dvg_frame_count m)
            (millis_now m) (game_start_time m).
Definition set_clock_3khz v (m : machine) :=
  mkMachine (ram m) (vector_ram m) (vbuf m) (dvg m) (btn m) (dip_switches m)
            v (total_cpu_cycles m) (dvg_frame_count m)
            (millis_now m) (game_start_time m).
Definition set_dvg_frame_count v (m : machine) :=
  mkMachine (ram m) (vector_ram m) (vbuf m) (dvg m) (btn m) (dip_switches m)
            (clock_3khz m) (total_cpu_cycles m) v
            (millis_now m) (game_start_time m).
Definition set_game_start_time v (m : machine) :=
  mkMachine (ram m) (vector_ram m) (vbuf m) (dvg m) (btn m) (dip_switches m)
            (clock_3khz m) (total_cpu_cycles m) (dvg_frame_count m)
            (millis_now m) v.

(** [dvg_state.f = v;] on the global. *)
Definition upd (f : dvg_state.t -> dvg_state.t) (m : machine) : machine :=
  set_dvg (f (dvg m)) m.

(** The samples a consumer of [vector_buffer] sees: entries [0 .. count-1]
    as (x, y, intensity). *)
Definition samples (b : vector_buffer.t) : list (Z * Z * Z) :=
  take (Z.to_nat (vector_buffer.count b))
       (zip (vector_buffer.points b) (vector_buffer.intensity b)).

Section Emulator.

(** ** Headers that are not part of the sources

    [asteroid_roms.h] declares the four 2 KB ROM images and [dvg_prom.h]
    the sequencer PROM with its accessor; each is taken as the function
    from an offset to the byte stored there. *)
Variable asteroid_rom_vector : Z -> Z.
Variable asteroid_rom_prom0 : Z -> Z.
Variable asteroid_rom_prom1 : Z -> Z.
Variable asteroid_rom_prom2 : Z -> Z.
Variable dvg_prom_read : Z -> Z.

(** ** DVG: beam output *)

Definition dvg_add_vector (dx dy intensity : Z) (m : machine) : machine :=
  let b := vbuf m in
  if VECT_POINTS_PER_FRAME <=? vector_buffer.count b then m
  else
    let d := dvg m in
    (* starting point if this is the first vector *)
    let b :=
      if vector_buffer.count b =? 0 then
        vector_buffer.mk
          (aset (vector_buffer.points b) 0
                (u16 (dvg_state.x d), u16 (dvg_state.y d)))
          (aset (vector_buffer.intensity b) 0 0)
          1
      else b in
    (* update position *)
    let x := s16 (dvg_state.x d + dx) in
    let y := s16 (dvg_state.y d + dy) in
    (* clip to screen bounds *)
    let x := if x <? 0 then 0 else x in
    let x := if 1023 <? x then 1023 else x in
    let y := if y <? 0 then 0 else y in
    let y := if 1023 <? y then 1023 else y in
    let d := dvg_state.set_y y (dvg_state.set_x x d) in
    (* endpoint *)
    let c := vector_buffer.count b in
    let b :=
      vector_buffer.mk
        (aset (vector_buffer.points b) c (u16 x, u16 y))
        (aset (vector_buffer.intensity b) c intensity)
        (c + 1) in
    set_vbuf b (set_dvg d m).

Definition dvg_process_vector (m : machine) : machine :=
  let d := dvg m in
  let scale_val := Z.land (Z.shiftl 2 (dvg_state.scale d)) 0x7ff in
  let dx := s16 (if nz (Z.land (dvg_state.dvx d) 0x400)
                 then Z.lor (dvg_state.dvx d) 0xF800
                 else Z.land (dvg_state.dvx d) 0x3FF) in
  let dy := s16 (if nz (Z.land (dvg_state.dvy d) 0x400)
                 then Z.lor (dvg_state.dvy d) 0xF800
                 else Z.land (dvg_state.dvy d) 0x3FF) in
  let dx := s16 (Z.shiftr (dx * scale_val) 8) in
  let dy := s16 (Z.shiftr (dy * scale_val) 8) in
  dvg_add_vector dx dy (dvg_state.intensity d) m.

(** ** DVG: sequencer address and data bus *)

Definition dvg_state_addr (m : machine) : Z :=
  let d := dvg m in
  let addr :=
    u8 (Z.lor (Z.shiftl (Z.land (Z.lxor (Z.shiftr (dvg_state.state_latch d) 4) 1) 1) 7)
              (Z.land (dvg_state.state_latch d) 0x0f)) in
  if nz (Z.land (dvg_state.op d) 0x08)
  then u8 (Z.lor addr (Z.shiftl (Z.land (dvg_state.op d) 7) 4))
  else addr.

Definition dvg_update_databus (m : machine) : machine :=
  let d := dvg m in
  let dvg_addr := dvg_state.pc d in
  let byte_addr :=
    u16 (Z.shiftl dvg_addr 1 + Z.land (dvg_state.state_latch d) 1) in
  let v :=
    if dvg_addr <? 0x400 then
      if byte_addr <? 2048 then aget 0 (vector_ram m) byte_addr else 0x00
    else if dvg_addr <? 0x800 then
      let rom_offset :=
        u16 ((dvg_addr - 0x400) * 2 + Z.land (dvg_state.state_latch d) 1) in
      if rom_offset <? 2048 then asteroid_rom_vector rom_offset else 0x00
    else 0x00 in
  upd (dvg_state.set_data v) m.

(** ** DVG: the eight strobe handlers *)

(** DMAPUSH *)
Definition dvg_handler_0 (m : machine) : machine :=
  let d := dvg m in
  let op0 := Z.land (dvg_state.op d) 1 in
  if nz op0 then m
  else
    let sp := u8 (Z.land (dvg_state.stack_ptr d + 1) 0xf) in
    let d := dvg_state.set_stack_ptr sp d in
    let d := dvg_state.set_stack
               (aset (dvg_state.stack d) (Z.land sp 3) (dvg_state.pc d)) d in
    set_dvg d m.

(** DMALD *)
Definition dvg_handler_1 (m : machine) : machine :=
  let d := dvg m in
  let op0 := Z.land (dvg_state.op d) 1 in
  if nz op0 then
    let d := dvg_state.set_pc
               (aget 0 (dvg_state.stack d) (Z.land (dvg_state.stack_ptr d) 3)) d in
    let d := dvg_state.set_stack_ptr
               (u8 (Z.land (dvg_state.stack_ptr d - 1) 0xf)) d in
    set_dvg d m
  else
    upd (dvg_state.set_pc (dvg_state.dvy d)) m.

(** GOSTROBE *)
Definition dvg_handler_2 (m : machine) : machine :=
  dvg_process_vector m.

(** HALTSTROBE *)
Definition dvg_handler_3 (m : machine) : machine :=
  let op0 := Z.land (dvg_state.op (dvg m)) 1 in
  let m := upd (dvg_state.set_halt (negb (nz op0))) m in
  if nz op0 then m
  else
    let d := dvg m in
    let d := dvg_state.set_xpos (s16 (Z.land (dvg_state.dvx d) 0xfff)) d in
    let d := dvg_state.set_ypos (s16 (Z.land (dvg_state.dvy d) 0xfff)) d in
    dvg_add_vector 0 0 0 (set_dvg d m).

(** LATCH3 *)
Definition dvg_handler_7 (m : machine) : machine :=
  let d := dvg m in
  let d := dvg_state.set_dvx
             (u16 (Z.lor (Z.land (dvg_state.dvx d) 0xff)
                         (Z.shiftl (Z.land (dvg_state.data d) 0xf) 8))) d in
  let d := dvg_state.set_intensity (u8 (Z.shiftr (dvg_state.data d) 4)) d in
  set_dvg d m.

(** LATCH0 *)
Definition dvg_handler_4 (m : machine) : machine :=
  let m := upd (fun d => dvg_state.set_dvy (Z.land (dvg_state.dvy d) 0xf00) d) m in
  let m :=
    if dvg_state.op (dvg m) =? 0xf then dvg_handler_7 m
    else upd (fun d => dvg_state.set_dvy
                         (u16 (Z.lor (Z.land (dvg_state.dvy d) 0xf00)
                                     (dvg_state.data d))) d) m in
  upd (fun d => dvg_state.set_pc (u16 (dvg_state.pc d + 1)) d) m.

(** LATCH1 *)
Definition dvg_handler_5 (m : machine) : machine :=
  let d := dvg m in
  let d := dvg_state.set_dvy
             (u16 (Z.lor (Z.land (dvg_state.dvy d) 0xff)
                         (Z.shiftl (Z.land (dvg_state.data d) 0xf) 8))) d in
  let d := dvg_state.set_op (u8 (Z.shiftr (dvg_state.data d) 4)) d in
  let d :=
    if dvg_state.op d =? 0xf then
      let d := dvg_state.set_dvx (Z.land (dvg_state.dvx d) 0xf00) d in
      dvg_state.set_dvy (Z.land (dvg_state.dvy d) 0xf00) d
    else d in
  set_dvg d m.

(** LATCH2 *)
Definition dvg_handler_6 (m : machine) : machine :=
  let m := upd (fun d => dvg_state.set_dvx (Z.land (dvg_state.dvx d) 0xf00) d) m in
  let m :=
    if negb (dvg_state.op (dvg m) =? 0xf) then
      upd (fun d => dvg_state.set_dvx
                      (u16 (Z.lor (Z.land (dvg_state.dvx d) 0xf00)
                                  (dvg_state.data d))) d) m
    else m in
  let op1 := Z.land (Z.shiftr (dvg_state.op (dvg m)) 1) 1 in
  let op3 := Z.land (Z.shiftr (dvg_state.op (dvg m)) 3) 1 in
  let m :=
    if nz op1 && nz op3 then
      upd (fun d => dvg_state.set_scale (dvg_state.intensity d) d) m
    else m in
  upd (fun d => dvg_state.set_pc (u16 (dvg_state.pc d + 1)) d) m.

(** ** DVG: the sequencer loop *)

(** The [switch (handler)] of the loop; every handler returns 0 cycles. *)
Definition dvg_dispatch (handler : Z) (m : machine) : machine :=
  if handler =? 0 then dvg_handler_0 m
  else if handler =? 1 then dvg_handler_1 m
  else if handler =? 2 then dvg_handler_2 m
  else if handler =? 3 then dvg_handler_3 m
  else if handler =? 4 then dvg_handler_4 m
  else if handler =? 5 then dvg_handler_5 m
  else if handler =? 6 then dvg_handler_6 m
  else if handler =? 7 then dvg_handler_7 m
  else m.

(** One pass through the loop body once the PROM has answered
    [prom_data]: latch the next state and, when ST3 is set, read the bus
    and run the handler. *)
Definition dvg_cycle (prom_data : Z) (m : machine) : machine :=
  let m :=
    upd (fun d => dvg_state.set_state_latch
                    (u8 (Z.lor (Z.land (dvg_state.state_latch d) 0x10)
                               (Z.land prom_data 0x0f))) d) m in
  if nz (Z.land (dvg_state.state_latch (dvg m)) 0x08) then
    let m := dvg_update_databus m in
    dvg_dispatch (Z.land (dvg_state.state_latch (dvg m)) 0x07) m
  else m.

Definition dvg_loop_body (m : machine) : machine :=
  dvg_cycle (u8 (dvg_prom_read (dvg_state_addr m))) m.

(** Locals of [dvg_run_state_machine] carried round the [while]. *)
Record loop_state := mkLoop {
  l_m : machine;
  l_max_iterations : Z;
  l_cycles : Z;
  l_passes : nat          (* ghost: passes through the body so far *)
}.

(** [while (!halt && max_iterations-- > 0 && cycles < 10000)]: the
    condition with its side effect on [max_iterations], evaluated left to
    right with short circuit. *)
Definition dvg_loop_cond (l : loop_state) : bool * loop_state :=
  if dvg_state.halt (dvg (l_m l)) then (false, l)
  else
    let l' := mkLoop (l_m l) (l_max_iterations l - 1) (l_cycles l) (l_passes l) in
    if 0 <? l_max_iterations l
    then (l_cycles l <? 10000, l')
    else (false, l').

(** The loop, with [fuel] bounding the unrolling; [None] when the fuel
    runs out before the condition turns false. *)
Fixpoint dvg_loop (fuel : nat) (l : loop_state) : option loop_state :=
  match fuel with
  | O => None
  | S fuel =>
      let (go, l) := dvg_loop_cond l in
      if go then
        dvg_loop fuel
          (mkLoop (dvg_loop_body (l_m l)) (l_max_iterations l)
                  (l_cycles l + 0 + 1) (S (l_passes l)))
      else Some l
  end.

(** [dvg_run_state_machine] with the loop unrolled at most [fuel] times. *)
Definition dvg_run_state_machine_fuel (fuel : nat) (m : machine)
  : option (machine * nat) :=
  if negb (dvg_state.running (dvg m)) then Some (m, O)
  else
    let m := upd (dvg_state.set_halt false) m in
    match dvg_loop fuel (mkLoop m 1000 0 O) with
    | Some l => Some (upd (dvg_state.set_running false) (l_m l), l_passes l)
    | None => None
    end.

(** The fuel that always suffices, see [dvg_loop_terminates]. *)
Definition dvg_run_state_machine (m : machine) : machine :=
  match dvg_run_state_machine_fuel 1001 m with
  | Some (m', _) => m'
  | None => m
  end.

(** ** Bus: reads *)

Definition bit_select_result (row : Z) (addr : Z) : Z :=
  let bit_select := Z.land addr 0x07 in
  let bit_value := Z.land (Z.shiftr row bit_select) 0x01 in
  if nz bit_value then 0x80 else 0x7F.

(** The byte [in0] assembled in the IN0 branch. *)
Definition in0_row (m : machine) : Z :=
  let in0 := 0x00 in
  let in0 := if buttons.hyperspace (btn m) then Z.lor in0 0x08 else in0 in
  let in0 := if buttons.fire (btn m) then Z.lor in0 0x10 else in0 in
  let clock := nz (Z.land (total_cpu_cycles m) 0x100) in
  let in0 := if clock then Z.lor in0 0x02 else in0 in
  if dvg_state.running (dvg m) && negb (dvg_state.halt (dvg m))
  then Z.lor in0 0x04 else in0.

(** The static [game_start_time] after the IN1 branch has looked at it. *)
Definition in1_start_time (m : machine) : Z :=
  if game_start_time m =? 0 then millis_now m else game_start_time m.

(** The byte [in1] assembled in the IN1 branch. *)
Definition in1_row (m : machine) : Z :=
  let in1 := 0x00 in
  let game_runtime := u32 (millis_now m - in1_start_time m) in
  let in1 := if (2000 <=? game_runtime) && (game_runtime <? 4000)
             then Z.lor in1 0x01 else in1 in
  let in1 := if (4000 <=? game_runtime) && (game_runtime <? 6000)
             then Z.lor in1 0x08 else in1 in
  let in1 := if buttons.coin (btn m) then Z.lor in1 0x01 else in1 in
  let in1 := if buttons.start (btn m) then Z.lor in1 0x08 else in1 in
  let in1 := if buttons.thrust (btn m) then Z.lor in1 0x20 else in1 in
  let in1 := if buttons.rotate_right (btn m) then Z.lor in1 0x40 else in1 in
  if buttons.rotate_left (btn m) then Z.lor in1 0x80 else in1.

(** [cpu6502_read_callback]: the byte returned and the globals after the
    call (only [clock_3khz] and [game_start_time] can change). *)
Definition cpu6502_read_callback (m : machine) (addr : Z) : Z * machine :=
  if addr <? 0x1000 then (aget 0 (ram m) addr, m)
  else if (0x4000 <=? addr) && (addr <? 0x4800) then
    (aget 0 (vector_ram m) (addr - 0x4000), m)
  else if (0x5000 <=? addr) && (addr <? 0x5800) then
    (asteroid_rom_vector (addr - 0x5000), m)
  else if (0x2000 <=? addr) && (addr <? 0x2008) then
    (bit_select_result (in0_row m) addr,
     set_clock_3khz (nz (Z.land (total_cpu_cycles m) 0x100)) m)
  else if (0x2400 <=? addr) && (addr <? 0x2408) then
    (bit_select_result (in1_row m) addr,
     set_game_start_time (in1_start_time m) m)
  else if (0x2800 <=? addr) && (addr <? 0x2804) then
    let bit_select := Z.land addr 0x03 in
    let bit_pair := Z.land (Z.shiftr (dip_switches m) (bit_select * 2)) 0x03 in
    (Z.lor 0xFC bit_pair, m)
  else if 0x6800 <=? addr then
    if 0xF800 <=? addr then
      let offset_in_last_2k := u16 (addr - 0xF800) in
      (asteroid_rom_prom2 offset_in_last_2k, m)
    else
      let offset_from_base := u16 (addr - 0x6800) in
      let rom_offset := u16 (Z.rem offset_from_base 0x1800) in
      if 0x1000 <=? rom_offset then
        (asteroid_rom_prom2 (rom_offset - 0x1000), m)
      else if 0x0800 <=? rom_offset then
        (asteroid_rom_prom1 (rom_offset - 0x0800), m)
      else
        (asteroid_rom_prom0 rom_offset, m)
  else (0xFF, m).

(** The CPU's view: the byte on the bus. *)
Definition read (m : machine) (addr : Z) : Z :=
  fst (cpu6502_read_callback m addr).

(** ** Bus: writes *)

(** The DVG GO branch up to the call of [dvg_run_state_machine]: latch
    the start state and clear the buffer. *)
Definition dvg_go_start (m : machine) (value : Z) : machine :=
  let m := set_dvg_frame_count (dvg_frame_count m + 1) m in
  let d := dvg m in
  let d := dvg_state.set_pc (u16 (Z.shiftl (Z.land value 0x0F) 8)) d in
  let d := dvg_state.set_running true d in
  let d := dvg_state.set_halt false d in
  let d := dvg_state.set_stack_ptr 0 d in
  let d := dvg_state.set_state_latch 0x00 d in
  let d := dvg_state.set_op 0 d in
  let d := dvg_state.set_data 0 d in
  let d := dvg_state.set_dvx 0 d in
  let d := dvg_state.set_dvy 0 d in
  let m := set_dvg d m in
  let b := vbuf m in
  set_vbuf (vector_buffer.mk (vector_buffer.points b)
                             (vector_buffer.intensity b) 0) m.

(** The whole DVG GO branch. *)
Definition dvg_go (m : machine) (value : Z) : machine :=
  dvg_run_state_machine (dvg_go_start m value).

Definition cpu6502_write_callback (m : machine) (addr value : Z) : machine :=
  if addr <? 0x1000 then
    (* frame throttle workaround on zero page 0x5B *)
    let value := if (addr =? 0x5B) && (4 <=? value) then 0 else value in
    set_ram (aset (ram m) addr value) m
  else if (0x4000 <=? addr) && (addr <? 0x4800) then
    set_vector_ram (aset (vector_ram m) (addr - 0x4000) value) m
  else if addr =? 0x3000 then dvg_go m value
  else if addr =? 0x3200 then m
  else if addr =? 0x3400 then m
  else if addr =? 0x3600 then m
  else if addr =? 0x3A00 then m
  else if (0x3C00 <=? addr) && (addr <? 0x3C08) then m
  else if addr =? 0x3E00 then m
  else m.

Definition write (m : machine) (addr value : Z) : machine :=
  cpu6502_write_callback m addr value.

(** ** The direct-opcode interpreter ([dvg_execute]) *)

Definition scale_table : list Z :=
  [0; 1; 2; 3; 4; 5; 6; 8; 10; 12; 16; 20; 24; 32; 48; 64].

Definition dvg_reset (m : machine) : machine :=
  let d := dvg m in
  let d := dvg_state.set_pc 0 d in
  let d := dvg_state.set_x 512 d in
  let d := dvg_state.set_y 512 d in
  let d := dvg_state.set_scale 0 d in
  let d := dvg_state.set_intensity 7 d in
  let d := dvg_state.set_stack_ptr 0 d in
  let d := dvg_state.set_halt false d in
  set_dvg d m.

Definition dvg_add_point (x y intensity : Z) (m : machine) : machine :=
  let b := vbuf m in
  if VECT_POINTS_PER_FRAME <=? vector_buffer.count b then m
  else
    let dac_x := s16 (Z.quot (x * 4095) 1023) in
    let dac_y := s16 (Z.quot (y * 4095) 1023) in
    let dac_x := if dac_x <? 0 then 0 else dac_x in
    let dac_x := if 4095 <? dac_x then 4095 else dac_x in
    let dac_y := if dac_y <? 0 then 0 else dac_y in
    let dac_y := if 4095 <? dac_y then 4095 else dac_y in
    let c := vector_buffer.count b in
    set_vbuf
      (vector_buffer.mk
         (aset (vector_buffer.points b) c (u16 dac_x, u16 dac_y))
         (aset (vector_buffer.intensity b) c (u8 (Z.quot (intensity * 255) 15)))
         (c + 1)) m.

Definition dvg_read_word (m : machine) (addr : Z) : Z :=
  if addr <? 0x800 then
    if 0x7FF <=? addr then 0
    else
      let lo := aget 0 (vector_ram m) addr in
      let hi := aget 0 (vector_ram m) (addr + 1) in
      u16 (Z.lor (Z.shiftl hi 8) lo)
  else
    let rom_addr := u16 (addr - 0x800) in
    if 0x7FF <=? rom_addr then 0
    else
      let lo := asteroid_rom_vector rom_addr in
      let hi := asteroid_rom_vector (rom_addr + 1) in
      u16 (Z.lor (Z.shiftl hi 8) lo).

(** [case 0x0 .. 0x7]: VCTR *)
Definition dvg_execute_vctr (opcode : Z) (m : machine) : machine :=
  let dy := Z.land (Z.shiftr opcode 0) 0x03 in
  let dx := Z.land (Z.shiftr opcode 2) 0x03 in
  let brightness := Z.land (Z.shiftr opcode 4) 0x0F in
  let length := Z.land (Z.shiftr opcode 8) 0x0F in
  let dy := if nz (Z.land dy 0x02) then s16 (Z.lor dy 0xFFFC) else dy in
  let dx := if nz (Z.land dx 0x02) then s16 (Z.lor dx 0xFFFC) else dx in
  let scale := aget 0 scale_table (dvg_state.scale (dvg m)) in
  let dx := s16 (Z.shiftr (dx * length * scale) 4) in
  let dy := s16 (Z.shiftr (dy * length * scale) 4) in
  let x0 := dvg_state.x (dvg m) in
  let y0 := dvg_state.y (dvg m) in
  let x1 := s16 (x0 + dx) in
  let y1 := s16 (y0 + dy) in
  let steps := Z.quot (Z.max (Z.abs dx) (Z.abs dy)) 4 in
  let steps := if steps <? 1 then 1 else steps in
  let steps := if 20 <? steps then 20 else steps in
  let m :=
    fold_left
      (fun m i =>
         let i := Z.of_nat i in
         dvg_add_point (s16 (x0 + Z.quot (dx * i) steps))
                       (s16 (y0 + Z.quot (dy * i) steps)) brightness m)
      (seq 0 (Z.to_nat (steps + 1))) m in
  upd (fun d => dvg_state.set_y y1 (dvg_state.set_x x1 d)) m.

(** [case 0xE, 0xF]: SVEC *)
Definition dvg_execute_svec (opcode : Z) (m : machine) : machine :=
  let dy := Z.land (Z.shiftr opcode 0) 0x07 in
  let dx := Z.land (Z.shiftr opcode 8) 0x07 in
  let brightness := Z.land (Z.shiftr opcode 4) 0x0F in
  let dy := if nz (Z.land dy 0x04) then s16 (Z.lor dy 0xFFF8) else dy in
  let dx := if nz (Z.land dx 0x04) then s16 (Z.lor dx 0xFFF8) else dx in
  let scale := aget 0 scale_table (dvg_state.scale (dvg m)) in
  let dx := s16 (Z.shiftr (dx * scale) 1) in
  let dy := s16 (Z.shiftr (dy * scale) 1) in
  let x1 := s16 (dvg_state.x (dvg m) + dx) in
  let y1 := s16 (dvg_state.y (dvg m) + dy) in
  let m := dvg_add_point (dvg_state.x (dvg m)) (dvg_state.y (dvg m)) brightness m in
  let m := dvg_add_point x1 y1 brightness m in
  upd (fun d => dvg_state.set_y y1 (dvg_state.set_x x1 d)) m.

(** One pass through the [while] body of [dvg_execute]. *)
Definition dvg_execute_step (m : machine) : machine :=
  let opcode := dvg_read_word m (dvg_state.pc (dvg m)) in
  let m := upd (fun d => dvg_state.set_pc (u16 (dvg_state.pc d + 2)) d) m in
  let op := Z.land (Z.shiftr opcode 12) 0x0F in
  if op <? 0x8 then dvg_execute_vctr opcode m
  else if op <? 0xA then
    let next := dvg_read_word m (dvg_state.pc (dvg m)) in
    let m := upd (fun d => dvg_state.set_pc (u16 (dvg_state.pc d + 2)) d) m in
    upd (fun d => dvg_state.set_x (s16 (Z.land next 0x03FF))
                    (dvg_state.set_y (s16 (Z.land opcode 0x03FF)) d)) m
  else if op =? 0xA then
    let target := Z.land opcode 0x0FFF in
    let d := dvg m in
    let d :=
      if dvg_state.stack_ptr d <? 4 then
        dvg_state.set_stack_ptr (u8 (dvg_state.stack_ptr d + 1))
          (dvg_state.set_stack
             (aset (dvg_state.stack d) (dvg_state.stack_ptr d) (dvg_state.pc d)) d)
      else d in
    set_dvg (dvg_state.set_pc target d) m
  else if op =? 0xB then upd (dvg_state.set_halt true) m
  else if op =? 0xC then
    let d := dvg m in
    if 0 <? dvg_state.stack_ptr d then
      let sp := u8 (dvg_state.stack_ptr d - 1) in
      set_dvg (dvg_state.set_pc (aget 0 (dvg_state.stack d) sp)
                 (dvg_state.set_stack_ptr sp d)) m
    else upd (dvg_state.set_halt true) m
  else if op =? 0xD then
    upd (dvg_state.set_pc (Z.land opcode 0x0FFF)) m
  else dvg_execute_svec opcode m.

(** [while (!dvg_state.halt && max_ops-- > 0)] *)
Fixpoint dvg_execute_loop (max_ops : nat) (m : machine) : machine :=
  match max_ops with
  | O => m
  | S max_ops =>
      if dvg_state.halt (dvg m) then m
      else dvg_execute_loop max_ops (dvg_execute_step m)
  end.

Definition dvg_execute (m : machine) : machine :=
  let m := dvg_reset m in
  let b := vbuf m in
  let m := set_vbuf (vector_buffer.mk (vector_buffer.points b)
                                      (vector_buffer.intensity b) 0) m in
  dvg_execute_loop (Z.to_nat 10000) m.

End Emulator.

(** ** The NMI pacer of [emulation_task] *)

Definition INSTRUCTIONS_PER_NMI : Z := 300.

(** Locals of [emulation_task] that pace the NMI line. *)
Record pacer := mkPacer {
  instruction_count : Z;
  nmi_active : bool;
  nmi_release_count : Z;
  nmi_count : Z
}.

Definition pacer_start : pacer := mkPacer 0 false 0 0.

(** One pass through [while (true)] after [cpu->Run(1, cycles)] has
    returned: the new locals and the levels handed to [cpu->NMI], in
    order ([false] pulls the line low and triggers, [true] releases). *)
Definition pacer_step (p : pacer) : pacer * list bool :=
  let p := mkPacer (u32 (instruction_count p + 1)) (nmi_active p)
                   (nmi_release_count p) (nmi_count p) in
  let '(p, ev) :=
    if negb (nmi_active p) && (INSTRUCTIONS_PER_NMI <=? instruction_count p)
    then (mkPacer 0 true 0 (u32 (nmi_count p + 1)), [false])
    else (p, []) in
  if nmi_active p then
    let p := mkPacer (instruction_count p) (nmi_active p)
                     (u32 (nmi_release_count p + 1)) (nmi_count p) in
    if 3 <=? nmi_release_count p
    then (mkPacer (instruction_count p) false (nmi_release_count p) (nmi_count p),
          ev ++ [true])
    else (p, ev)
  else (p, ev).

(** The first [n] passes: per pass, the [cpu->NMI] calls it made. *)
Fixpoint emulation_task (n : nat) (p : pacer) : list (list bool) :=
  match n with
  | O => []
  | S n => let '(p', ev) := pacer_step p in ev :: emulation_task n p'
  end.

(** The locals after [n] passes. *)
Fixpoint pacer_after (n : nat) (p : pacer) : pacer :=
  match n with
  | O => p
  | S n => pacer_after n (fst (pacer_step p))
  end.

(** Number of [cpu->NMI(false)] calls in a log. *)
Definition assert_events (log : list (list bool)) : nat :=
  length (List.filter negb (concat log)).

(** ** The machine as [setup()] leaves it *)

Definition setup_ram : list Z :=
  (fun i => if i <? 0x400 then 0x00 else Z.land (i * 7 + 123) 0xFF)
    <$> seqZ 0 MEM_SIZE_RAM.

Definition setup_dvg : dvg_state.t :=
  dvg_state.mk 0 512 512 0 0 0 0 0 0 0 0 0 [0; 0; 0; 0] 0 true false.

Definition setup_vbuf : vector_buffer.t :=
  vector_buffer.mk (replicate (Z.to_nat VECT_POINTS_PER_FRAME) (0, 0))
                   (replicate (Z.to_nat VECT_POINTS_PER_FRAME) 0) 0.

Definition no_buttons : buttons.t :=
  buttons.mk false false false false false false false.

(** Power-on state with [vram] already written into vector RAM. *)
Definition setup (vram : list Z) : machine :=
  mkMachine setup_ram vram setup_vbuf setup_dvg no_buttons 0x84 false 0 0 0 0.

(** Vector RAM holding [prog] from offset 0, zero elsewhere. *)
Definition vram_of (prog : list Z) : list Z :=
  take (Z.to_nat MEM_SIZE_VECTOR)
       (prog ++ replicate (Z.to_nat MEM_SIZE_VECTOR) 0).

(** Shape of the C arrays: what the declarations in [main.cpp] fix. *)
Definition arrays_ok (m : machine) : Prop :=
  length (ram m) = Z.to_nat MEM_SIZE_RAM /\
  length (vector_ram m) = Z.to_nat MEM_SIZE_VECTOR /\
  length (vector_buffer.points (vbuf m)) = Z.to_nat VECT_POINTS_PER_FRAME /\
  length (vector_buffer.intensity (vbuf m)) = Z.to_nat VECT_POINTS_PER_FRAME /\
  length (dvg_state.stack (dvg m)) = 4%nat.

(** ** Vocabulary of the statements *)

(** The logical inputs behind the IN0 row, by bit number: 3 kHz clock,
    DVG busy, hyperspace, fire; the other bits are not driven. *)
Definition in0_input (m : machine) (n : Z) : bool :=
  if n =? 1 then nz (Z.land (total_cpu_cycles m) 0x100)
  else if n =? 2 then dvg_state.running (dvg m) && negb (dvg_state.halt (dvg m))
  else if n =? 3 then buttons.hyperspace (btn m)
  else if n =? 4 then buttons.fire (btn m)
  else false.

(** The logical inputs behind the IN1 row, by bit number: coin and start
    (each also held by the timed auto-start), thrust, right, left. *)
Definition in1_input (m : machine) (n : Z) : bool :=
  let game_runtime := u32 (millis_now m - in1_start_time m) in
  if n =? 0 then
    buttons.coin (btn m) || ((2000 <=? game_runtime) && (game_runtime <? 4000))
  else if n =? 3 then
    buttons.start (btn m) || ((4000 <=? game_runtime) && (game_runtime <? 6000))
  else if n =? 5 then buttons.thrust (btn m)
  else if n =? 6 then buttons.rotate_right (btn m)
  else if n =? 7 then buttons.rotate_left (btn m)
  else false.

(** The loop body run once per PROM answer in [answers], in order.  An
    answer with ST3 set is 8 plus the handler number: 0x8 DMAPUSH,
    0x9 DMALD, 0xA GOSTROBE, 0xB HALTSTROBE, 0xC LATCH0, 0xD LATCH1,
    0xE LATCH2, 0xF LATCH3. *)
Definition dvg_cycles (rom : Z -> Z) (answers : list Z) (m : machine) : machine :=
  fold_left (fun m p => dvg_cycle rom p m) answers m.

(** Nested calls as the stack sees them: DMAPUSH strobes reached with the
    call opcode 0xC latched and the program counter at the return address
    [r]; what runs in between leaves the stack alone. *)
Definition nested_calls (rets : list Z) (m : machine) : machine :=
  fold_left
    (fun m r =>
       dvg_handler_0
         (upd (fun d => dvg_state.set_op 0xC (dvg_state.set_pc r d)) m))
    rets m.

(** The clipping of a beam coordinate in [dvg_add_vector]. *)
Definition clip1023 (z : Z) : Z :=
  let z := if z <? 0 then 0 else z in
  if 1023 <? z then 1023 else z.

(** ** Invariants *)

(** What the pacer's locals look like after [N] passes from
    [pacer_start]: [q] NMIs so far, [r] passes since the last one. *)
Definition pacer_inv (N : Z) (p : pacer) : Prop :=
  exists q r,
    N = 300 * q + r /\ 0 <= r < 300 /\ 0 <= q /\
    instruction_count p = r /\
    nmi_count p = u32 q /\
    ((q = 0 /\ nmi_active p = false /\ nmi_release_count p = 0) \/
     (0 < q /\ r < 2 /\ nmi_active p = true /\ nmi_release_count p = r + 1) \/
     (0 < q /\ 2 <= r /\ nmi_active p = false /\ nmi_release_count p = 3)).

(** The sequencer loop's own bookkeeping: [max_iterations] counts down
    from 1000 as the passes count up, and [cycles] equals the passes
    because every handler reports 0 cycles. *)
Definition loop_inv (l : loop_state) : Prop :=
  0 <= l_max_iterations l /\
  l_max_iterations l + Z.of_nat (l_passes l) = 1000 /\
  l_cycles l = Z.of_nat (l_passes l).

(** Shape of the sample buffer during an activation that started with the
    beam at [(x0, y0)]: still empty with the beam where it was, or at least
    two samples of which the first is the blank start point. *)
Definition buffer_shape (x0 y0 : Z) (m : machine) : Prop :=
  length (vector_buffer.points (vbuf m)) = Z.to_nat VECT_POINTS_PER_FRAME /\
  length (vector_buffer.intensity (vbuf m)) = Z.to_nat VECT_POINTS_PER_FRAME /\
  ((vector_buffer.count (vbuf m) = 0 /\
    dvg_state.x (dvg m) = x0 /\ dvg_state.y (dvg m) = y0) \/
   (2 <= vector_buffer.count (vbuf m) <= VECT_POINTS_PER_FRAME /\
    vector_buffer.points (vbuf m) !! 0%nat = Some (u16 x0, u16 y0) /\
    vector_buffer.intensity (vbuf m) !! 0%nat = Some 0)).

(** ** Sample inputs *)

(** A ROM image that is zero everywhere; as a sequencer PROM it never
    strobes. *)
Definition rom_zero : Z -> Z := fun _ => 0x00.

(** A PROM2 image that is zero except for the high byte 0x7C of the reset
    vector, which the 6502 fetches from 0xFFFD. *)
Definition rom_reset_vector : Z -> Z :=
  fun off => if off =? 0x7FD then 0x7C else 0x00.

(** A sequencer table that answers GOSTROBE in the start state and
    HALTSTROBE in the state after it; every other entry is 0. *)
Definition prom_draw_then_halt : Z -> Z :=
  fun addr => if addr =? 0x80 then 0xA else if addr =? 0x8A then 0xB else 0x0.

(** Power-on machine with the given buttons held. *)
Definition setup_with_buttons (b : buttons.t) : machine :=
  mkMachine setup_ram (vram_of []) setup_vbuf setup_dvg b 0x84 false 0 0 0 0.

(** A machine whose DVG has just fetched [data] with the given delta
    registers latched. *)
Definition setup_latched (dvx dvy data : Z) : machine :=
  upd (fun d => dvg_state.set_data data
                  (dvg_state.set_dvy dvy (dvg_state.set_dvx dvx d)))
      (setup (vram_of [])).

(** Vector RAM image: a call to word 0x010 at word 0, a return at word
    0x010. *)
Definition call_return_program : list Z :=
  [0x10; 0xC0] ++ replicate 30 0x00 ++ [0x00; 0xD0].

(** Vector RAM image: five calls, each to the next block of 16 words. *)
Definition call_chain_program : list Z :=
  concat ((fun t => [t; 0xC0] ++ replicate 30 0x00)
            <$> [0x10; 0x20; 0x30; 0x40; 0x50]).

(** Vector RAM image: the word 0x00F0 (for the direct interpreter a
    zero-length vector at full brightness) followed by the word 0xB000
    (its HALT). *)
Definition disagreement_program : list Z := [0xF0; 0x00; 0x00; 0xB0].

(** Vector RAM image: the single word 0xA010. *)
Definition call_word_program : list Z := [0x10; 0xA0].

(** Vector RAM image: the single word 0xF370. *)
Definition sentinel_word_program : list Z := [0x70; 0xF3].

(** ** vector_dac.cpp (the [VECT_USE_MCP4821] build that config.h selects) *)

Definition VECT_SPI_CS_X : Z := 5.
Definition VECT_SPI_CS_Y : Z := 16.
Definition VECT_SPI_CS_Z : Z := 17.
Definition VECT_DWELL_US : Z := 2.

(** What the driver does to the pins and the SPI port, in order. *)
Inductive dac_event :=
| spi_beginTransaction
| spi_endTransaction
| digitalWrite (pin : Z) (high : bool)
| spi_write16 (cmd : Z)
| delayMicroseconds (us : Z).

Section VectorDAC.

(** The command bits [DAC_CMD_SINGLE] of [vector_dac.h] (0x3000 there)
    are kept as a parameter: the results need only that they leave the
    data field empty. *)
Variable DAC_CMD_SINGLE : Z.

Definition write_dac_single (cs_pin value : Z) : list dac_event :=
  let cmd := u16 (Z.lor DAC_CMD_SINGLE (Z.land value 0x0FFF)) in
  [spi_beginTransaction; digitalWrite cs_pin false; spi_write16 cmd;
   digitalWrite cs_pin true; spi_endTransaction].

Definition setXY (x y : Z) : list dac_event :=
  let x := Z.land x 0x0FFF in
  let y := Z.land y 0x0FFF in
  write_dac_single VECT_SPI_CS_X x ++ [delayMicroseconds 1]
  ++ write_dac_single VECT_SPI_CS_Y y.

Definition setIntensity (intensity : Z) : list dac_event :=
  let z_value :=
    if 0 <? intensity
    then u16 (Z.lor (Z.shiftl (u16 intensity) 4) (Z.shiftr intensity 4))
    else 0 in
  write_dac_single VECT_SPI_CS_Z z_value.

Definition blank : list dac_event := setIntensity 0.
Definition unblank : list dac_event := setIntensity 255.

Definition setXYZ (x y intensity : Z) : list dac_event :=
  setXY x y ++ setIntensity intensity.

(** [render_vectors] of main.cpp. *)
Definition render_vectors (m : machine) : list dac_event :=
  flat_map
    (fun i =>
       let '(x, y) := aget (0, 0) (vector_buffer.points (vbuf m)) i in
       setXY x y ++ [delayMicroseconds VECT_DWELL_US])
    (seqZ 0 (vector_buffer.count (vbuf m))).

End VectorDAC.

(** What the DAC chips receive: the data field (bits 11-0) of each SPI
    word, with the chip-select pin that was low when it was clocked out. *)
Fixpoint dac_words (low : option Z) (ev : list dac_event) : list (option Z * Z) :=
  match ev with
  | [] => []
  | digitalWrite pin false :: ev => dac_words (Some pin) ev
  | digitalWrite pin true :: ev => dac_words None ev
  | spi_write16 cmd :: ev => (low, Z.land cmd 0x0FFF) :: dac_words low ev
  | _ :: ev => dac_words low ev
  end.

(** ** Buttons ([read_buttons] of main.cpp, pins of config.h) *)

Definition BTN_LEFT_PIN : Z := 32.
Definition BTN_RIGHT_PIN : Z := 33.
Definition BTN_UP_PIN : Z := 34.
Definition BTN_DOWN_PIN : Z := 35.
Definition BTN_FIRE_PIN : Z := 15.
Definition BTN_START_PIN : Z := 14.
Definition BTN_COIN_PIN : Z := 27.

Definition set_btn v (m : machine) :=
  mkMachine (ram m) (vector_ram m) (vbuf m) (dvg m) v (dip_switches m)
            (clock_3khz m) (total_cpu_cycles m) (dvg_frame_count m)
            (millis_now m) (game_start_time m).

(** [read_buttons], with [digitalRead] the level of each GPIO pin. *)
Definition read_buttons (digitalRead : Z -> Z) (m : machine) : machine :=
  set_btn
    (buttons.mk (negb (nz (digitalRead BTN_LEFT_PIN)))
                (negb (nz (digitalRead BTN_RIGHT_PIN)))
                (negb (nz (digitalRead BTN_UP_PIN)))
                (negb (nz (digitalRead BTN_DOWN_PIN)))
                (negb (nz (digitalRead BTN_FIRE_PIN)))
                (negb (nz (digitalRead BTN_START_PIN)))
                (negb (nz (digitalRead BTN_COIN_PIN))))
    m.

(** ** vector_logger.cpp *)

(** The declarations of [vector_logger.h]: the four modes; the [size_t]
    counters and the [uint32_t] frame number, 32-bit unsigned on the
    ESP32; the [uint16_t] statistics. *)
Inductive LogMode := LOG_DISABLED | LOG_CSV | LOG_BINARY | LOG_TEXT.

Module logger.
Record t := mk {
  logging_active : bool;
  mode : LogMode;
  point_count : Z;
  frame_count : Z;
  current_frame : Z;
  bytes_written : Z;
  min_x : Z; max_x : Z;
  min_y : Z; max_y : Z;
  min_z : Z; max_z : Z;
  serial : list Z            (* every byte handed to [Serial], oldest first *)
}.
End logger.

(** The bytes of a C string, and [printf] conversions [%u]/[%lu] and
    [%4u] (right-justified in four columns). *)
Definition bytes_of (s : string) : list Z :=
  map (fun c => Z.of_N (N_of_ascii c)) (list_ascii_of_string s).

Definition fmt_u (n : Z) : string := pretty (Z.to_N n).

Definition fmt_4u (n : Z) : string :=
  let s := fmt_u n in
  String.string_of_list_ascii (repeat " "%char (4 - String.length s)) ++ s.

Definition VectorLogger : logger.t :=
  logger.mk false LOG_DISABLED 0 0 0 0 4095 0 4095 0 4095 0 [].

Definition writeSerial_str (s : logger.t) (str : string) : logger.t :=
  logger.mk (logger.logging_active s) (logger.mode s) (logger.point_count s)
            (logger.frame_count s) (logger.current_frame s)
            (u32 (logger.bytes_written s + Z.of_nat (String.length str)))
            (logger.min_x s) (logger.max_x s) (logger.min_y s) (logger.max_y s)
            (logger.min_z s) (logger.max_z s)
            (logger.serial s ++ bytes_of str).

Definition writeSerial_byte (s : logger.t) (byte : Z) : logger.t :=
  logger.mk (logger.logging_active s) (logger.mode s) (logger.point_count s)
            (logger.frame_count s) (logger.current_frame s)
            (u32 (logger.bytes_written s + 1))
            (logger.min_x s) (logger.max_x s) (logger.min_y s) (logger.max_y s)
            (logger.min_z s) (logger.max_z s)
            (logger.serial s ++ [byte]).

Definition resetStats (s : logger.t) : logger.t :=
  logger.mk (logger.logging_active s) (logger.mode s) 0 0 0 0
            4095 0 4095 0 4095 0 (logger.serial s).

Definition updateStats (s : logger.t) (x y z : Z) : logger.t :=
  logger.mk (logger.logging_active s) (logger.mode s) (logger.point_count s)
            (logger.frame_count s) (logger.current_frame s)
            (logger.bytes_written s)
            (if x <? logger.min_x s then x else logger.min_x s)
            (if logger.max_x s <? x then x else logger.max_x s)
            (if y <? logger.min_y s then y else logger.min_y s)
            (if logger.max_y s <? y then y else logger.max_y s)
            (if z <? logger.min_z s then z else logger.min_z s)
            (if logger.max_z s <? z then z else logger.max_z s)
            (logger.serial s).

Definition set_point_count v (s : logger.t) : logger.t :=
  logger.mk (logger.logging_active s) (logger.mode s) v
            (logger.frame_count s) (logger.current_frame s)
            (logger.bytes_written s)
            (logger.min_x s) (logger.max_x s) (logger.min_y s) (logger.max_y s)
            (logger.min_z s) (logger.max_z s) (logger.serial s).

(** The [switch (mode)] of [logXYZ]: one record in the format of the
    mode. *)
Definition logXYZ_record (s : logger.t) (x y z : Z) : logger.t :=
  match logger.mode s with
  | LOG_CSV =>
      writeSerial_str s
        (fmt_u (logger.current_frame s) ++ "," ++ fmt_u x ++ "," ++ fmt_u y
         ++ "," ++ fmt_u z ++ "," ++ String "010" "")
  | LOG_BINARY =>
      let s := writeSerial_byte s (u8 (Z.land x 0xFF)) in
      let s := writeSerial_byte s (u8 (Z.shiftr x 8)) in
      let s := writeSerial_byte s (u8 (Z.land y 0xFF)) in
      let s := writeSerial_byte s (u8 (Z.shiftr y 8)) in
      let s := writeSerial_byte s (u8 (Z.land z 0xFF)) in
      writeSerial_byte s (u8 (Z.shiftr z 8))
  | LOG_TEXT =>
      writeSerial_str s
        ("F" ++ fmt_u (logger.current_frame s) ++ ": (" ++ fmt_4u x ++ ", "
         ++ fmt_4u y ++ ", " ++ fmt_4u z ++ ")" ++ String "010" "")
  | LOG_DISABLED => s
  end.

(** [logXYZ(uint16_t, uint16_t, uint16_t)]. *)
Definition logXYZ (s : logger.t) (x y z : Z) : logger.t :=
  if negb (logger.logging_active s) then s else
  let x := Z.land x 0x0FFF in
  let y := Z.land y 0x0FFF in
  let z := Z.land z 0x0FFF in
  let s := updateStats s x y z in
  let s := logXYZ_record s x y z in
  set_point_count (u32 (logger.point_count s + 1)) s.

(** [logXYZ(uint16_t, uint16_t, uint8_t intensity)]. *)
Definition logXYZ_intensity (s : logger.t) (x y intensity : Z) : logger.t :=
  let z := if 0 <? intensity
           then u16 (Z.lor (Z.shiftl (u16 intensity) 4) (Z.shiftr intensity 4))
           else 0 in
  logXYZ s x y z.

Definition logBlank (s : logger.t) : logger.t :=
  if negb (logger.logging_active s) then s else
  match logger.mode s with
  | LOG_CSV =>
      writeSerial_str s (fmt_u (logger.current_frame s) ++ ",,,0,BLANK"
                         ++ String "010" "")
  | LOG_TEXT =>
      writeSerial_str s ("F" ++ fmt_u (logger.current_frame s) ++ ": BLANK"
                         ++ String "010" "")
  | LOG_BINARY =>
      let s := writeSerial_byte s 0xFF in
      let s := writeSerial_byte s 0xFF in
      let s := writeSerial_byte s 0xFF in
      let s := writeSerial_byte s 0xFF in
      let s := writeSerial_byte s 0x00 in
      writeSerial_byte s 0x00
  | LOG_DISABLED => s
  end.

Definition logUnblank (s : logger.t) : logger.t :=
  if negb (logger.logging_active s) then s else
  match logger.mode s with
  | LOG_CSV =>
      writeSerial_str s (fmt_u (logger.current_frame s) ++ ",,,4095,UNBLANK"
                         ++ String "010" "")
  | LOG_TEXT =>
      writeSerial_str s ("F" ++ fmt_u (logger.current_frame s) ++ ": UNBLANK"
                         ++ String "010" "")
  | LOG_BINARY =>
      let s := writeSerial_byte s 0xFF in
      let s := writeSerial_byte s 0xFF in
      let s := writeSerial_byte s 0xFF in
      let s := writeSerial_byte s 0xFF in
      let s := writeSerial_byte s 0xFF in
      writeSerial_byte s 0xFF
  | LOG_DISABLED => s
  end.

Definition set_mode v (s : logger.t) : logger.t :=
  logger.mk (logger.logging_active s) v (logger.point_count s)
            (logger.frame_count s) (logger.current_frame s)
            (logger.bytes_written s)
            (logger.min_x s) (logger.max_x s) (logger.min_y s) (logger.max_y s)
            (logger.min_z s) (logger.max_z s) (logger.serial s).

Definition set_logging_active v (s : logger.t) : logger.t :=
  logger.mk v (logger.mode s) (logger.point_count s)
            (logger.frame_count s) (logger.current_frame s)
            (logger.bytes_written s)
            (logger.min_x s) (logger.max_x s) (logger.min_y s) (logger.max_y s)
            (logger.min_z s) (logger.max_z s) (logger.serial s).

Definition set_current_frame v (s : logger.t) : logger.t :=
  logger.mk (logger.logging_active s) (logger.mode s) (logger.point_count s)
            (logger.frame_count s) v
            (logger.bytes_written s)
            (logger.min_x s) (logger.max_x s) (logger.min_y s) (logger.max_y s)
            (logger.min_z s) (logger.max_z s) (logger.serial s).

Definition set_frame_count v (s : logger.t) : logger.t :=
  logger.mk (logger.logging_active s) (logger.mode s) (logger.point_count s)
            v (logger.current_frame s)
            (logger.bytes_written s)
            (logger.min_x s) (logger.max_x s) (logger.min_y s) (logger.max_y s)
            (logger.min_z s) (logger.max_z s) (logger.serial s).

Definition beginFrame (s : logger.t) (frame_number : Z) : logger.t :=
  set_current_frame (u32 frame_number) s.

(** [endFrame]; the [Serial.flush] of every tenth frame sends nothing
    new. *)
Definition endFrame (s : logger.t) : logger.t :=
  set_frame_count (u32 (logger.frame_count s + 1)) s.

Section LoggerBegin.

(** The numeric value of each [LogMode] and the value of [millis()] at
    the call. *)
Variable mode_code : LogMode -> Z.
Variable millis : Z.

Definition begin (s : logger.t) (log_mode : LogMode) : logger.t :=
  let s := set_mode log_mode s in
  match logger.mode s with
  | LOG_DISABLED => s
  | _ =>
      let s := set_logging_active true s in
      let s := resetStats s in
      match logger.mode s with
      | LOG_CSV => writeSerial_str s ("frame,x,y,z,comment" ++ String "010" "")
      | LOG_TEXT =>
          let s := writeSerial_str s
                     ("=== Vector Logger Start ===" ++ String "010" "") in
          let s := writeSerial_str s
                     ("Timestamp: " ++ fmt_u millis ++ " ms" ++ String "010" "") in
          writeSerial_str s ("===========================" ++ String "010" "")
      | LOG_BINARY =>
          let s := writeSerial_byte s 86 in
          let s := writeSerial_byte s 69 in
          let s := writeSerial_byte s 67 in
          let s := writeSerial_byte s 49 in
          writeSerial_byte s (u8 (mode_code (logger.mode s)))
      | LOG_DISABLED => s
      end
  end.

End LoggerBegin.

(** One entry of a logging session. *)
Inductive log_call :=
| call_logXYZ (x y z : Z)
| call_logXYZ_intensity (x y intensity : Z)
| call_logBlank
| call_logUnblank
| call_beginFrame (frame_number : Z)
| call_endFrame.

Definition log_step (s : logger.t) (c : log_call) : logger.t :=
  match c with
  | call_logXYZ x y z => logXYZ s x y z
  | call_logXYZ_intensity x y i => logXYZ_intensity s x y i
  | call_logBlank => logBlank s
  | call_logUnblank => logUnblank s
  | call_beginFrame n => beginFrame s n
  | call_endFrame => endFrame s
  end.

Definition log_session (calls : list log_call) (s : logger.t) : logger.t :=
  fold_left log_step calls s.

(** What a call sent: the bytes of [serial] that were not there before. *)
Definition emitted (s s' : logger.t) : list Z :=
  drop (length (logger.serial s)) (logger.serial s').

(** A reader of the binary stream: one 6-byte record as three
    little-endian 16-bit words. *)
Definition decode_record (r : list Z) : option (Z * Z * Z) :=
  match r with
  | [x0; x1; y0; y1; z0; z1] => Some (x0 + 256 * x1, y0 + 256 * y1, z0 + 256 * z1)
  | _ => None
  end.

(** The points a session hands to [updateStats]: the arguments of each
    [logXYZ] after masking, the intensity widened as the overload does. *)
Definition call_point (c : log_call) : option (Z * Z * Z) :=
  match c with
  | call_logXYZ x y z => Some (x mod 4096, y mod 4096, z mod 4096)
  | call_logXYZ_intensity x y i =>
      Some (x mod 4096, y mod 4096,
            (if 0 <? i then u16 (Z.lor (Z.shiftl (u16 i) 4) (Z.shiftr i 4)) else 0)
            mod 4096)
  | _ => None
  end.

(** The mode codes of the [enum] in [vector_logger.h], and a sample
    session. *)
Definition sample_mode_code (mode : LogMode) : Z :=
  match mode with LOG_DISABLED => 0 | LOG_CSV => 1 | LOG_BINARY => 2 | LOG_TEXT => 3 end.

Definition sample_session : list log_call :=
  [call_beginFrame 7; call_logBlank; call_logXYZ 100 200 0; call_logUnblank;
   call_logXYZ_intensity 5000 300 255; call_endFrame].


(** ** Vocabulary of the further results *)

(** Addresses that no branch of the read callback claims. *)
Definition unmapped (a : Z) : bool :=
  ((0x1000 <=? a) && (a <? 0x2000)) ||
  ((0x2008 <=? a) && (a <? 0x2400)) ||
  ((0x2408 <=? a) && (a <? 0x2800)) ||
  ((0x2804 <=? a) && (a <? 0x4000)) ||
  ((0x4800 <=? a) && (a <? 0x5000)) ||
  ((0x5800 <=? a) && (a <? 0x6800)).

(** Addresses whose write branch stores or starts something: RAM, vector
    RAM and DVG GO. *)
Definition write_sensitive (a : Z) : bool :=
  (a <? 0x1000) || ((0x4000 <=? a) && (a <? 0x4800)) || (a =? 0x3000).

(** The content of a [uint8_t] array. *)
Definition bytes (l : list Z) : Prop := Forall (fun b => 0 <= b < 256) l.

(** A sample of the sequencer: 10-bit coordinates, 4-bit intensity. *)
Definition sample_ok (s : Z * Z * Z) : Prop :=
  let '(x, y, i) := s in 0 <= x <= 1023 /\ 0 <= y <= 1023 /\ 0 <= i <= 15.

(** What an activation of the sequencer keeps true of beam and buffer. *)
Definition beam_inv (m : machine) : Prop :=
  length (vector_buffer.points (vbuf m)) = Z.to_nat VECT_POINTS_PER_FRAME /\
  length (vector_buffer.intensity (vbuf m)) = Z.to_nat VECT_POINTS_PER_FRAME /\
  0 <= vector_buffer.count (vbuf m) <= VECT_POINTS_PER_FRAME /\
  Forall sample_ok (samples (vbuf m)) /\
  0 <= dvg_state.x (dvg m) <= 1023 /\
  0 <= dvg_state.y (dvg m) <= 1023 /\
  0 <= dvg_state.intensity (dvg m) <= 15 /\
  bytes (vector_ram m) /\
  0 <= dvg_state.data (dvg m) < 256.

(** Everything outside the DVG registers, the sample buffer and the frame
    counter. *)
Definition same_memory (m0 m : machine) : Prop :=
  ram m = ram m0 /\ vector_ram m = vector_ram m0 /\ btn m = btn m0 /\
  dip_switches m = dip_switches m0 /\ clock_3khz m = clock_3khz m0 /\
  total_cpu_cycles m = total_cpu_cycles m0 /\
  millis_now m = millis_now m0 /\ game_start_time m = game_start_time m0.

(** A sample of the direct interpreter: 12-bit coordinates, 8-bit
    intensity. *)
Definition dac_ok (s : Z * Z * Z) : Prop :=
  let '(x, y, i) := s in 0 <= x <= 4095 /\ 0 <= y <= 4095 /\ 0 <= i <= 255.

(** What a run of the direct interpreter keeps true of buffer and stack. *)
Definition exec_inv (m : machine) : Prop :=
  length (vector_buffer.points (vbuf m)) = Z.to_nat VECT_POINTS_PER_FRAME /\
  length (vector_buffer.intensity (vbuf m)) = Z.to_nat VECT_POINTS_PER_FRAME /\
  0 <= vector_buffer.count (vbuf m) <= VECT_POINTS_PER_FRAME /\
  Forall dac_ok (samples (vbuf m)) /\
  length (dvg_state.stack (dvg m)) = 4%nat /\
  0 <= dvg_state.stack_ptr (dvg m) <= 4.

(** The clipping of a scaled coordinate in [dvg_add_point]. *)
Definition clip4095 (z : Z) : Z :=
  let z := if z <? 0 then 0 else z in
  if 4095 <? z then 4095 else z.

(** Nested returns as the stack sees them: DMALD strobes reached with the
    return opcode 0xD latched. *)
Definition nested_returns (n : nat) (m : machine) : machine :=
  Nat.iter n (fun m => dvg_handler_1 (upd (dvg_state.set_op 0xD) m)) m.

(** The accounting invariant of the logger: [bytes_written] is the number
    of bytes sent since [base] bytes were on the line. *)
Definition counted (base : nat) (s : logger.t) : Prop :=
  (base <= length (logger.serial s))%nat /\
  logger.bytes_written s
  = u32 (Z.of_nat (length (logger.serial s)) - Z.of_nat base).

(** The frames a session closes. *)
Definition frames_ended (calls : list log_call) : nat :=
  length (List.filter (fun c => match c with call_endFrame => true | _ => false end)
                      calls).

(** Two logger states that differ at most in the frame counters. *)
Definition same_log (s s' : logger.t) : Prop :=
  logger.logging_active s' = logger.logging_active s /\
  logger.mode s' = logger.mode s /\
  logger.point_count s' = logger.point_count s /\
  logger.bytes_written s' = logger.bytes_written s /\
  logger.serial s' = logger.serial s /\
  (logger.min_x s', logger.max_x s') = (logger.min_x s, logger.max_x s) /\
  (logger.min_y s', logger.max_y s') = (logger.min_y s, logger.max_y s) /\
  (logger.min_z s', logger.max_z s') = (logger.min_z s, logger.max_z s).

(** The statistics of the logger bracket a set of points. *)
Definition stats_cover (s : logger.t) (pts : list (Z * Z * Z)) : Prop :=
  Forall (fun p : Z * Z * Z =>
            let '(x, y, z) := p in
            logger.min_x s <= x <= logger.max_x s /\
            logger.min_y s <= y <= logger.max_y s /\
            logger.min_z s <= z <= logger.max_z s) pts.

(** ** Further sample inputs *)

(** [prom_draw_then_halt] with every entry below 0x80 replaced. *)
Definition prom_lower_half_filled : Z -> Z :=
  fun addr => if addr <? 0x80 then 0xF else prom_draw_then_halt addr.

(** Vector RAM image for the direct interpreter: a vector from the centre,
    a beam move to (1000, 10), a short vector, a beam move to
    (1023, 1023), a vector and HALT. *)
Definition draw_program : list Z :=
  [0x75; 0x0F;  0x0A; 0x80; 0xE8; 0x03;  0xF3; 0xF3;
   0xFF; 0x83; 0xFF; 0x03;  0xF5; 0x0F;  0x00; 0xB0].

(** Vector RAM image for the direct interpreter: five JSRL words, each to
    the next block of 16 bytes, and HALT at the last target. *)
Definition jsrl_chain_program : list Z :=
  concat ((fun t => [t; 0xA0] ++ replicate 14 0x00)
            <$> [0x10; 0x20; 0x30; 0x40; 0x50]) ++ [0x00; 0xB0].

(** The command word of [vector_dac.h]: gain and buffer bits set, empty
    data field. *)
Definition sample_dac_cmd : Z := 0x3000.

(** A machine whose buffer holds two samples, one of them off the 12-bit
    range. *)
Definition setup_two_samples : machine :=
  set_vbuf (vector_buffer.mk [(1, 2); (5000, 4)] [0; 15] 2) (setup (vram_of [])).

(** * Proofs *)

(** ** Arithmetic helpers *)

Lemma u16_small z : 0 <= z < 65536 -> u16 z = z.
Proof. intros; unfold u16; apply Z.mod_small; lia. Qed.

Lemma u8_small z : 0 <= z < 256 -> u8 z = z.
Proof. intros; unfold u8; apply Z.mod_small; lia. Qed.

Lemma s16_small z : -32768 <= z < 32768 -> s16 z = z.
Proof. intros; unfold s16; rewrite Z.mod_small; lia. Qed.

Section BusProofs.

Variables rom_vector prom0 prom1 prom2 : Z -> Z.
Variable prom : Z -> Z.


(** Reads inside the mirrored part of the window only see the offset
    modulo 6 KB. *)
Lemma read_rom_window m a :
  0x6800 <= a < 0xF800 ->
  read rom_vector prom0 prom1 prom2 m a =
    let off := (a - 0x6800) mod 0x1800 in
    if 0x1000 <=? off then prom2 (off - 0x1000)
    else if 0x0800 <=? off then prom1 (off - 0x0800)
    else prom0 off.
Proof.
  intros Ha. unfold read, cpu6502_read_callback.
  assert (Hoff : u16 (Z.rem (u16 (a - 0x6800)) 0x1800) = (a - 0x6800) mod 0x1800).
  { rewrite (u16_small (a - 0x6800)) by lia.
    rewrite Z.rem_mod_nonneg by lia.
    apply u16_small.
    pose proof (Z.mod_pos_bound (a - 0x6800) 0x1800); lia. }
  rewrite Hoff. cbv zeta.
  destruct (Z.ltb_spec a 0x1000); [lia|].
  destruct (Z.ltb_spec a 0x4800); [lia|]. rewrite andb_false_r.
  destruct (Z.ltb_spec a 0x5800); [lia|]. rewrite andb_false_r.
  destruct (Z.ltb_spec a 0x2008); [lia|]. rewrite andb_false_r.
  destruct (Z.ltb_spec a 0x2408); [lia|]. rewrite andb_false_r.
  destruct (Z.ltb_spec a 0x2804); [lia|]. rewrite andb_false_r.
  destruct (Z.leb_spec 0x6800 a); [|lia].
  destruct (Z.leb_spec 0xF800 a); [lia|].
  repeat match goal with
         | |- context [if ?c then _ else _] => destruct c
         end; reflexivity.
Qed.

(** Reads of the top 2 KB come straight from PROM2. *)
Lemma read_high_vectors m a :
  0xF800 <= a < 0x10000 -> read rom_vector prom0 prom1 prom2 m a = prom2 (a - 0xF800).
Proof.
  intros Ha. unfold read, cpu6502_read_callback.
  destruct (Z.ltb_spec a 0x1000); [lia|].
  destruct (Z.ltb_spec a 0x4800); [lia|]. rewrite andb_false_r.
  destruct (Z.ltb_spec a 0x5800); [lia|]. rewrite andb_false_r.
  destruct (Z.ltb_spec a 0x2008); [lia|]. rewrite andb_false_r.
  destruct (Z.ltb_spec a 0x2408); [lia|]. rewrite andb_false_r.
  destruct (Z.ltb_spec a 0x2804); [lia|]. rewrite andb_false_r.
  destruct (Z.leb_spec 0x6800 a); [|lia].
  destruct (Z.leb_spec 0xF800 a); [|lia].
  cbn [fst]. rewrite u16_small by lia. reflexivity.
Qed.

(** C1 (as the code has it): inside the program-ROM window the 6 KB
    image is mirrored up to 0xF7FF, [read (0x6800 + k)] equals
    [read (0x6800 + k mod 0x1800)] for every [k < 0x9000]; the last 2 KB,
    0xF800-0xFFFF, are not part of the mirror but always show PROM2,
    which is what the bus also returns at 0x7800 + (k - 0x9000). *)
Theorem rom_window_mirror m k :
  0 <= k < 0x9800 ->
  read rom_vector prom0 prom1 prom2 m (0x6800 + k) =
    if k <? 0x9000 then read rom_vector prom0 prom1 prom2 m (0x6800 + k mod 0x1800)
    else read rom_vector prom0 prom1 prom2 m (0x7800 + (k - 0x9000)).
Proof.
  intros Hk. destruct (Z.ltb_spec k 0x9000) as [Hlt|Hge].
  - pose proof (Z.mod_pos_bound k 0x1800 ltac:(lia)) as Hm.
    rewrite !read_rom_window by lia.
    replace (0x6800 + k - 0x6800) with k by lia.
    replace (0x6800 + k mod 0x1800 - 0x6800) with (k mod 0x1800) by lia.
    rewrite Z.mod_mod by lia. reflexivity.
  - rewrite read_high_vectors by lia.
    rewrite read_rom_window by lia.
    replace (0x7800 + (k - 0x9000) - 0x6800) with (0x1000 + (k - 0x9000)) by lia.
    rewrite (Z.mod_small (0x1000 + (k - 0x9000))) by lia.
    cbv zeta.
    destruct (Z.leb_spec 0x1000 (0x1000 + (k - 0x9000))); [|lia].
    f_equal; lia.
Qed.


Lemma aget_aset_eq (l : list Z) i v :
  0 <= i < Z.of_nat (length l) -> aget 0 (aset l i v) i = v.
Proof.
  intros Hi. unfold aget, aset.
  rewrite list_lookup_insert_eq by lia. reflexivity.
Qed.

(** C3 (as the code has it): a byte written to RAM is read back, except
    that a value of 4 or more written to zero-page 0x5B is stored as 0
    (the frame-throttle workaround); a write to the vector ROM or to the
    program ROM window changes nothing at all, so every later read is as
    before. *)
Theorem ram_write_then_read m a r v :
  arrays_ok m ->
  0 <= v < 256 ->
  0 <= a < 0x1000 ->
  0x5000 <= r < 0x5800 \/ 0x6800 <= r < 0x10000 ->
  read rom_vector prom0 prom1 prom2 (write rom_vector prom m a v) a
  = (if (a =? 0x5B) && (4 <=? v) then 0 else v) /\
  write rom_vector prom m r v = m /\
  forall q,
    read rom_vector prom0 prom1 prom2 (write rom_vector prom m r v) q
    = read rom_vector prom0 prom1 prom2 m q.
Proof.
  intros (Hram & _) Hv Ha Hr. split.
  - unfold read, write, cpu6502_read_callback, cpu6502_write_callback.
    destruct (Z.ltb_spec a 0x1000); [|lia].
    cbn [fst ram set_ram]. apply aget_aset_eq.
    rewrite Hram. unfold MEM_SIZE_RAM. lia.
  - assert (Hw : write rom_vector prom m r v = m).
    { unfold write, cpu6502_write_callback.
      destruct (Z.ltb_spec r 0x1000); [lia|].
      destruct (Z.ltb_spec r 0x4800); [lia|]. rewrite andb_false_r.
      destruct (Z.eqb_spec r 0x3000); [lia|].
      repeat match goal with
             | |- context [if ?c then _ else _] => destruct c
             end; reflexivity. }
    split; [exact Hw|]. intros q. rewrite Hw. reflexivity.
Qed.

End BusProofs.

(** C1, witness: the reset-vector byte at 0xFFFD. *)
Lemma rom_window_mirror_witness :
  let m := setup (vram_of []) in
  let rd := read rom_zero rom_zero rom_zero rom_reset_vector in
  0 <= 0x97FD < 0x9800 /\
  rd m (0x6800 + 0x97FD) =
    if 0x97FD <? 0x9000 then rd m (0x6800 + 0x97FD mod 0x1800)
    else rd m (0x7800 + (0x97FD - 0x9000)).
Proof.
  split; [lia|].
  apply (rom_window_mirror rom_zero rom_zero rom_zero rom_reset_vector); lia.
Defined.

(** C1, as claimed, fails at 0xFFFD: with PROM0 blank and the reset vector
    in PROM2 the bus shows 0x7C there, while the mirror formula points at
    0x6FFD, which lies in PROM0 and reads 0x00. *)
Lemma rom_window_mirror_fails_at_FFFD :
  let m := setup (vram_of []) in
  let rd := read rom_zero rom_zero rom_zero rom_reset_vector in
  rd m (0x6800 + 0x97FD) = 0x7C /\
  rd m (0x6800 + 0x97FD mod 0x1800) = 0x00 /\
  rd m (0x6800 + 0x97FD) <> rd m (0x6800 + 0x97FD mod 0x1800).
Proof. vm_compute. repeat split; congruence. Qed.

(** C3, witness: 0x12 written to RAM at 0x0200 and to ROM at 0x7000 on the
    power-on machine. *)
Lemma ram_write_then_read_witness :
  let m := setup (vram_of []) in
  let rd := read rom_zero rom_zero rom_zero rom_zero in
  let wr := write rom_zero rom_zero in
  rd (wr m 0x200 0x12) 0x200 = (if (0x200 =? 0x5B) && (4 <=? 0x12) then 0 else 0x12) /\
  wr m 0x7000 0x12 = m /\
  forall q, rd (wr m 0x7000 0x12) q = rd m q.
Proof.
  apply (ram_write_then_read rom_zero rom_zero rom_zero rom_zero rom_zero).
  - repeat split; vm_compute; reflexivity.
  - lia.
  - lia.
  - right; lia.
Defined.

(** C3, as claimed, fails at zero-page 0x5B: the byte 4 is written and 0
    is read back. *)
Lemma ram_write_then_read_fails_at_5B :
  let m := setup (vram_of []) in
  read rom_zero rom_zero rom_zero rom_zero
       (write rom_zero rom_zero m 0x5B 4) 0x5B = 0 /\
  read rom_zero rom_zero rom_zero rom_zero
       (write rom_zero rom_zero m 0x5B 4) 0x5B <> 4.
Proof. vm_compute. split; congruence. Qed.

(** ** Bit-level facts used for the latch handlers *)

Lemma land_ff z : Z.land z 0xff = z mod 256.
Proof. change 0xff with (Z.ones 8). rewrite Z.land_ones by lia. reflexivity. Qed.

Lemma land_f z : Z.land z 0xf = z mod 16.
Proof. change 0xf with (Z.ones 4). rewrite Z.land_ones by lia. reflexivity. Qed.

Lemma shiftr_4 z : Z.shiftr z 4 = z / 16.
Proof. rewrite Z.shiftr_div_pow2 by lia. reflexivity. Qed.

Lemma shiftl_8 z : Z.shiftl z 8 = z * 256.
Proof. rewrite Z.shiftl_mul_pow2 by lia. reflexivity. Qed.

Lemma land_f00 z : Z.land z 0xf00 = 256 * ((z / 256) mod 16).
Proof.
  change 0xf00 with (Z.shiftl (Z.ones 4) 8).
  change (256 * ((z / 256) mod 16)) with (2 ^ 8 * ((z / 2 ^ 8) mod 2 ^ 4)).
  rewrite Z.mul_comm, <- Z.shiftr_div_pow2, <- Z.land_ones,
    <- Z.shiftl_mul_pow2, Z.shiftl_land by lia.
  apply Z.bits_inj'. intros n Hn.
  rewrite !Z.land_spec.
  destruct (Z.ltb_spec n 8).
  - rewrite (Z.shiftl_spec_low (Z.ones 4)) by lia.
    rewrite !andb_false_r. reflexivity.
  - rewrite (Z.shiftl_spec (Z.shiftr z 8)) by lia.
    rewrite Z.shiftr_spec by lia.
    replace (n - 8 + 8) with n by lia. reflexivity.
Qed.

Lemma lor_low_high a b :
  0 <= a < 256 -> Z.lor a (b * 256) = a + b * 256.
Proof.
  intros Ha. symmetry. apply Z.add_nocarry_lor.
  rewrite <- (Z.mod_small a 256), <- land_ff, <- shiftl_8 by lia.
  apply Z.bits_inj'. intros n Hn.
  rewrite !Z.land_spec, Z.bits_0.
  destruct (Z.ltb_spec n 8).
  - rewrite Z.shiftl_spec_low by lia. apply andb_false_r.
  - change 0xff with (Z.ones 8). rewrite Z.ones_spec_high by lia.
    rewrite andb_false_r. reflexivity.
Qed.

(** C7 (as the code has it): LATCH1 puts the low nibble of the fetched
    byte into bits 8-11 of the Y delta, keeps the Y delta's low byte, and
    makes the high nibble the current opcode; when that opcode is the
    sentinel 0xF it clears the low bytes of both delta registers and keeps
    their bits 8-11. *)
Theorem latch1_merges_and_latches m :
  0 <= dvg_state.data (dvg m) < 256 ->
  0 <= dvg_state.dvx (dvg m) < 4096 ->
  0 <= dvg_state.dvy (dvg m) < 4096 ->
  let d := dvg m in
  let d' := dvg (dvg_handler_5 m) in
  dvg_state.op d' = dvg_state.data d / 16 /\
  dvg_state.dvy d' / 256 = dvg_state.data d mod 16 /\
  dvg_state.dvx d' / 256 = dvg_state.dvx d / 256 /\
  (if dvg_state.op d' =? 0xf
   then dvg_state.dvy d' mod 256 = 0 /\ dvg_state.dvx d' mod 256 = 0
   else dvg_state.dvy d' mod 256 = dvg_state.dvy d mod 256 /\
        dvg_state.dvx d' = dvg_state.dvx d).
Proof.
  intros Hdata Hdvx Hdvy d d'. subst d d'.
  unfold dvg_handler_5. cbn [dvg set_dvg].
  set (D := dvg m) in *.
  cbn [dvg_state.op dvg_state.set_op dvg_state.set_dvy dvg_state.set_dvx
       dvg_state.dvx dvg_state.dvy dvg_state.data].
  rewrite land_ff, land_f, shiftr_4, shiftl_8.
  rewrite lor_low_high by (apply Z.mod_pos_bound; lia).
  assert (Hop : u8 (dvg_state.data D / 16) = dvg_state.data D / 16).
  { apply u8_small. split; [apply Z.div_pos; lia|].
    apply Z.div_lt_upper_bound; lia. }
  rewrite Hop.
  assert (Hy : u16 (dvg_state.dvy D mod 256 + dvg_state.data D mod 16 * 256)
               = dvg_state.dvy D mod 256 + dvg_state.data D mod 16 * 256).
  { apply u16_small.
    pose proof (Z.mod_pos_bound (dvg_state.dvy D) 256).
    pose proof (Z.mod_pos_bound (dvg_state.data D) 16). lia. }
  rewrite Hy.
  destruct (Z.eqb_spec (dvg_state.data D / 16) 0xf) as [Hs|Hs];
    cbn [dvg_state.op dvg_state.set_op dvg_state.set_dvy dvg_state.set_dvx
         dvg_state.dvx dvg_state.dvy dvg_state.data];
    rewrite ?land_f00.
  - rewrite Hs. repeat split; try reflexivity.
    all: pose proof (Z.mod_pos_bound (dvg_state.dvy D) 256);
         pose proof (Z.mod_pos_bound (dvg_state.data D) 16);
         Z.div_mod_to_equations; lia.
  - destruct (Z.eqb_spec (dvg_state.data D / 16) 0xf); [contradiction|].
    repeat split; try reflexivity.
    all: pose proof (Z.mod_pos_bound (dvg_state.dvy D) 256);
         pose proof (Z.mod_pos_bound (dvg_state.data D) 16);
         Z.div_mod_to_equations; lia.
Qed.

(** C7, witness: the byte 0xF5 arrives with 0xABC and 0x123 latched. *)
Lemma latch1_merges_and_latches_witness :
  let d := dvg (setup_latched 0xABC 0x123 0xF5) in
  let d' := dvg (dvg_handler_5 (setup_latched 0xABC 0x123 0xF5)) in
  dvg_state.op d' = dvg_state.data d / 16 /\
  dvg_state.dvy d' / 256 = dvg_state.data d mod 16 /\
  dvg_state.dvx d' / 256 = dvg_state.dvx d / 256 /\
  (if dvg_state.op d' =? 0xf
   then dvg_state.dvy d' mod 256 = 0 /\ dvg_state.dvx d' mod 256 = 0
   else dvg_state.dvy d' mod 256 = dvg_state.dvy d mod 256 /\
        dvg_state.dvx d' = dvg_state.dvx d).
Proof.
  apply (latch1_merges_and_latches (setup_latched 0xABC 0x123 0xF5));
    vm_compute; split; congruence.
Defined.

(** C7, as claimed, fails when the sentinel arrives: after the byte 0xF5
    the opcode is 0xF, yet bits 8-11 of the X delta still hold 0xA and
    those of the Y delta hold 0x5; it is the low bytes that are zero. *)
Lemma latch1_sentinel_keeps_high_bits :
  let d' := dvg (dvg_handler_5 (setup_latched 0xABC 0x123 0xF5)) in
  dvg_state.op d' = 0xf /\
  Z.shiftr (dvg_state.dvx d') 8 = 0xA /\
  Z.shiftr (dvg_state.dvy d') 8 = 0x5 /\
  Z.shiftr (dvg_state.dvx d') 8 <> 0 /\
  Z.shiftr (dvg_state.dvy d') 8 <> 0.
Proof. vm_compute. repeat split; congruence. Qed.

(** ** Input ports *)

Lemma bit_select_result_testbit row base n :
  0 <= n < 8 -> Z.land base 7 = 0 -> 0 <= base ->
  bit_select_result row (base + n) = if Z.testbit row n then 0x80 else 0x7F.
Proof.
  intros Hn Hb Hb0. unfold bit_select_result.
  assert (Hsel : Z.land (base + n) 0x07 = n).
  { change 0x07 with (Z.ones 3). rewrite Z.land_ones by lia.
    change 7 with (Z.ones 3) in Hb. rewrite Z.land_ones in Hb by lia.
    change (2 ^ 3) with 8 in *.
    rewrite Z.add_mod, Hb, Z.add_0_l, Z.mod_mod, Z.mod_small by lia.
    reflexivity. }
  rewrite Hsel.
  assert (Hbit : Z.land (Z.shiftr row n) 0x01 = Z.b2z (Z.testbit row n)).
  { change 0x01 with (Z.ones 1). rewrite Z.land_ones by lia.
    rewrite <- Z.bit0_mod, Z.shiftr_spec by lia.
    rewrite Z.add_0_l. reflexivity. }
  rewrite Hbit. destruct (Z.testbit row n); reflexivity.
Qed.

Lemma in0_row_testbit m n :
  0 <= n < 8 -> Z.testbit (in0_row m) n = in0_input m n.
Proof.
  intros Hn. unfold in0_row, in0_input.
  destruct (buttons.hyperspace (btn m)), (buttons.fire (btn m)),
    (nz (Z.land (total_cpu_cycles m) 0x100)),
    (dvg_state.running (dvg m)), (dvg_state.halt (dvg m));
    assert (Hc : n = 0 \/ n = 1 \/ n = 2 \/ n = 3 \/ n = 4 \/ n = 5 \/ n = 6 \/ n = 7)
      by lia;
    decompose [or] Hc; subst n; reflexivity.
Qed.

Lemma in1_row_testbit m n :
  0 <= n < 8 -> Z.testbit (in1_row m) n = in1_input m n.
Proof.
  intros Hn. unfold in1_row, in1_input. cbv zeta.
  set (rt := u32 (millis_now m - in1_start_time m)).
  destruct ((2000 <=? rt) && (rt <? 4000)), ((4000 <=? rt) && (rt <? 6000)),
    (buttons.coin (btn m)), (buttons.start (btn m)), (buttons.thrust (btn m)),
    (buttons.rotate_right (btn m)), (buttons.rotate_left (btn m));
    assert (Hc : n = 0 \/ n = 1 \/ n = 2 \/ n = 3 \/ n = 4 \/ n = 5 \/ n = 6 \/ n = 7)
      by lia;
    decompose [or] Hc; subst n; reflexivity.
Qed.

Section InputProofs.

Variables rom_vector prom0 prom1 prom2 : Z -> Z.


(** C8 (as the code has it): a read of IN0 (0x2000-0x2007) or IN1
    (0x2400-0x2407) returns 0x80 when the logical input selected by the
    low three address bits is active and 0x7F when it is not: bit 7
    carries the input and the seven other bits are its complement, not a
    constant.  The IN1 coin and start inputs also follow the timed
    auto-start window. *)
Theorem input_port_bit_select m n :
  0 <= n < 8 ->
  let r0 := read rom_vector prom0 prom1 prom2 m (0x2000 + n) in
  let r1 := read rom_vector prom0 prom1 prom2 m (0x2400 + n) in
  r0 = (if in0_input m n then 0x80 else 0x7F) /\
  r1 = (if in1_input m n then 0x80 else 0x7F) /\
  Z.testbit r0 7 = in0_input m n /\
  Z.testbit r1 7 = in1_input m n /\
  (forall j, 0 <= j < 7 -> Z.testbit r0 j = negb (in0_input m n)) /\
  (forall j, 0 <= j < 7 -> Z.testbit r1 j = negb (in1_input m n)).
Proof.
  intros Hn r0 r1.
  assert (H0 : r0 = if in0_input m n then 0x80 else 0x7F).
  { subst r0. unfold read, cpu6502_read_callback.
    destruct (Z.ltb_spec (0x2000 + n) 0x1000); [lia|].
    destruct (Z.leb_spec 0x4000 (0x2000 + n)); [lia|]. rewrite andb_false_l.
    destruct (Z.leb_spec 0x5000 (0x2000 + n)); [lia|]. rewrite andb_false_l.
    destruct (Z.leb_spec 0x2000 (0x2000 + n)); [|lia].
    destruct (Z.ltb_spec (0x2000 + n) 0x2008); [|lia].
    cbn [andb fst].
    rewrite bit_select_result_testbit, in0_row_testbit by (reflexivity || lia).
    reflexivity. }
  assert (H1 : r1 = if in1_input m n then 0x80 else 0x7F).
  { subst r1. unfold read, cpu6502_read_callback.
    destruct (Z.ltb_spec (0x2400 + n) 0x1000); [lia|].
    destruct (Z.leb_spec 0x4000 (0x2400 + n)); [lia|]. rewrite andb_false_l.
    destruct (Z.leb_spec 0x5000 (0x2400 + n)); [lia|]. rewrite andb_false_l.
    destruct (Z.ltb_spec (0x2400 + n) 0x2008); [lia|]. rewrite andb_false_r.
    destruct (Z.leb_spec 0x2400 (0x2400 + n)); [|lia].
    destruct (Z.ltb_spec (0x2400 + n) 0x2408); [|lia].
    cbn [andb fst].
    rewrite bit_select_result_testbit, in1_row_testbit by (reflexivity || lia).
    reflexivity. }
  rewrite H0, H1.
  repeat split.
  - destruct (in0_input m n); reflexivity.
  - destruct (in1_input m n); reflexivity.
  - intros j Hj.
    assert (Hc : j = 0 \/ j = 1 \/ j = 2 \/ j = 3 \/ j = 4 \/ j = 5 \/ j = 6) by lia.
    destruct (in0_input m n); decompose [or] Hc; subst j; reflexivity.
  - intros j Hj.
    assert (Hc : j = 0 \/ j = 1 \/ j = 2 \/ j = 3 \/ j = 4 \/ j = 5 \/ j = 6) by lia.
    destruct (in1_input m n); decompose [or] Hc; subst j; reflexivity.
Qed.

End InputProofs.

(** C8, witness: hyperspace held, IN0 and IN1 read at bit 3. *)
Lemma input_port_bit_select_witness :
  let m := setup_with_buttons (buttons.mk false false false true false false false) in
  let rd := read rom_zero rom_zero rom_zero rom_zero in
  let r0 := rd m (0x2000 + 3) in
  let r1 := rd m (0x2400 + 3) in
  r0 = (if in0_input m 3 then 0x80 else 0x7F) /\
  r1 = (if in1_input m 3 then 0x80 else 0x7F) /\
  Z.testbit r0 7 = in0_input m 3 /\
  Z.testbit r1 7 = in1_input m 3 /\
  (forall j, 0 <= j < 7 -> Z.testbit r0 j = negb (in0_input m 3)) /\
  (forall j, 0 <= j < 7 -> Z.testbit r1 j = negb (in1_input m 3)).
Proof.
  apply (input_port_bit_select rom_zero rom_zero rom_zero rom_zero); lia.
Defined.

(** C8, as claimed, fails with hyperspace held: the read of 0x2003 returns
    0x80, so the designated bit 7 is set and bit 0, one of the bits said to
    be fixed to 1, is 0. *)
Lemma input_port_other_bits_not_fixed :
  let m := setup_with_buttons (buttons.mk false false false true false false false) in
  let r := read rom_zero rom_zero rom_zero rom_zero m 0x2003 in
  r = 0x80 /\ Z.testbit r 7 = true /\ Z.testbit r 0 = false /\
  Z.testbit r 0 <> true.
Proof. vm_compute. repeat split; congruence. Qed.


(** ** NMI pacer *)

Ltac fin :=
  repeat split;
  first [lia | reflexivity | unfold u32; rewrite ?Z.mod_small by lia; lia].
Ltac close_inv :=
  cbn -[u32]; repeat split; try lia;
  try first [left; solve [fin] | right; left; solve [fin] | right; right; solve [fin]].

Lemma pacer_step_inv N p :
  pacer_inv N p ->
  pacer_inv (N + 1) (fst (pacer_step p)) /\
  snd (pacer_step p) =
    if (N + 1) mod 300 =? 0 then [false]
    else if (300 <? N + 1) && ((N + 1) mod 300 =? 2) then [true]
    else [].
Proof.
  intros (q & r & HN & Hr & Hq & Hic & Hnc & Hst).
  destruct p as [ic act rc nc]. cbn in Hic, Hnc, Hst. subst ic nc.
  assert (Hmod : (N + 1) mod 300 = if r =? 299 then 0 else r + 1).
  { destruct (Z.eqb_spec r 299); subst N; Z.div_mod_to_equations; lia. }
  rewrite Hmod. unfold pacer_step, INSTRUCTIONS_PER_NMI.
  cbn [instruction_count nmi_active nmi_release_count nmi_count].
  assert (Hu : u32 (r + 1) = r + 1) by (unfold u32; apply Z.mod_small; lia).
  rewrite Hu.
  destruct Hst as [(-> & -> & ->) | [(Hq0 & Hr2 & -> & ->) | (Hq0 & Hr2 & -> & ->)]];
    cbn [negb andb].
  - (* before the first NMI *)
    destruct (Z.leb_spec 300 (r + 1)) as [Hge|Hlt].
    + assert (r = 299) by lia. subst r.
      cbn -[u32 Z.leb]. change (3 <=? u32 (0 + 1)) with false.
      cbn -[u32]. split; [|reflexivity].
      exists 1, 0. close_inv.
    + cbn [fst snd nmi_active].
      destruct (Z.eqb_spec r 299); [lia|].
      destruct (Z.eqb_spec (r + 1) 0); [lia|].
      destruct (Z.ltb_spec 300 (N + 1)); [lia|]. cbn [andb].
      split; [|reflexivity].
      exists 0, (r + 1). close_inv.
  - (* line held low *)
    cbn [nmi_active nmi_release_count instruction_count nmi_count].
    assert (Hu2 : u32 (r + 1 + 1) = r + 1 + 1) by (unfold u32; apply Z.mod_small; lia).
    rewrite Hu2.
    destruct (Z.eqb_spec r 299); [lia|].
    destruct (Z.eqb_spec (r + 1) 0); [lia|].
    destruct (Z.leb_spec 3 (r + 1 + 1)) as [Hrel|Hhold]; cbn [fst snd app].
    + assert (r = 1) by lia. subst r.
      destruct (Z.ltb_spec 300 (N + 1)); [|lia].
      split; [|reflexivity].
      exists q, 2. close_inv.
    + assert (r = 0) by lia. subst r.
      rewrite andb_false_r. split; [|reflexivity].
      exists q, 1. close_inv.
  - (* line released, counting up to the next NMI *)
    destruct (Z.leb_spec 300 (r + 1)) as [Hge|Hlt].
    + assert (r = 299) by lia. subst r.
      cbn -[u32 Z.leb]. change (3 <=? u32 (0 + 1)) with false.
      cbn -[u32]. split; [|reflexivity].
      exists (q + 1), 0. close_inv.
      unfold u32. rewrite Zplus_mod_idemp_l. reflexivity.
    + cbn [fst snd nmi_active].
      destruct (Z.eqb_spec r 299); [lia|].
      destruct (Z.eqb_spec (r + 1) 0); [lia|].
      destruct (Z.eqb_spec (r + 1) 2); [lia|]. rewrite andb_false_r.
      split; [|reflexivity].
      exists q, (r + 1). close_inv.
Qed.

Lemma pacer_after_succ n p :
  pacer_after (S n) p = fst (pacer_step (pacer_after n p)).
Proof.
  revert p. induction n as [|n IH]; intros p; [reflexivity|].
  change (pacer_after (S (S n)) p) with (pacer_after (S n) (fst (pacer_step p))).
  rewrite IH. reflexivity.
Qed.

Lemma pacer_after_inv n : pacer_inv (Z.of_nat n) (pacer_after n pacer_start).
Proof.
  induction n as [|n IH].
  - exists 0, 0. close_inv.
  - rewrite pacer_after_succ, Nat2Z.inj_succ, <- Z.add_1_r.
    apply pacer_step_inv, IH.
Qed.

Lemma emulation_task_nth n i p :
  (i < n)%nat ->
  nth i (emulation_task n p) [] = snd (pacer_step (pacer_after i p)).
Proof.
  revert i p. induction n as [|n IH]; intros i p Hi; [lia|].
  cbn [emulation_task]. destruct (pacer_step p) as [p' ev] eqn:Hstep.
  destruct i as [|i]; cbn [nth pacer_after].
  - rewrite Hstep. reflexivity.
  - rewrite IH by lia. rewrite Hstep. reflexivity.
Qed.

Lemma emulation_task_succ n p :
  emulation_task (S n) p =
  snd (pacer_step p) :: emulation_task n (fst (pacer_step p)).
Proof. cbn [emulation_task]. destruct (pacer_step p); reflexivity. Qed.

Lemma emulation_task_snoc n p :
  emulation_task (S n) p =
  emulation_task n p ++ [snd (pacer_step (pacer_after n p))].
Proof.
  revert p. induction n as [|n IH]; intros p.
  - rewrite emulation_task_succ. reflexivity.
  - rewrite (emulation_task_succ (S n) p), (emulation_task_succ n p), IH.
    reflexivity.
Qed.

Lemma assert_events_count n :
  assert_events (emulation_task n pacer_start)
  = Z.to_nat (Z.of_nat n / INSTRUCTIONS_PER_NMI).
Proof.
  unfold INSTRUCTIONS_PER_NMI. induction n as [|n IH]; [reflexivity|].
  rewrite emulation_task_snoc. unfold assert_events in *.
  rewrite concat_app, List.filter_app, length_app, IH.
  destruct (pacer_step_inv _ _ (pacer_after_inv n)) as [_ ->].
  rewrite Nat2Z.inj_succ, <- Z.add_1_r.
  set (N := Z.of_nat n). assert (0 <= N) by lia.
  destruct (Z.eqb_spec ((N + 1) mod 300) 0) as [Hz|Hz].
  - cbn [concat app List.filter negb length].
    replace ((N + 1) / 300) with (N / 300 + 1)
      by (Z.div_mod_to_equations; lia).
    rewrite Z2Nat.inj_add by (try apply Z.div_pos; lia). reflexivity.
  - replace ((N + 1) / 300) with (N / 300)
      by (Z.div_mod_to_equations; lia).
    destruct ((300 <? N + 1) && ((N + 1) mod 300 =? 2)); cbn; lia.
Qed.

(** C10 (as the code has it): in a run of [n] passes from the start, the
    line is pulled low [n / 300] times, namely in every pass whose number is
    a multiple of 300; it is released in the second pass after that one
    (pass 300 q + 2), because the release counter already counts the
    asserting pass itself, and no other pass touches the line. *)
Theorem nmi_pacer_schedule (n : nat) (j : Z) :
  1 <= j <= Z.of_nat n ->
  let log := emulation_task n pacer_start in
  assert_events log = Z.to_nat (Z.of_nat n / INSTRUCTIONS_PER_NMI) /\
  nth (Z.to_nat (j - 1)) log [] =
    if j mod INSTRUCTIONS_PER_NMI =? 0 then [false]
    else if (INSTRUCTIONS_PER_NMI <? j) && (j mod INSTRUCTIONS_PER_NMI =? 2)
         then [true]
         else [].
Proof.
  intros Hj log. split; [apply assert_events_count|].
  subst log. rewrite emulation_task_nth by lia.
  destruct (pacer_step_inv _ _ (pacer_after_inv (Z.to_nat (j - 1)))) as [_ ->].
  rewrite Z2Nat.id by lia. replace (j - 1 + 1) with j by lia.
  reflexivity.
Qed.

(** C10, witness: pass 302 of a run of 303 passes. *)
Lemma nmi_pacer_schedule_witness :
  1 <= 302 <= Z.of_nat 303 /\
  let log := emulation_task 303 pacer_start in
  assert_events log = Z.to_nat (Z.of_nat 303 / INSTRUCTIONS_PER_NMI) /\
  nth (Z.to_nat (302 - 1)) log [] =
    if 302 mod INSTRUCTIONS_PER_NMI =? 0 then [false]
    else if (INSTRUCTIONS_PER_NMI <? 302) && (302 mod INSTRUCTIONS_PER_NMI =? 2)
         then [true]
         else [].
Proof.
  split; [lia|]. apply (nmi_pacer_schedule 303 302). lia.
Defined.

(** C10, as claimed, fails in a run of 303 passes: the line goes low in
    pass 300 (index 299) and is released in pass 302; pass 303, three
    passes after the assertion, makes no call at all. *)
Lemma nmi_release_not_three_passes_later :
  let log := emulation_task 303 pacer_start in
  nth 299 log [] = [false] /\
  nth 300 log [] = [] /\
  nth 301 log [] = [true] /\
  nth 302 log [] = [] /\
  nth (299 + 3) log [] <> [true].
Proof. vm_compute. repeat split; congruence. Qed.

(** ** Sequencer cycles and the return stack *)

Lemma land_16_cases L : Z.land L 0x10 = 0 \/ Z.land L 0x10 = 0x10.
Proof.
  destruct (Z.testbit L 4) eqn:Hb; [right|left];
    apply Z.bits_inj'; intros n Hn; rewrite Z.land_spec;
    change 0x10 with (2 ^ 4); rewrite ?Z.bits_0, Z.pow2_bits_eqb by lia;
    destruct (Z.eqb_spec 4 n) as [<-|Hne];
    rewrite ?Hb, ?andb_false_r; reflexivity.
Qed.

(** The state latch after the PROM has answered [p]: the low nibble is
    [p]'s, bit 4 is kept. *)
Lemma next_latch_bits L p :
  0 <= p < 16 ->
  let L' := u8 (Z.lor (Z.land L 0x10) (Z.land p 0x0f)) in
  Z.land L' 0x08 = Z.land p 0x08 /\
  Z.land L' 0x07 = Z.land p 0x07 /\
  Z.land L' 1 = Z.land p 1.
Proof.
  intros Hp L'. subst L'.
  assert (Hc : p = 0 \/ p = 1 \/ p = 2 \/ p = 3 \/ p = 4 \/ p = 5 \/ p = 6 \/ p = 7 \/
               p = 8 \/ p = 9 \/ p = 10 \/ p = 11 \/ p = 12 \/ p = 13 \/ p = 14 \/ p = 15)
    by lia.
  destruct (land_16_cases L) as [-> | ->];
    decompose [or] Hc; subst p; vm_compute; auto.
Qed.

Section CycleFacts.
Variable rom : Z -> Z.

Lemma databus_keeps_latch m :
  dvg_state.state_latch (dvg (dvg_update_databus rom m))
  = dvg_state.state_latch (dvg m).
Proof. reflexivity. Qed.

Lemma dvg_cycle_strobe p m :
  8 <= p < 16 ->
  dvg_cycle rom p m =
  dvg_dispatch (p - 8)
    (dvg_update_databus rom
       (upd (dvg_state.set_state_latch
               (u8 (Z.lor (Z.land (dvg_state.state_latch (dvg m)) 0x10)
                          (Z.land p 0x0f)))) m)).
Proof.
  intros Hp. unfold dvg_cycle.
  destruct (next_latch_bits (dvg_state.state_latch (dvg m)) p ltac:(lia))
    as (H8 & H7 & _).
  cbv zeta. rewrite databus_keeps_latch.
  set (m1 := upd _ m).
  assert (HL : dvg_state.state_latch (dvg m1)
               = u8 (Z.lor (Z.land (dvg_state.state_latch (dvg m)) 0x10)
                           (Z.land p 0x0f))) by reflexivity.
  rewrite HL, H8, H7.
  assert (Hc : p = 8 \/ p = 9 \/ p = 10 \/ p = 11 \/ p = 12 \/ p = 13 \/ p = 14 \/ p = 15)
    by lia.
  decompose [or] Hc; subst p; reflexivity.
Qed.

(** LATCH1 strobe (PROM answer 0xD): the stack and the program counter
    stay put. *)
Lemma cycle_latch1_ctl m :
  let m' := dvg_cycle rom 0xD m in
  dvg_state.pc (dvg m') = dvg_state.pc (dvg m) /\
  dvg_state.stack (dvg m') = dvg_state.stack (dvg m) /\
  dvg_state.stack_ptr (dvg m') = dvg_state.stack_ptr (dvg m).
Proof.
  intros m'. subst m'. rewrite dvg_cycle_strobe by lia.
  change (dvg_dispatch (0xD - 8)) with dvg_handler_5.
  unfold dvg_handler_5. cbv zeta.
  match goal with |- context [if ?c then _ else _] => destruct c end;
    repeat split; reflexivity.
Qed.

(** LATCH0 strobe (PROM answer 0xC): the program counter moves to the
    next word; opcode and stack stay put. *)
Lemma cycle_latch0_ctl m :
  let m' := dvg_cycle rom 0xC m in
  dvg_state.pc (dvg m') = u16 (dvg_state.pc (dvg m) + 1) /\
  dvg_state.op (dvg m') = dvg_state.op (dvg m) /\
  dvg_state.stack (dvg m') = dvg_state.stack (dvg m) /\
  dvg_state.stack_ptr (dvg m') = dvg_state.stack_ptr (dvg m).
Proof.
  intros m'. subst m'. rewrite dvg_cycle_strobe by lia.
  change (dvg_dispatch (0xC - 8)) with dvg_handler_4.
  unfold dvg_handler_4. cbv zeta.
  match goal with |- context [if ?c then _ else _] => destruct c end;
    repeat split; reflexivity.
Qed.

(** DMAPUSH strobe (PROM answer 0x8) with OP0 clear. *)
Lemma cycle_push_ctl m :
  Z.land (dvg_state.op (dvg m)) 1 = 0 ->
  let m' := dvg_cycle rom 0x8 m in
  let sp' := u8 (Z.land (dvg_state.stack_ptr (dvg m) + 1) 0xf) in
  dvg_state.pc (dvg m') = dvg_state.pc (dvg m) /\
  dvg_state.op (dvg m') = dvg_state.op (dvg m) /\
  dvg_state.dvy (dvg m') = dvg_state.dvy (dvg m) /\
  dvg_state.stack_ptr (dvg m') = sp' /\
  dvg_state.stack (dvg m') =
    aset (dvg_state.stack (dvg m)) (Z.land sp' 3) (dvg_state.pc (dvg m)).
Proof.
  intros Hop m' sp'. subst m' sp'. rewrite dvg_cycle_strobe by lia.
  change (dvg_dispatch (0x8 - 8)) with dvg_handler_0.
  unfold dvg_handler_0. cbv zeta.
  set (m1 := dvg_update_databus _ _).
  change (dvg_state.op (dvg m1)) with (dvg_state.op (dvg m)).
  rewrite Hop. cbn [nz Z.eqb negb]. repeat split; reflexivity.
Qed.

(** DMALD strobe (PROM answer 0x9) with OP0 clear: jump to the latched
    address. *)
Lemma cycle_load_jump_ctl m :
  Z.land (dvg_state.op (dvg m)) 1 = 0 ->
  let m' := dvg_cycle rom 0x9 m in
  dvg_state.pc (dvg m') = dvg_state.dvy (dvg m) /\
  dvg_state.op (dvg m') = dvg_state.op (dvg m) /\
  dvg_state.stack (dvg m') = dvg_state.stack (dvg m) /\
  dvg_state.stack_ptr (dvg m') = dvg_state.stack_ptr (dvg m).
Proof.
  intros Hop m'. subst m'. rewrite dvg_cycle_strobe by lia.
  change (dvg_dispatch (0x9 - 8)) with dvg_handler_1.
  unfold dvg_handler_1. cbv zeta.
  set (m1 := dvg_update_databus _ _).
  change (dvg_state.op (dvg m1)) with (dvg_state.op (dvg m)).
  rewrite Hop. cbn [nz Z.eqb negb]. repeat split; reflexivity.
Qed.

(** DMALD strobe (PROM answer 0x9) with OP0 set: pop. *)
Lemma cycle_load_return_ctl m :
  Z.land (dvg_state.op (dvg m)) 1 = 1 ->
  let m' := dvg_cycle rom 0x9 m in
  dvg_state.pc (dvg m') =
    aget 0 (dvg_state.stack (dvg m)) (Z.land (dvg_state.stack_ptr (dvg m)) 3) /\
  dvg_state.stack (dvg m') = dvg_state.stack (dvg m) /\
  dvg_state.stack_ptr (dvg m') =
    u8 (Z.land (dvg_state.stack_ptr (dvg m) - 1) 0xf).
Proof.
  intros Hop m'. subst m'. rewrite dvg_cycle_strobe by lia.
  change (dvg_dispatch (0x9 - 8)) with dvg_handler_1.
  unfold dvg_handler_1. cbv zeta.
  set (m1 := dvg_update_databus _ _).
  change (dvg_state.op (dvg m1)) with (dvg_state.op (dvg m)).
  rewrite Hop. cbn [nz Z.eqb negb]. repeat split; reflexivity.
Qed.

(** DMAPUSH strobe (PROM answer 0x8) with OP0 set: nothing is pushed. *)
Lemma cycle_push_skip_ctl m :
  Z.land (dvg_state.op (dvg m)) 1 = 1 ->
  let m' := dvg_cycle rom 0x8 m in
  dvg_state.pc (dvg m') = dvg_state.pc (dvg m) /\
  dvg_state.op (dvg m') = dvg_state.op (dvg m) /\
  dvg_state.stack (dvg m') = dvg_state.stack (dvg m) /\
  dvg_state.stack_ptr (dvg m') = dvg_state.stack_ptr (dvg m).
Proof.
  intros Hop m'. subst m'. rewrite dvg_cycle_strobe by lia.
  change (dvg_dispatch (0x8 - 8)) with dvg_handler_0.
  unfold dvg_handler_0. cbv zeta.
  set (m1 := dvg_update_databus _ _).
  change (dvg_state.op (dvg m1)) with (dvg_state.op (dvg m)).
  rewrite Hop. cbn [nz Z.eqb negb]. repeat split; reflexivity.
Qed.
End CycleFacts.

Lemma land_3_mod z : Z.land z 3 = z mod 4.
Proof. change 3 with (Z.ones 2). rewrite Z.land_ones by lia. reflexivity. Qed.

Lemma dvg_cycles_cons rom p ps m :
  dvg_cycles rom (p :: ps) m = dvg_cycles rom ps (dvg_cycle rom p m).
Proof. reflexivity. Qed.

Lemma dvg_cycles_nil rom m : dvg_cycles rom [] m = m.
Proof. reflexivity. Qed.

(** C5: a call word executed by the strobes LATCH1, LATCH0, DMAPUSH, DMALD
    and followed at once by a return word (LATCH1, LATCH0, DMAPUSH, DMALD
    with OP0 set) leaves the program counter at the word after the call
    and the stack pointer where it was. *)
Theorem call_then_return rom m :
  length (dvg_state.stack (dvg m)) = 4%nat ->
  0 <= dvg_state.stack_ptr (dvg m) < 16 ->
  let c := dvg_cycles rom [0xD; 0xC] m in
  Z.land (dvg_state.op (dvg c)) 1 = 0 ->
  let j := dvg_cycles rom [0x8; 0x9] c in
  let r := dvg_cycles rom [0xD; 0xC] j in
  Z.land (dvg_state.op (dvg r)) 1 = 1 ->
  let e := dvg_cycles rom [0x8; 0x9] r in
  dvg_state.pc (dvg e) = u16 (dvg_state.pc (dvg m) + 1) /\
  dvg_state.stack_ptr (dvg e) = dvg_state.stack_ptr (dvg m).
Proof.
  intros Hlen Hsp c Hcall j r Hret e.
  subst e r j c. rewrite !dvg_cycles_cons, !dvg_cycles_nil in *.
  (* the call word *)
  destruct (cycle_latch1_ctl rom m) as (Hpc1 & Hst1 & Hsp1).
  remember (dvg_cycle rom 0xD m) as m1 eqn:E; clear E.
  destruct (cycle_latch0_ctl rom m1) as (Hpc2 & Hop2 & Hst2 & Hsp2).
  remember (dvg_cycle rom 0xC m1) as m2 eqn:E; clear E.
  destruct (cycle_push_ctl rom m2 Hcall) as (Hpc3 & Hop3 & _ & Hsp3 & Hst3).
  remember (dvg_cycle rom 0x8 m2) as m3 eqn:E; clear E.
  assert (Hcall3 : Z.land (dvg_state.op (dvg m3)) 1 = 0) by (rewrite Hop3; exact Hcall).
  destruct (cycle_load_jump_ctl rom m3 Hcall3) as (_ & _ & Hst4 & Hsp4).
  remember (dvg_cycle rom 0x9 m3) as m4 eqn:E; clear E.
  (* the return word *)
  destruct (cycle_latch1_ctl rom m4) as (_ & Hst5 & Hsp5).
  remember (dvg_cycle rom 0xD m4) as m5 eqn:E; clear E.
  destruct (cycle_latch0_ctl rom m5) as (_ & Hop6 & Hst6 & Hsp6).
  remember (dvg_cycle rom 0xC m5) as m6 eqn:E; clear E.
  destruct (cycle_push_skip_ctl rom m6 Hret) as (_ & Hop7 & Hst7 & Hsp7).
  remember (dvg_cycle rom 0x8 m6) as m7 eqn:E; clear E.
  assert (Hret7 : Z.land (dvg_state.op (dvg m7)) 1 = 1) by (rewrite Hop7; exact Hret).
  destruct (cycle_load_return_ctl rom m7 Hret7) as (Hpc8 & _ & Hsp8).
  rewrite Hpc8, Hsp8, Hst7, Hsp7, Hst6, Hsp6, Hst5, Hsp5, Hst4, Hsp4, Hst3, Hsp3.
  rewrite ?Hpc2, ?Hpc1, ?Hst2, ?Hst1, ?Hsp2, ?Hsp1.
  set (sp := dvg_state.stack_ptr (dvg m)) in *.
  assert (Hsp' : u8 (Z.land (sp + 1) 0xf) = (sp + 1) mod 16).
  { rewrite land_f. apply u8_small.
    pose proof (Z.mod_pos_bound (sp + 1) 16); lia. }
  rewrite Hsp'. split.
  - apply aget_aset_eq. rewrite Hlen, land_3_mod.
    pose proof (Z.mod_pos_bound ((sp + 1) mod 16) 4); lia.
  - rewrite land_f, u8_small.
    + Z.div_mod_to_equations; lia.
    + pose proof (Z.mod_pos_bound ((sp + 1) mod 16 - 1) 16); lia.
Qed.

(** C5, witness: the call at word 0 of [call_return_program]. *)
Lemma call_then_return_witness :
  let m := setup (vram_of call_return_program) in
  let e := dvg_cycles rom_zero [0x8; 0x9]
             (dvg_cycles rom_zero [0xD; 0xC]
                (dvg_cycles rom_zero [0x8; 0x9]
                   (dvg_cycles rom_zero [0xD; 0xC] m))) in
  dvg_state.pc (dvg e) = u16 (dvg_state.pc (dvg m) + 1) /\
  dvg_state.stack_ptr (dvg e) = dvg_state.stack_ptr (dvg m).
Proof.
  apply (call_then_return rom_zero (setup (vram_of call_return_program)));
    vm_compute; first [reflexivity | split; congruence].
Defined.

Lemma nested_calls_snoc rets r m :
  nested_calls (rets ++ [r]) m =
  dvg_handler_0
    (upd (fun d => dvg_state.set_op 0xC (dvg_state.set_pc r d))
         (nested_calls rets m)).
Proof. unfold nested_calls. rewrite fold_left_app. reflexivity. Qed.

Lemma push_ctl r m :
  let m' := dvg_handler_0
              (upd (fun d => dvg_state.set_op 0xC (dvg_state.set_pc r d)) m) in
  let sp' := u8 (Z.land (dvg_state.stack_ptr (dvg m) + 1) 0xf) in
  dvg_state.stack_ptr (dvg m') = sp' /\
  dvg_state.stack (dvg m') = aset (dvg_state.stack (dvg m)) (Z.land sp' 3) r.
Proof. split; reflexivity. Qed.

Lemma aget_aset_ne (l : list Z) i j v :
  0 <= i -> 0 <= j -> i <> j -> aget 0 (aset l i v) j = aget 0 l j.
Proof.
  intros Hi Hj Hne. unfold aget, aset.
  rewrite list_lookup_insert_ne by lia. reflexivity.
Qed.

Lemma length_aset {A} (l : list A) i v : length (aset l i v) = length l.
Proof. unfold aset. apply length_insert. Qed.

(** Where the return addresses of nested calls sit. *)
Lemma nested_calls_slots rets m k :
  length (dvg_state.stack (dvg m)) = 4%nat ->
  0 <= dvg_state.stack_ptr (dvg m) < 16 ->
  (k < length rets)%nat -> (k < 4)%nat ->
  let m' := nested_calls rets m in
  let sp' := dvg_state.stack_ptr (dvg m') in
  sp' = (dvg_state.stack_ptr (dvg m) + Z.of_nat (length rets)) mod 16 /\
  aget 0 (dvg_state.stack (dvg m')) ((sp' - Z.of_nat k) mod 4)
  = nth k (rev rets) 0.
Proof.
  intros Hlen Hsp. revert k.
  induction rets as [|r rets IH] using rev_ind; intros k Hk Hk4; [cbn in Hk; lia|].
  assert (Hpre :
    length (dvg_state.stack (dvg (nested_calls rets m))) = 4%nat /\
    dvg_state.stack_ptr (dvg (nested_calls rets m))
    = (dvg_state.stack_ptr (dvg m) + Z.of_nat (length rets)) mod 16).
  { clear IH Hk. induction rets as [|r0 rets0 IH0] using rev_ind.
    - cbn. rewrite Z.add_0_r, Z.mod_small by lia. auto.
    - destruct IH0 as (H1 & H2). rewrite nested_calls_snoc.
      destruct (push_ctl r0 (nested_calls rets0 m)) as (Hs & Hst).
      rewrite Hs, Hst, length_aset, H2, land_f, length_app. cbn [length].
      split; [exact H1|].
      rewrite u8_small.
      + rewrite Nat2Z.inj_add. Z.div_mod_to_equations; lia.
      + pose proof (Z.mod_pos_bound
          ((dvg_state.stack_ptr (dvg m) + Z.of_nat (length rets0)) mod 16 + 1) 16);
        lia. }
  destruct Hpre as (Hlen' & Hsp').
  cbv zeta. rewrite nested_calls_snoc.
  destruct (push_ctl r (nested_calls rets m)) as (Hs & Hst).
  rewrite Hs, Hst, Hsp'. clear Hs Hst.
  set (sp0 := dvg_state.stack_ptr (dvg m)) in *.
  set (n := Z.of_nat (length rets)) in *.
  assert (Hn : 0 <= n) by lia.
  assert (Hnew : u8 (Z.land ((sp0 + n) mod 16 + 1) 0xf) = (sp0 + n + 1) mod 16).
  { rewrite land_f, u8_small.
    - Z.div_mod_to_equations; lia.
    - pose proof (Z.mod_pos_bound ((sp0 + n) mod 16 + 1) 16); lia. }
  rewrite Hnew, !land_3_mod.
  rewrite length_app. cbn [length].
  rewrite rev_app_distr. cbn [rev app].
  split; [f_equal; lia|].
  destruct k as [|k].
  - cbn [nth]. rewrite Z.sub_0_r.
    replace (((sp0 + n + 1) mod 16) mod 4) with ((sp0 + n + 1) mod 16 mod 4) by reflexivity.
    apply aget_aset_eq. rewrite Hlen'.
    pose proof (Z.mod_pos_bound ((sp0 + n + 1) mod 16) 4); lia.
  - cbn [nth].
    rewrite aget_aset_ne.
    + destruct (IH k) as (_ & Hk').
      * rewrite length_app in Hk. cbn in Hk. lia.
      * lia.
      * cbv zeta in Hk'. rewrite Hsp' in Hk'.
        rewrite <- Hk'. f_equal.
        Z.div_mod_to_equations; lia.
    + apply Z.mod_pos_bound; lia.
    + apply Z.mod_pos_bound; lia.
    + assert (1 <= Z.of_nat (S k) <= 3) by lia.
      Z.div_mod_to_equations; lia.
Qed.

Lemma pop_ctl m :
  let m' := dvg_handler_1 (upd (dvg_state.set_op 0xD) m) in
  dvg_state.pc (dvg m') =
    aget 0 (dvg_state.stack (dvg m)) (Z.land (dvg_state.stack_ptr (dvg m)) 3) /\
  dvg_state.stack (dvg m') = dvg_state.stack (dvg m) /\
  dvg_state.stack_ptr (dvg m') = u8 (Z.land (dvg_state.stack_ptr (dvg m) - 1) 0xf).
Proof. repeat split; reflexivity. Qed.

Lemma nested_returns_succ j m :
  nested_returns (S j) m
  = dvg_handler_1 (upd (dvg_state.set_op 0xD) (nested_returns j m)).
Proof. reflexivity. Qed.

Lemma nested_returns_ctl j m :
  0 <= dvg_state.stack_ptr (dvg m) < 16 ->
  dvg_state.stack (dvg (nested_returns j m)) = dvg_state.stack (dvg m) /\
  dvg_state.stack_ptr (dvg (nested_returns j m))
  = (dvg_state.stack_ptr (dvg m) - Z.of_nat j) mod 16.
Proof.
  intros Hsp. induction j as [|j (IHst & IHsp)].
  - cbn. rewrite Z.sub_0_r, Z.mod_small by lia. auto.
  - rewrite nested_returns_succ.
    destruct (pop_ctl (nested_returns j m)) as (_ & -> & ->).
    split; [exact IHst|].
    rewrite IHsp, land_f, u8_small.
    + rewrite Nat2Z.inj_succ. Z.div_mod_to_equations; lia.
    + match goal with |- 0 <= ?z mod 16 < 256 =>
        pose proof (Z.mod_pos_bound z 16); lia end.
Qed.

Lemma nested_calls_length rets m :
  length (dvg_state.stack (dvg (nested_calls rets m)))
  = length (dvg_state.stack (dvg m)).
Proof.
  induction rets as [|r rets IH] using rev_ind; [reflexivity|].
  rewrite nested_calls_snoc.
  destruct (push_ctl r (nested_calls rets m)) as (_ & ->).
  rewrite length_aset. exact IH.
Qed.

(** C6 (as the code has it): the stack wraps, for calls and for returns.
    After any number of nested calls the array still has its 4 entries and
    the slots below the stack pointer hold the return addresses of the
    most recent calls, newest first, for up to 4 of them: each push has
    written inside the array, at the slot its stack pointer has modulo 4,
    so an older entry is overwritten by the call that wraps onto its slot.
    Each return that follows reads inside the array too, the slot its
    stack pointer has modulo 4, and writes nothing: the (j+1)-th return,
    for any j, resumes at what slot j mod 4 below the top holds. *)
Theorem nested_calls_wrap rets m k j :
  length (dvg_state.stack (dvg m)) = 4%nat ->
  0 <= dvg_state.stack_ptr (dvg m) < 16 ->
  (k < length rets)%nat -> (k < 4)%nat -> (j mod 4 = k)%nat ->
  let m' := nested_calls rets m in
  let sp' := dvg_state.stack_ptr (dvg m') in
  let m'' := nested_returns (S j) m' in
  length (dvg_state.stack (dvg m')) = 4%nat /\
  sp' = (dvg_state.stack_ptr (dvg m) + Z.of_nat (length rets)) mod 16 /\
  0 <= Z.land (sp' - Z.of_nat k) 3 < 4 /\
  aget 0 (dvg_state.stack (dvg m')) (Z.land (sp' - Z.of_nat k) 3)
  = nth k (rev rets) 0 /\
  dvg_state.stack (dvg m') !! Z.to_nat (Z.land (sp' - Z.of_nat k) 3)
  = Some (nth k (rev rets) 0) /\
  dvg_state.stack (dvg m'') = dvg_state.stack (dvg m') /\
  dvg_state.stack_ptr (dvg m'') = (sp' - Z.of_nat (S j)) mod 16 /\
  dvg_state.pc (dvg m'') = nth k (rev rets) 0.
Proof.
  intros Hlen Hsp Hk Hk4 Hj m' sp' m''.
  destruct (nested_calls_slots rets m k Hlen Hsp Hk Hk4) as (Hsp' & Hslot).
  cbv zeta in Hsp', Hslot. fold m' in Hsp', Hslot. fold sp' in Hsp', Hslot.
  assert (Hlen' : length (dvg_state.stack (dvg m')) = 4%nat)
    by (unfold m'; rewrite nested_calls_length; exact Hlen).
  assert (Hr : 0 <= sp' < 16) by (rewrite Hsp'; apply Z.mod_pos_bound; lia).
  assert (Hin : 0 <= Z.land (sp' - Z.of_nat k) 3 < 4)
    by (rewrite land_3_mod; apply Z.mod_pos_bound; lia).
  rewrite <- land_3_mod in Hslot.
  destruct (nested_returns_ctl j m' Hr) as (Hst & Hspj).
  destruct (nested_returns_ctl (S j) m' Hr) as (Hst' & Hspj').
  split; [exact Hlen'|]. split; [exact Hsp'|]. split; [exact Hin|].
  split; [exact Hslot|]. split; [|split; [exact Hst'|split; [exact Hspj'|]]].
  - destruct (lookup_lt_is_Some_2 (dvg_state.stack (dvg m'))
                (Z.to_nat (Z.land (sp' - Z.of_nat k) 3)) ltac:(lia)) as [v Hv].
    rewrite Hv. f_equal. rewrite <- Hslot. unfold aget. rewrite Hv. reflexivity.
  - unfold m''. rewrite nested_returns_succ.
    destruct (pop_ctl (nested_returns j m')) as (-> & _).
    rewrite Hst, Hspj, <- Hslot. f_equal. fold sp'.
    rewrite !land_3_mod.
    assert (Z.of_nat j = 4 * Z.of_nat (j / 4) + Z.of_nat k)
      by (pose proof (Nat.div_mod_eq j 4); lia).
    Z.div_mod_to_equations; lia.
Qed.

(** C6, witness: five nested calls and the first return.  The stack
    pointer is 5, the newest entry sits in slot 5 mod 4 = 1 and the return
    resumes there. *)
Lemma nested_calls_wrap_witness :
  let m := setup (vram_of []) in
  let m' := nested_calls [0x01; 0x11; 0x21; 0x31; 0x41] m in
  let sp' := dvg_state.stack_ptr (dvg m') in
  let m'' := nested_returns 1 m' in
  length (dvg_state.stack (dvg m')) = 4%nat /\
  sp' = (dvg_state.stack_ptr (dvg m) + Z.of_nat (length [0x01; 0x11; 0x21; 0x31; 0x41])) mod 16 /\
  0 <= Z.land (sp' - Z.of_nat 0) 3 < 4 /\
  aget 0 (dvg_state.stack (dvg m')) (Z.land (sp' - Z.of_nat 0) 3)
  = nth 0 (rev [0x01; 0x11; 0x21; 0x31; 0x41]) 0 /\
  dvg_state.stack (dvg m') !! Z.to_nat (Z.land (sp' - Z.of_nat 0) 3)
  = Some (nth 0 (rev [0x01; 0x11; 0x21; 0x31; 0x41]) 0) /\
  dvg_state.stack (dvg m'') = dvg_state.stack (dvg m') /\
  dvg_state.stack_ptr (dvg m'') = (sp' - Z.of_nat 1) mod 16 /\
  dvg_state.pc (dvg m'') = nth 0 (rev [0x01; 0x11; 0x21; 0x31; 0x41]) 0.
Proof.
  apply (nested_calls_wrap [0x01; 0x11; 0x21; 0x31; 0x41] (setup (vram_of [])) 0 0).
  - reflexivity.
  - vm_compute; split; congruence.
  - cbn; lia.
  - lia.
  - reflexivity.
Defined.
(** C6, as claimed, fails on a chain of five calls: after four calls slot 1
    holds 0x01, the return address of the first call; the fifth call
    stores its own return address 0x41 there. *)
Lemma fifth_call_overwrites_first :
  let call := dvg_cycles rom_zero [0xD; 0xC; 0x8; 0x9] in
  let m4 := call (call (call (call (setup (vram_of call_chain_program))))) in
  let m5 := call m4 in
  dvg_state.stack (dvg m4) = [0x31; 0x01; 0x11; 0x21] /\
  dvg_state.stack (dvg m5) = [0x31; 0x41; 0x11; 0x21] /\
  aget 0 (dvg_state.stack (dvg m5)) 1 <> aget 0 (dvg_state.stack (dvg m4)) 1.
Proof. vm_compute. repeat split; congruence. Qed.

(** ** Termination of the sequencer loop *)

Section LoopProofs.
Variables rom prom : Z -> Z.

Lemma dvg_loop_terminates fuel l :
  loop_inv l ->
  (Z.to_nat (l_max_iterations l) < fuel)%nat ->
  exists l',
    dvg_loop rom prom fuel l = Some l' /\
    (l_passes l' <= 1000)%nat /\
    (dvg_state.halt (dvg (l_m l')) = false -> l_passes l' = 1000%nat).
Proof.
  revert l. induction fuel as [|fuel IH]; intros l (Hmax & Hsum & Hcyc) Hfuel; [lia|].
  cbn [dvg_loop]. unfold dvg_loop_cond.
  destruct (dvg_state.halt (dvg (l_m l))) eqn:Hhalt.
  - exists l. repeat split; [lia|]. intros Hf. congruence.
  - destruct (Z.ltb_spec 0 (l_max_iterations l)) as [Hpos|Hzero].
    + destruct (Z.ltb_spec (l_cycles l) 10000) as [Hc|Hc]; [|lia].
      cbn [l_m l_max_iterations l_cycles l_passes].
      apply IH.
      * unfold loop_inv. cbn [l_m l_max_iterations l_cycles l_passes].
        repeat split; lia.
      * cbn [l_max_iterations]. lia.
    + eexists. split; [reflexivity|].
      cbn [l_m l_passes]. split; [lia|]. intros _. lia.
Qed.

Lemma dvg_loop_more_fuel a b l r :
  dvg_loop rom prom a l = Some r -> (a <= b)%nat ->
  dvg_loop rom prom b l = Some r.
Proof.
  revert b l. induction a as [|a IHa]; intros b l Ha Hab; [discriminate|].
  destruct b as [|b]; [lia|].
  cbn [dvg_loop] in *.
  destruct (dvg_loop_cond l) as [[] l1]; [|exact Ha].
  apply IHa; [exact Ha|lia].
Qed.

Lemma dvg_run_fuel_spec m :
  exists m' n,
    (forall fuel, (1001 <= fuel)%nat ->
       dvg_run_state_machine_fuel rom prom fuel m = Some (m', n)) /\
    (n <= 1000)%nat /\
    dvg_state.running (dvg m') = false /\
    (dvg_state.running (dvg m) = true ->
     dvg_state.halt (dvg m') = false -> n = 1000%nat).
Proof.
  unfold dvg_run_state_machine_fuel.
  destruct (dvg_state.running (dvg m)) eqn:Hrun; cbn [negb].
  - set (l0 := mkLoop (upd (dvg_state.set_halt false) m) 1000 0 0).
    assert (Hinv : loop_inv l0) by (unfold loop_inv; cbn; lia).
    destruct (dvg_loop_terminates 1001 l0 Hinv ltac:(cbn; lia))
      as (l' & Hl' & Hle & Hceil).
    exists (upd (dvg_state.set_running false) (l_m l')), (l_passes l').
    repeat split; auto.
    intros fuel Hfuel.
    rewrite (dvg_loop_more_fuel _ _ _ _ Hl' Hfuel). reflexivity.
  - exists m, 0%nat. repeat split; auto; try lia; try congruence.
Qed.

(** C9: the sequencer loop always comes back.  Any unrolling of 1001 or
    more gives the same result; the body has run at most 1000 times
    (the [max_iterations] ceiling; [cycles < 10000] never bites because
    the handlers report 0 cycles); afterwards [running] is off and the
    busy bit of IN0 reads as done, also when no HALTSTROBE was reached,
    in which case exactly 1000 passes were made. *)
Theorem dvg_run_terminates m fuel :
  (1001 <= fuel)%nat ->
  exists m' n,
    dvg_run_state_machine_fuel rom prom fuel m = Some (m', n) /\
    dvg_run_state_machine rom prom m = m' /\
    (n <= 1000)%nat /\
    Z.of_nat n <= 10000 /\
    dvg_state.running (dvg m') = false /\
    in0_input m' 2 = false /\
    (dvg_state.running (dvg m) = true ->
     dvg_state.halt (dvg m') = false -> n = 1000%nat).
Proof.
  intros Hfuel.
  destruct (dvg_run_fuel_spec m) as (m' & n & Hany & Hn & Hoff & Hceil).
  exists m', n. repeat split; auto; try lia.
  - unfold dvg_run_state_machine. rewrite (Hany 1001%nat) by lia. reflexivity.
  - unfold in0_input. cbn. rewrite Hoff. reflexivity.
Qed.
End LoopProofs.

(** C9, witness: a blank sequencer PROM, which never strobes. *)
Lemma dvg_run_terminates_witness :
  exists m' n,
    dvg_run_state_machine_fuel rom_zero rom_zero 1001
      (upd (dvg_state.set_running true) (setup (vram_of []))) = Some (m', n) /\
    dvg_run_state_machine rom_zero rom_zero
      (upd (dvg_state.set_running true) (setup (vram_of []))) = m' /\
    (n <= 1000)%nat /\
    Z.of_nat n <= 10000 /\
    dvg_state.running (dvg m') = false /\
    in0_input m' 2 = false /\
    (dvg_state.running (dvg (upd (dvg_state.set_running true) (setup (vram_of [])))) = true ->
     dvg_state.halt (dvg m') = false -> n = 1000%nat).
Proof.
  apply (dvg_run_terminates rom_zero rom_zero
           (upd (dvg_state.set_running true) (setup (vram_of []))) 1001).
  lia.
Defined.

(** With a blank sequencer PROM nothing ever halts the machine: the loop
    gives up after exactly 1000 passes. *)
Example runaway_program_gives_up :
  snd <$> dvg_run_state_machine_fuel rom_zero rom_zero 1001
            (upd (dvg_state.set_running true) (setup (vram_of [])))
  = Some 1000%nat.
Proof. vm_compute. reflexivity. Qed.

(** ** The sample buffer during an activation *)

Lemma dvg_add_vector_shape x0 y0 dx dy i m :
  buffer_shape x0 y0 m -> buffer_shape x0 y0 (dvg_add_vector dx dy i m).
Proof.
  intros (Hp & Hi & Hs). unfold dvg_add_vector, VECT_POINTS_PER_FRAME in *.
  destruct (Z.leb_spec 2048 (vector_buffer.count (vbuf m))) as [Hfull|Hroom].
  - repeat split; auto.
  - destruct Hs as [(Hc & Hx & Hy) | (Hc & Hp0 & Hi0)].
    + rewrite Hc. cbn [Z.eqb vbuf set_vbuf set_dvg vector_buffer.count
                       vector_buffer.points vector_buffer.intensity].
      unfold buffer_shape, VECT_POINTS_PER_FRAME.
      cbn [vbuf set_vbuf set_dvg dvg vector_buffer.count
           vector_buffer.points vector_buffer.intensity].
      rewrite !length_aset. repeat split; auto.
      right. repeat split; try lia.
      * unfold aset. rewrite list_lookup_insert_ne by (cbn; lia).
        rewrite list_lookup_insert_eq by (rewrite Hp; cbn; lia).
        rewrite Hx, Hy. reflexivity.
      * unfold aset. rewrite list_lookup_insert_ne by (cbn; lia).
        rewrite list_lookup_insert_eq by (rewrite Hi; cbn; lia).
        reflexivity.
    + destruct (Z.eqb_spec (vector_buffer.count (vbuf m)) 0); [lia|].
      unfold buffer_shape, VECT_POINTS_PER_FRAME.
      cbn [vbuf set_vbuf set_dvg dvg vector_buffer.count
           vector_buffer.points vector_buffer.intensity].
      rewrite !length_aset. repeat split; auto.
      right. repeat split; try lia.
      * unfold aset. rewrite list_lookup_insert_ne by lia. exact Hp0.
      * unfold aset. rewrite list_lookup_insert_ne by lia. exact Hi0.
Qed.

(** ** What [dvg_add_vector] appends *)

Lemma samples_store (pts : list (Z * Z)) (ints : list Z) c p i :
  length pts = length ints ->
  0 <= c < Z.of_nat (length pts) ->
  samples (vector_buffer.mk (aset pts c p) (aset ints c i) (c + 1))
  = take (Z.to_nat c) (zip pts ints) ++ [(p, i)].
Proof.
  intros Hlen Hc. unfold samples, aset.
  cbn [vector_buffer.points vector_buffer.intensity vector_buffer.count].
  replace (Z.to_nat (c + 1)) with (S (Z.to_nat c)) by lia.
  rewrite <- insert_zip_with.
  rewrite (take_S_r _ _ (p, i)).
  - rewrite take_insert_ge by lia. reflexivity.
  - apply list_lookup_insert_eq. rewrite length_zip_with. lia.
Qed.

Lemma samples_store_first (pts : list (Z * Z)) (ints : list Z) p0 p i :
  length pts = length ints ->
  (2 <= length pts)%nat ->
  samples (vector_buffer.mk (aset (aset pts 0 p0) 1 p)
                            (aset (aset ints 0 0) 1 i) (1 + 1))
  = [(p0, 0); (p, i)].
Proof.
  intros Hlen H2.
  rewrite samples_store by (rewrite !length_aset; lia).
  destruct pts as [|q0 pts]; [cbn in H2; lia|].
  destruct ints as [|j0 ints]; [discriminate|].
  reflexivity.
Qed.

Lemma dvg_add_vector_samples dx dy i m :
  length (vector_buffer.points (vbuf m)) = Z.to_nat VECT_POINTS_PER_FRAME ->
  length (vector_buffer.intensity (vbuf m)) = Z.to_nat VECT_POINTS_PER_FRAME ->
  0 <= vector_buffer.count (vbuf m) < VECT_POINTS_PER_FRAME ->
  let m' := dvg_add_vector dx dy i m in
  let x' := clip1023 (s16 (dvg_state.x (dvg m) + dx)) in
  let y' := clip1023 (s16 (dvg_state.y (dvg m) + dy)) in
  samples (vbuf m') =
    samples (vbuf m)
    ++ (if vector_buffer.count (vbuf m) =? 0
        then [(u16 (dvg_state.x (dvg m)), u16 (dvg_state.y (dvg m)), 0)]
        else [])
    ++ [(u16 x', u16 y', i)] /\
  dvg_state.x (dvg m') = x' /\ dvg_state.y (dvg m') = y' /\
  vector_buffer.count (vbuf m') =
    vector_buffer.count (vbuf m)
    + (if vector_buffer.count (vbuf m) =? 0 then 2 else 1) /\
  length (vector_buffer.points (vbuf m')) = Z.to_nat VECT_POINTS_PER_FRAME /\
  length (vector_buffer.intensity (vbuf m')) = Z.to_nat VECT_POINTS_PER_FRAME /\
  dvg_state.halt (dvg m') = dvg_state.halt (dvg m) /\
  dvg_state.intensity (dvg m') = dvg_state.intensity (dvg m).
Proof.
  intros Hp Hi Hc m' x' y'. subst m' x' y'.
  unfold dvg_add_vector, clip1023, VECT_POINTS_PER_FRAME in *.
  destruct (Z.leb_spec 2048 (vector_buffer.count (vbuf m))) as [?|_]; [lia|].
  destruct (vbuf m) as [pts ints c] eqn:Hb.
  cbn [vector_buffer.points vector_buffer.intensity vector_buffer.count] in *.
  destruct (Z.eqb_spec c 0) as [->|Hne];
    cbn [vbuf set_vbuf set_dvg dvg vector_buffer.count vector_buffer.points
         vector_buffer.intensity dvg_state.x dvg_state.y dvg_state.set_x
         dvg_state.set_y dvg_state.halt dvg_state.intensity];
    rewrite !length_aset.
  - rewrite samples_store_first by lia.
    repeat split; auto.
  - rewrite samples_store by lia.
    repeat split; auto.
Qed.

Lemma buffer_shape_ext x0 y0 m m' :
  vbuf m' = vbuf m ->
  dvg_state.x (dvg m') = dvg_state.x (dvg m) ->
  dvg_state.y (dvg m') = dvg_state.y (dvg m) ->
  buffer_shape x0 y0 m -> buffer_shape x0 y0 m'.
Proof. unfold buffer_shape. intros -> -> ->. auto. Qed.

Ltac split_ifs :=
  repeat match goal with
    | |- context [if ?c then _ else _] => destruct c
    end.

Ltac keeps_shape H :=
  apply (buffer_shape_ext _ _ _ _) with (4 := H); split_ifs; reflexivity.

Section ShapeProofs.
Variables rom prom : Z -> Z.

Lemma dvg_dispatch_shape x0 y0 h m :
  buffer_shape x0 y0 m -> buffer_shape x0 y0 (dvg_dispatch h m).
Proof.
  intros H. unfold dvg_dispatch.
  destruct (h =? 0); [unfold dvg_handler_0; cbv zeta; keeps_shape H|].
  destruct (h =? 1); [unfold dvg_handler_1; cbv zeta; keeps_shape H|].
  destruct (h =? 2); [apply dvg_add_vector_shape, H|].
  destruct (h =? 3).
  { unfold dvg_handler_3. cbv zeta.
    match goal with |- context [if ?c then _ else _] => destruct c end.
    - keeps_shape H.
    - apply dvg_add_vector_shape. keeps_shape H. }
  destruct (h =? 4);
    [unfold dvg_handler_4, dvg_handler_7; cbv zeta; keeps_shape H|].
  destruct (h =? 5); [unfold dvg_handler_5; cbv zeta; keeps_shape H|].
  destruct (h =? 6); [unfold dvg_handler_6; cbv zeta; keeps_shape H|].
  destruct (h =? 7); [unfold dvg_handler_7; cbv zeta; keeps_shape H|].
  exact H.
Qed.

Lemma dvg_cycle_shape x0 y0 p m :
  buffer_shape x0 y0 m -> buffer_shape x0 y0 (dvg_cycle rom p m).
Proof.
  intros H. unfold dvg_cycle. cbv zeta.
  match goal with |- context [if ?c then _ else _] => destruct c end.
  - apply dvg_dispatch_shape. keeps_shape H.
  - keeps_shape H.
Qed.

Lemma dvg_loop_shape x0 y0 fuel l l' :
  dvg_loop rom prom fuel l = Some l' ->
  buffer_shape x0 y0 (l_m l) -> buffer_shape x0 y0 (l_m l').
Proof.
  revert l. induction fuel as [|fuel IH]; intros l Hl H; [discriminate|].
  cbn [dvg_loop] in Hl. unfold dvg_loop_cond in Hl.
  destruct (dvg_state.halt (dvg (l_m l))).
  - injection Hl as <-. exact H.
  - destruct (0 <? l_max_iterations l); [destruct (l_cycles l <? 10000)|].
    + apply IH in Hl; [exact Hl|]. cbn [l_m].
      apply dvg_cycle_shape, H.
    + injection Hl as <-. exact H.
    + injection Hl as <-. exact H.
Qed.

Lemma dvg_run_shape x0 y0 m :
  buffer_shape x0 y0 m -> buffer_shape x0 y0 (dvg_run_state_machine rom prom m).
Proof.
  intros H. unfold dvg_run_state_machine, dvg_run_state_machine_fuel.
  destruct (dvg_state.running (dvg m)); cbn [negb]; [|exact H].
  destruct (dvg_loop rom prom 1001 _) as [l'|] eqn:Hl; [|exact H].
  apply dvg_loop_shape with (x0 := x0) (y0 := y0) in Hl.
  - keeps_shape Hl.
  - cbn [l_m]. keeps_shape H.
Qed.

Lemma dvg_go_shape m value :
  arrays_ok m ->
  buffer_shape (dvg_state.x (dvg m)) (dvg_state.y (dvg m))
               (dvg_go rom prom m value).
Proof.
  intros (_ & _ & Hp & Hi & _). apply dvg_run_shape.
  repeat split; auto.
Qed.
End ShapeProofs.

Lemma buffer_shape_samples x0 y0 m :
  buffer_shape x0 y0 m ->
  samples (vbuf m) = [] \/
  exists s rest, samples (vbuf m) = (u16 x0, u16 y0, 0) :: s :: rest.
Proof.
  intros (Hp & Hi & [(Hc & _) | (Hc & Hp0 & Hi0)]); unfold samples.
  - left. rewrite Hc. reflexivity.
  - right. unfold VECT_POINTS_PER_FRAME in *.
    destruct (vector_buffer.points (vbuf m)) as [|p0 [|p1 pts]]; try (cbn in Hp; lia).
    destruct (vector_buffer.intensity (vbuf m)) as [|i0 [|i1 ints]]; try (cbn in Hi; lia).
    cbn in Hp0, Hi0. injection Hp0 as ->. injection Hi0 as ->.
    replace (Z.to_nat (vector_buffer.count (vbuf m)))
      with (S (S (Z.to_nat (vector_buffer.count (vbuf m) - 2)))) by lia.
    eexists _, _. reflexivity.
Qed.

Lemma clip1023_id z : 0 <= z <= 1023 -> clip1023 (s16 (z + 0)) = z.
Proof.
  intros Hz. rewrite Z.add_0_r, s16_small by lia. unfold clip1023.
  destruct (Z.ltb_spec z 0); [lia|]. destruct (Z.ltb_spec 1023 z); [lia|].
  reflexivity.
Qed.

Lemma process_vector_zero m :
  dvg_state.dvx (dvg m) = 0 -> dvg_state.dvy (dvg m) = 0 ->
  dvg_process_vector m = dvg_add_vector 0 0 (dvg_state.intensity (dvg m)) m.
Proof.
  intros Hx Hy. unfold dvg_process_vector. rewrite Hx, Hy. reflexivity.
Qed.

Section DrawProofs.
Variables rom prom : Z -> Z.

(** GOSTROBE (PROM answer 0xA) with both deltas zero, on an empty
    buffer with the beam on screen. *)
Lemma draw_cycle_zero m :
  length (vector_buffer.points (vbuf m)) = Z.to_nat VECT_POINTS_PER_FRAME ->
  length (vector_buffer.intensity (vbuf m)) = Z.to_nat VECT_POINTS_PER_FRAME ->
  vector_buffer.count (vbuf m) = 0 ->
  dvg_state.dvx (dvg m) = 0 -> dvg_state.dvy (dvg m) = 0 ->
  0 <= dvg_state.x (dvg m) <= 1023 ->
  0 <= dvg_state.y (dvg m) <= 1023 ->
  let d := dvg_cycle rom 0xA m in
  let x := dvg_state.x (dvg m) in
  let y := dvg_state.y (dvg m) in
  samples (vbuf d) = [(x, y, 0); (x, y, dvg_state.intensity (dvg m))] /\
  vector_buffer.count (vbuf d) = 2 /\
  length (vector_buffer.points (vbuf d)) = Z.to_nat VECT_POINTS_PER_FRAME /\
  length (vector_buffer.intensity (vbuf d)) = Z.to_nat VECT_POINTS_PER_FRAME /\
  dvg_state.x (dvg d) = x /\ dvg_state.y (dvg d) = y /\
  dvg_state.halt (dvg d) = dvg_state.halt (dvg m) /\
  dvg_state.op (dvg d) = dvg_state.op (dvg m).
Proof.
  intros Hp Hi Hc Hdx Hdy Hx Hy d x y. subst d x y.
  rewrite dvg_cycle_strobe by lia.
  change (dvg_dispatch (0xA - 8)) with dvg_handler_2.
  unfold dvg_handler_2. rewrite process_vector_zero by assumption.
  set (m1 := dvg_update_databus rom _).
  destruct (dvg_add_vector_samples 0 0 (dvg_state.intensity (dvg m1)) m1 Hp Hi)
    as (Hs & Hx' & Hy' & Hc' & Hp' & Hi' & Hh & _).
  { change (vector_buffer.count (vbuf m1)) with (vector_buffer.count (vbuf m)).
    rewrite Hc. unfold VECT_POINTS_PER_FRAME. lia. }
  change (vector_buffer.count (vbuf m1)) with (vector_buffer.count (vbuf m)) in Hs, Hc'.
  change (samples (vbuf m1)) with (samples (vbuf m)) in Hs.
  change (dvg_state.x (dvg m1)) with (dvg_state.x (dvg m)) in Hs, Hx'.
  change (dvg_state.y (dvg m1)) with (dvg_state.y (dvg m)) in Hs, Hy'.
  change (dvg_state.halt (dvg m1)) with (dvg_state.halt (dvg m)) in Hh.
  change (dvg_state.intensity (dvg m1)) with (dvg_state.intensity (dvg m)) in *.
  unfold samples at 2 in Hs. rewrite Hc in Hs, Hc'.
  cbn [Z.eqb Z.to_nat take app Z.add] in Hs, Hc'.
  rewrite !clip1023_id in * by assumption.
  rewrite !u16_small in Hs by lia.
  repeat split; try assumption.
  unfold dvg_add_vector. split_ifs; reflexivity.
Qed.

(** HALTSTROBE (PROM answer 0xB) with OP0 clear, after one draw. *)
Lemma halt_cycle_after_draw m s :
  length (vector_buffer.points (vbuf m)) = Z.to_nat VECT_POINTS_PER_FRAME ->
  length (vector_buffer.intensity (vbuf m)) = Z.to_nat VECT_POINTS_PER_FRAME ->
  vector_buffer.count (vbuf m) = 2 ->
  samples (vbuf m) = s ->
  dvg_state.op (dvg m) = 0 ->
  0 <= dvg_state.x (dvg m) <= 1023 ->
  0 <= dvg_state.y (dvg m) <= 1023 ->
  let h := dvg_cycle rom 0xB m in
  samples (vbuf h) = s ++ [(dvg_state.x (dvg m), dvg_state.y (dvg m), 0)] /\
  dvg_state.halt (dvg h) = true.
Proof.
  intros Hp Hi Hc Hs Hop Hx Hy h. subst h.
  rewrite dvg_cycle_strobe by lia.
  change (dvg_dispatch (0xB - 8)) with dvg_handler_3.
  set (m1 := dvg_update_databus rom _).
  unfold dvg_handler_3.
  change (dvg_state.op (dvg m1)) with (dvg_state.op (dvg m)).
  rewrite Hop. change (nz (Z.land 0 1)) with false. cbv zeta iota. cbn [negb].
  set (m2 := set_dvg _ _).
  destruct (dvg_add_vector_samples 0 0 0 m2 Hp Hi)
    as (Hs2 & _ & _ & _ & _ & _ & Hh2 & _).
  { change (vector_buffer.count (vbuf m2)) with (vector_buffer.count (vbuf m)).
    rewrite Hc. unfold VECT_POINTS_PER_FRAME. lia. }
  change (vector_buffer.count (vbuf m2)) with (vector_buffer.count (vbuf m)) in Hs2.
  change (samples (vbuf m2)) with (samples (vbuf m)) in Hs2.
  change (dvg_state.x (dvg m2)) with (dvg_state.x (dvg m)) in Hs2.
  change (dvg_state.y (dvg m2)) with (dvg_state.y (dvg m)) in Hs2.
  change (dvg_state.halt (dvg m2)) with true in Hh2.
  rewrite Hc, Hs in Hs2. cbn [Z.eqb app] in Hs2.
  rewrite !clip1023_id in Hs2 by assumption.
  rewrite !u16_small in Hs2 by lia.
  split; assumption.
Qed.

Lemma dvg_go_never_one_sample m value :
  arrays_ok m ->
  length (samples (vbuf (dvg_go rom prom m value))) <> 1%nat.
Proof.
  intros Hok.
  destruct (buffer_shape_samples _ _ _ (dvg_go_shape rom prom m value Hok))
    as [-> | (s & rest & ->)]; cbn; lia.
Qed.

(** C2 (as the code has it): on the freshly activated machine, with the
    beam on screen at (x, y), one draw with zero deltas leaves two
    samples, both at (x, y): the blank start point with intensity 0 and
    the end point with the intensity register as it was before the
    activation (no default is loaded); it does not halt.  A HALTSTROBE
    after it appends a third sample at (x, y) with intensity 0 and halts.
    Whatever the sequencer PROM, an activation never ends with exactly
    one sample. *)
Theorem zero_draw_after_activation m value :
  arrays_ok m ->
  0 <= dvg_state.x (dvg m) <= 1023 ->
  0 <= dvg_state.y (dvg m) <= 1023 ->
  let a := dvg_go_start m value in
  let d := dvg_cycle rom 0xA a in
  let h := dvg_cycle rom 0xB d in
  let x := dvg_state.x (dvg m) in
  let y := dvg_state.y (dvg m) in
  let i := dvg_state.intensity (dvg m) in
  samples (vbuf d) = [(x, y, 0); (x, y, i)] /\
  dvg_state.halt (dvg d) = false /\
  samples (vbuf h) = [(x, y, 0); (x, y, i); (x, y, 0)] /\
  dvg_state.halt (dvg h) = true /\
  length (samples (vbuf (dvg_go rom prom m value))) <> 1%nat.
Proof.
  intros Hok Hx Hy a d h x y i.
  pose proof Hok as (_ & _ & Hp & Hi & _).
  destruct (draw_cycle_zero (dvg_go_start m value) Hp Hi
              eq_refl eq_refl eq_refl Hx Hy)
    as (Hs & Hc & Hp' & Hi' & Hx' & Hy' & Hh & Hop).
  fold a in Hs, Hc, Hp', Hi', Hx', Hy', Hh, Hop. fold d in Hs, Hc, Hp', Hi', Hx', Hy', Hh, Hop.
  change (dvg_state.x (dvg a)) with x in *.
  change (dvg_state.y (dvg a)) with y in *.
  change (dvg_state.intensity (dvg a)) with i in *.
  change (dvg_state.halt (dvg a)) with false in *.
  change (dvg_state.op (dvg a)) with 0 in *.
  clearbody d. clearbody a.
  destruct (halt_cycle_after_draw d _ Hp' Hi' Hc Hs Hop) as (Hs3 & Hh3).
  { rewrite Hx'. exact Hx. } { rewrite Hy'. exact Hy. }
  fold h in Hs3, Hh3. rewrite Hx', Hy' in Hs3.
  repeat split; try assumption.
  apply dvg_go_never_one_sample, Hok.
Qed.
End DrawProofs.

(** C2, witness: the power-on machine, beam at (512, 512). *)
Lemma zero_draw_after_activation_witness :
  let m := setup (vram_of []) in
  let a := dvg_go_start m 0 in
  let d := dvg_cycle rom_zero 0xA a in
  let h := dvg_cycle rom_zero 0xB d in
  let x := dvg_state.x (dvg m) in
  let y := dvg_state.y (dvg m) in
  let i := dvg_state.intensity (dvg m) in
  samples (vbuf d) = [(x, y, 0); (x, y, i)] /\
  dvg_state.halt (dvg d) = false /\
  samples (vbuf h) = [(x, y, 0); (x, y, i); (x, y, 0)] /\
  dvg_state.halt (dvg h) = true /\
  length (samples (vbuf (dvg_go rom_zero prom_draw_then_halt m 0))) <> 1%nat.
Proof.
  apply (zero_draw_after_activation rom_zero prom_draw_then_halt
           (setup (vram_of [])) 0).
  - repeat split; vm_compute; reflexivity.
  - vm_compute; split; congruence.
  - vm_compute; split; congruence.
Defined.

(** C2, as claimed, fails: with a sequencer that draws once and then
    halts, the activation of the power-on machine ends with three samples
    at (512, 512), all of intensity 0; and no PROM, ROM or start value makes
    an activation of that machine end with exactly one sample. *)
Lemma zero_draw_gives_three_samples :
  let m := setup (vram_of []) in
  let m' := dvg_go rom_zero prom_draw_then_halt m 0 in
  samples (vbuf m') = [(512, 512, 0); (512, 512, 0); (512, 512, 0)] /\
  dvg_state.halt (dvg m') = true /\
  length (samples (vbuf m')) <> 1%nat /\
  (forall rom prom value,
     length (samples (vbuf (dvg_go rom prom m value))) <> 1%nat).
Proof.
  split; [vm_compute; reflexivity|].
  split; [vm_compute; reflexivity|].
  split; [vm_compute; congruence|].
  intros rom prom value. apply dvg_go_never_one_sample.
  repeat split; vm_compute; reflexivity.
Qed.

Lemma setup_arrays_ok prog : arrays_ok (setup (vram_of prog)).
Proof.
  unfold arrays_ok, setup, vram_of, MEM_SIZE_VECTOR.
  cbn [ram vector_ram vbuf dvg].
  repeat split; try (vm_compute; reflexivity).
  rewrite length_take, length_app, length_replicate. lia.
Qed.

(** C4: the two interpreters disagree.  Whatever the sequencer PROM and the
    vector ROM, on [disagreement_program] the direct-opcode interpreter
    emits two full-brightness samples in DAC units, which the sequencer
    never does (its list is empty or starts with the blank start point).
    The same call word sends the sequencer to word 0x010 with return
    address 1 pushed at slot 1, and the direct interpreter to byte 0x010
    with return address 2 pushed at slot 0.  A word with opcode 0xF only
    latches intensity in the sequencer, and draws a short vector at once
    in the direct interpreter. *)
Theorem interpreters_disagree rom prom :
  (exists vram,
     length vram = Z.to_nat MEM_SIZE_VECTOR /\
     samples (vbuf (dvg_go rom prom (setup vram) 0))
     <> samples (vbuf (dvg_execute rom (setup vram)))) /\
  (let m := setup (vram_of call_word_program) in
   let sm := dvg_cycles rom [0xD; 0xC; 0x8; 0x9] m in
   let ex := dvg_execute_step rom (dvg_reset m) in
   dvg_state.pc (dvg sm) = 0x010 /\ dvg_state.pc (dvg ex) = 0x010 /\
   dvg_state.stack (dvg sm) = [0; 1; 0; 0] /\
   dvg_state.stack (dvg ex) = [2; 0; 0; 0] /\
   Z.shiftl (dvg_state.pc (dvg sm)) 1 <> dvg_state.pc (dvg ex)) /\
  (let m := setup (vram_of sentinel_word_program) in
   let sm := dvg_cycles rom [0xD; 0xC] m in
   let ex := dvg_execute_step rom (dvg_reset m) in
   samples (vbuf sm) = [] /\
   dvg_state.intensity (dvg sm) = 7 /\
   dvg_state.pc (dvg sm) = 1 /\
   samples (vbuf ex) = [(2049, 2049, 119); (2049, 2049, 119)] /\
   dvg_state.pc (dvg ex) = 2).
Proof.
  split; [|split].
  - exists (vram_of disagreement_program). split; [vm_compute; reflexivity|].
    assert (Hex : samples (vbuf (dvg_execute rom (setup (vram_of disagreement_program))))
                  = [(2049, 2049, 255); (2049, 2049, 255)])
      by (vm_compute; reflexivity).
    rewrite Hex.
    destruct (buffer_shape_samples _ _ _
                (dvg_go_shape rom prom _ 0 (setup_arrays_ok disagreement_program)))
      as [-> | (s & rest & ->)]; [discriminate|].
    change (dvg_state.x (dvg (setup (vram_of disagreement_program)))) with 512.
    intros Heq. injection Heq as Hx _. vm_compute in Hx. discriminate.
  - vm_compute. repeat split; congruence.
  - vm_compute. repeat split; congruence.
Qed.

(** * Further results

    Properties of the same code that the claims above do not reach: the
    rest of the bus decoder, what an activation of the sequencer keeps
    true, the direct interpreter's buffer and stack, the DAC driver and the
    vector logger. *)
Ltac zdecide :=
  repeat match goal with
    | |- context [?a <? ?b] =>
        first [rewrite (proj2 (Z.ltb_lt a b)) by lia
              | rewrite (proj2 (Z.ltb_ge a b)) by lia]
    | |- context [?a <=? ?b] =>
        first [rewrite (proj2 (Z.leb_le a b)) by lia
              | rewrite (proj2 (Z.leb_gt a b)) by lia]
    | |- context [?a =? ?b] =>
        first [rewrite (proj2 (Z.eqb_eq a b)) by lia
              | rewrite (proj2 (Z.eqb_neq a b)) by lia]
    end; cbn [andb orb negb].

(** ** The bus *)

Section BusExtras.

Variables rom_vector prom0 prom1 prom2 prom : Z -> Z.

(** X1: vector RAM is plain memory on the bus: a byte the CPU writes
    anywhere in 0x4000-0x47FF is the byte it reads back there, with no
    exception of the kind RAM has at 0x5B. *)
Theorem vram_write_then_read m a v :
  arrays_ok m ->
  0x4000 <= a < 0x4800 ->
  read rom_vector prom0 prom1 prom2 (write rom_vector prom m a v) a = v.
Proof.
  intros (_ & Hv & _) Ha. unfold MEM_SIZE_VECTOR in Hv.
  unfold read, write, cpu6502_write_callback, cpu6502_read_callback.
  zdecide. cbn [fst vector_ram set_vector_ram].
  apply aget_aset_eq. lia.
Qed.

(** X2: a store to RAM or vector RAM changes what the bus shows at that
    one address only: every other address of the 16-bit space reads as
    before (the two memories have no mirrors and no overlap). *)
Theorem store_isolated m a v q :
  0 <= a < 0x1000 \/ 0x4000 <= a < 0x4800 ->
  0 <= q < 0x10000 -> q <> a ->
  read rom_vector prom0 prom1 prom2 (write rom_vector prom m a v) q
  = read rom_vector prom0 prom1 prom2 m q.
Proof.
  intros Ha Hq Hne.
  unfold read, write, cpu6502_write_callback.
  destruct Ha as [Ha|Ha]; zdecide; unfold cpu6502_read_callback;
    cbn [ram vector_ram set_ram set_vector_ram].
  - destruct (Z.ltb_spec q 0x1000); [|split_ifs; reflexivity].
    cbn [fst]. apply aget_aset_ne; lia.
  - destruct (Z.ltb_spec q 0x1000); [reflexivity|].
    destruct (Z.leb_spec 0x4000 q); cbn [andb]; [|split_ifs; reflexivity].
    destruct (Z.ltb_spec q 0x4800); cbn [andb]; [|split_ifs; reflexivity].
    cbn [fst]. apply aget_aset_ne; lia.
Qed.

Lemma unmapped_spec a :
  unmapped a = true ->
  0x1000 <= a < 0x2000 \/ 0x2008 <= a < 0x2400 \/ 0x2408 <= a < 0x2800 \/
  0x2804 <= a < 0x4000 \/ 0x4800 <= a < 0x5000 \/ 0x5800 <= a < 0x6800.
Proof. unfold unmapped. lia. Qed.

Lemma write_sensitive_spec a :
  write_sensitive a = false ->
  0x1000 <= a /\ (a < 0x4000 \/ 0x4800 <= a) /\ a <> 0x3000.
Proof. unfold write_sensitive. lia. Qed.

(** X3: open bus.  A read of an address that no device decodes returns
    0xFF and changes nothing; a write anywhere but RAM, vector RAM and
    DVG GO (sound registers, watchdog, ROM, unmapped space) is dropped. *)
Theorem unmapped_reads_open_bus m a w v :
  unmapped a = true ->
  write_sensitive w = false ->
  cpu6502_read_callback rom_vector prom0 prom1 prom2 m a = (0xFF, m) /\
  write rom_vector prom m w v = m.
Proof.
  intros Hu Hw. split.
  - apply unmapped_spec in Hu. unfold cpu6502_read_callback.
    destruct Hu as [H|[H|[H|[H|[H|H]]]]]; zdecide; reflexivity.
  - apply write_sensitive_spec in Hw.
    unfold write, cpu6502_write_callback.
    destruct Hw as (H1 & [H2|H2] & H3); zdecide; split_ifs; reflexivity.
Qed.

End BusExtras.

Lemma lor_fc p : 0 <= p < 4 -> Z.lor 0xFC p = 0xFC + p.
Proof.
  intros Hp. assert (Hc : p = 0 \/ p = 1 \/ p = 2 \/ p = 3) by lia.
  decompose [or] Hc; subst p; reflexivity.
Qed.

Section BusReads.

Variables rom_vector prom0 prom1 prom2 : Z -> Z.

(** X4: the DIP switches are read two at a time: address 0x2800 + n
    returns switch pair n (bits 2n+1 and 2n of [dip_switches]) in its two
    low bits with the six high bits set, so always a value in 0xFC-0xFF. *)
Theorem dsw1_read_pair m n :
  0 <= n < 4 ->
  0 <= dip_switches m < 256 ->
  let r := read rom_vector prom0 prom1 prom2 m (0x2800 + n) in
  r = 0xFC + (dip_switches m / 4 ^ n) mod 4 /\ 0xFC <= r <= 0xFF.
Proof.
  intros Hn Hd r. subst r.
  unfold read, cpu6502_read_callback. zdecide. cbn [fst].
  assert (Hsel : Z.land (0x2800 + n) 0x03 = n).
  { rewrite land_3_mod. Z.div_mod_to_equations; lia. }
  rewrite Hsel, land_3_mod, Z.shiftr_div_pow2 by lia.
  replace (2 ^ (n * 2)) with (4 ^ n)
    by (rewrite Z.mul_comm, Z.pow_mul_r by lia; reflexivity).
  pose proof (Z.mod_pos_bound (dip_switches m / 4 ^ n) 4 ltac:(lia)).
  rewrite lor_fc by lia. lia.
Qed.

(** X6: the sequencer and the CPU see the same memory.  The byte
    [dvg_update_databus] latches for word [pc] (low or high half by bit 0
    of the state latch) is the byte the CPU reads at 0x4000 + 2 pc + half
    for words in vector RAM and at 0x5000 + 2 (pc - 0x400) + half for words
    in vector ROM. *)
Theorem dvg_bus_matches_cpu_bus m :
  0 <= dvg_state.pc (dvg m) < 0x800 ->
  let pc := dvg_state.pc (dvg m) in
  let half := Z.land (dvg_state.state_latch (dvg m)) 1 in
  dvg_state.data (dvg (dvg_update_databus rom_vector m)) =
    if pc <? 0x400
    then read rom_vector prom0 prom1 prom2 m (0x4000 + 2 * pc + half)
    else read rom_vector prom0 prom1 prom2 m (0x5000 + 2 * (pc - 0x400) + half).
Proof.
  intros Hpc pc half. subst pc half.
  set (pc := dvg_state.pc (dvg m)) in *.
  assert (Hh : 0 <= Z.land (dvg_state.state_latch (dvg m)) 1 < 2).
  { change 1 with (Z.ones 1). rewrite Z.land_ones by lia.
    apply Z.mod_pos_bound. lia. }
  set (half := Z.land (dvg_state.state_latch (dvg m)) 1) in *.
  unfold dvg_update_databus. cbn [dvg upd set_dvg dvg_state.data dvg_state.set_data].
  fold pc. fold half.
  rewrite Z.shiftl_mul_pow2 by lia. change (2 ^ 1) with 2.
  unfold read, cpu6502_read_callback.
  destruct (Z.ltb_spec pc 0x400).
  - rewrite u16_small by lia. zdecide. cbn [fst]. f_equal. lia.
  - rewrite u16_small by lia. zdecide. cbn [fst]. f_equal. lia.
Qed.
End BusReads.

(** X1, witness: 0x12 written to the first byte of vector RAM. *)
Lemma vram_write_then_read_witness :
  read rom_zero rom_zero rom_zero rom_zero
       (write rom_zero rom_zero (setup (vram_of [])) 0x4000 0x12) 0x4000 = 0x12.
Proof.
  apply (vram_write_then_read rom_zero rom_zero rom_zero rom_zero rom_zero
           (setup (vram_of [])) 0x4000 0x12).
  - repeat split; vm_compute; reflexivity.
  - lia.
Defined.

(** X2, witness: a store to RAM 0x0200 seen from vector RAM 0x4200. *)
Lemma store_isolated_witness :
  read rom_zero rom_zero rom_zero rom_zero
       (write rom_zero rom_zero (setup (vram_of [])) 0x200 0x12) 0x4200
  = read rom_zero rom_zero rom_zero rom_zero (setup (vram_of [])) 0x4200.
Proof.
  apply (store_isolated rom_zero rom_zero rom_zero rom_zero rom_zero
           (setup (vram_of [])) 0x200 0x12 0x4200).
  - left; lia.
  - lia.
  - lia.
Defined.

(** X3, witness: a read of 0x1000 and a write to the watchdog at 0x3400. *)
Lemma unmapped_reads_open_bus_witness :
  cpu6502_read_callback rom_zero rom_zero rom_zero rom_zero
    (setup (vram_of [])) 0x1000 = (0xFF, setup (vram_of [])) /\
  write rom_zero rom_zero (setup (vram_of [])) 0x3400 0x55 = setup (vram_of []).
Proof.
  apply (unmapped_reads_open_bus rom_zero rom_zero rom_zero rom_zero rom_zero
           (setup (vram_of [])) 0x1000 0x3400 0x55).
  - reflexivity.
  - reflexivity.
Defined.

(** X4, witness: the power-on switches 0x84 read at 0x2803. *)
Lemma dsw1_read_pair_witness :
  let r := read rom_zero rom_zero rom_zero rom_zero (setup (vram_of [])) (0x2800 + 3) in
  r = 0xFC + (dip_switches (setup (vram_of [])) / 4 ^ 3) mod 4 /\ 0xFC <= r <= 0xFF.
Proof.
  apply (dsw1_read_pair rom_zero rom_zero rom_zero rom_zero (setup (vram_of [])) 3).
  - lia.
  - cbn; lia.
Defined.

(** X6, witness: the sequencer at word 0 of a vector RAM that holds a
    program. *)
Lemma dvg_bus_matches_cpu_bus_witness :
  let m := setup (vram_of call_return_program) in
  let pc := dvg_state.pc (dvg m) in
  let half := Z.land (dvg_state.state_latch (dvg m)) 1 in
  dvg_state.data (dvg (dvg_update_databus rom_zero m)) =
    if pc <? 0x400
    then read rom_zero rom_zero rom_zero rom_zero m (0x4000 + 2 * pc + half)
    else read rom_zero rom_zero rom_zero rom_zero m (0x5000 + 2 * (pc - 0x400) + half).
Proof.
  apply (dvg_bus_matches_cpu_bus rom_zero rom_zero rom_zero rom_zero
           (setup (vram_of call_return_program))).
  cbn; lia.
Defined.

(** ** Buttons *)

Section ButtonProofs.

Variable asteroid_rom_vector : Z -> Z.
Variables asteroid_rom_prom0 asteroid_rom_prom1 asteroid_rom_prom2 : Z -> Z.

(** X5: buttons are active low, one pin each: after [read_buttons] the
    game reads a control as pressed (0x80) exactly when its pin is at level
    0, and as released (0x7F) at any other level: left 32, right 33,
    thrust 34 on IN1 bits 7, 6, 5 and hyperspace 35, fire 15 on IN0 bits
    3, 4.  Coin (pin 27, IN1 bit 0) and start (pin 14, IN1 bit 3) read as
    pressed also while the timed auto-start holds them. *)
Theorem read_buttons_active_low digitalRead m :
  let m' := read_buttons digitalRead m in
  let port a := read asteroid_rom_vector asteroid_rom_prom0 asteroid_rom_prom1
                     asteroid_rom_prom2 m' a in
  let level pin := if digitalRead pin =? 0 then 0x80 else 0x7F in
  let game_runtime := u32 (millis_now m - in1_start_time m) in
  port 0x2407 = level BTN_LEFT_PIN /\
  port 0x2406 = level BTN_RIGHT_PIN /\
  port 0x2405 = level BTN_UP_PIN /\
  port 0x2003 = level BTN_DOWN_PIN /\
  port 0x2004 = level BTN_FIRE_PIN /\
  port 0x2400 = (if (digitalRead BTN_COIN_PIN =? 0)
                    || ((2000 <=? game_runtime) && (game_runtime <? 4000))
                 then 0x80 else 0x7F) /\
  port 0x2403 = (if (digitalRead BTN_START_PIN =? 0)
                    || ((4000 <=? game_runtime) && (game_runtime <? 6000))
                 then 0x80 else 0x7F).
Proof.
  intros m' port level game_runtime. subst port level. cbv beta.
  unfold read, cpu6502_read_callback.
  cbn [Z.ltb Z.leb Z.compare Pos.compare Pos.compare_cont andb fst].
  repeat split;
    [ change 0x2407 with (0x2400 + 7) | change 0x2406 with (0x2400 + 6)
    | change 0x2405 with (0x2400 + 5) | change 0x2003 with (0x2000 + 3)
    | change 0x2004 with (0x2000 + 4) | change 0x2400 with (0x2400 + 0)
    | change 0x2403 with (0x2400 + 3) ];
    rewrite bit_select_result_testbit by (reflexivity || lia);
    rewrite ?in1_row_testbit, ?in0_row_testbit by lia;
    unfold in1_input, in0_input;
    cbn [Z.eqb Pos.eqb];
    change (millis_now m') with (millis_now m);
    change (in1_start_time m') with (in1_start_time m);
    fold game_runtime;
    unfold m', read_buttons;
    cbn [btn set_btn buttons.rotate_left buttons.rotate_right buttons.thrust
         buttons.hyperspace buttons.fire buttons.start buttons.coin];
    unfold nz; rewrite !negb_involutive; reflexivity.
Qed.

End ButtonProofs.

(** ** What an activation keeps

    A property that every cycle keeps is kept by the whole activation. *)

Section RunFacts.

Variables rom prom : Z -> Z.

Lemma dvg_loop_preserves (P : machine -> Prop) :
  (forall p m, P m -> P (dvg_cycle rom p m)) ->
  forall fuel l l',
    dvg_loop rom prom fuel l = Some l' -> P (l_m l) -> P (l_m l').
Proof.
  intros Hcyc. induction fuel as [|fuel IH]; intros l l' Hl H; [discriminate|].
  cbn [dvg_loop] in Hl. unfold dvg_loop_cond in Hl.
  destruct (dvg_state.halt (dvg (l_m l))).
  - injection Hl as <-. exact H.
  - destruct (0 <? l_max_iterations l); [destruct (l_cycles l <? 10000)|].
    + apply IH in Hl; [exact Hl|]. cbn [l_m]. apply Hcyc, H.
    + injection Hl as <-. exact H.
    + injection Hl as <-. exact H.
Qed.

Lemma dvg_go_preserves (P : machine -> Prop) m value :
  (forall p m, P m -> P (dvg_cycle rom p m)) ->
  (forall b m, P m -> P (upd (dvg_state.set_halt b) m)) ->
  (forall b m, P m -> P (upd (dvg_state.set_running b) m)) ->
  P (dvg_go_start m value) ->
  P (dvg_go rom prom m value).
Proof.
  intros Hcyc Hhalt Hrun H0.
  unfold dvg_go, dvg_run_state_machine, dvg_run_state_machine_fuel.
  destruct (dvg_state.running (dvg (dvg_go_start m value))); cbn [negb];
    [|exact H0].
  destruct (dvg_loop rom prom 1001 _) as [l'|] eqn:Hl; [|exact H0].
  apply Hrun. apply (dvg_loop_preserves P Hcyc _ _ _ Hl).
  cbn [l_m]. apply Hhalt, H0.
Qed.
End RunFacts.

(** *** The beam stays on screen *)

Lemma clip1023_range z : 0 <= clip1023 z <= 1023.
Proof. unfold clip1023. destruct (Z.ltb_spec z 0); [reflexivity || (cbn; lia)|];
  destruct (Z.ltb_spec 1023 z); lia. Qed.

Lemma beam_inv_ext m m' :
  vbuf m' = vbuf m ->
  dvg_state.x (dvg m') = dvg_state.x (dvg m) ->
  dvg_state.y (dvg m') = dvg_state.y (dvg m) ->
  dvg_state.intensity (dvg m') = dvg_state.intensity (dvg m) ->
  vector_ram m' = vector_ram m ->
  dvg_state.data (dvg m') = dvg_state.data (dvg m) ->
  beam_inv m -> beam_inv m'.
Proof. unfold beam_inv. intros -> -> -> -> -> ->. auto. Qed.

Ltac keeps_beam H :=
  apply (beam_inv_ext _ _) with (7 := H); split_ifs; reflexivity.

Lemma dvg_add_vector_beam dx dy i m :
  0 <= i <= 15 -> beam_inv m -> beam_inv (dvg_add_vector dx dy i m).
Proof.
  intros Hi H. pose proof H as (Hp & Hin & Hc & Hs & Hx & Hy & Hint & Hb & Hd).
  destruct (Z.leb_spec VECT_POINTS_PER_FRAME (vector_buffer.count (vbuf m)))
    as [Hfull|Hroom].
  - unfold dvg_add_vector. cbv zeta. rewrite (proj2 (Z.leb_le _ _) Hfull).
    exact H.
  - destruct (dvg_add_vector_samples dx dy i m Hp Hin ltac:(lia))
      as (Hs' & Hx' & Hy' & Hc' & Hp' & Hin' & _ & Hint').
    assert (Hv : vector_ram (dvg_add_vector dx dy i m) = vector_ram m)
      by (unfold dvg_add_vector; split_ifs; reflexivity).
    assert (Hdat : dvg_state.data (dvg (dvg_add_vector dx dy i m))
                   = dvg_state.data (dvg m))
      by (unfold dvg_add_vector; split_ifs; reflexivity).
    unfold beam_inv. rewrite Hs', Hx', Hy', Hc', Hp', Hin', Hint', Hv, Hdat.
    pose proof (clip1023_range (s16 (dvg_state.x (dvg m) + dx))).
    pose proof (clip1023_range (s16 (dvg_state.y (dvg m) + dy))).
    unfold VECT_POINTS_PER_FRAME in *.
    repeat split; try assumption; try lia.
    + destruct (Z.eqb_spec (vector_buffer.count (vbuf m)) 0); lia.
    + destruct (Z.eqb_spec (vector_buffer.count (vbuf m)) 0); lia.
    + rewrite !Forall_app. repeat split; [assumption| |].
      * destruct (vector_buffer.count (vbuf m) =? 0); [|constructor].
        constructor; [|constructor]. cbn. rewrite !u16_small by lia. lia.
      * constructor; [|constructor]. cbn. rewrite !u16_small by lia. lia.
Qed.

Lemma u8_shiftr4_nibble d : 0 <= d < 256 -> 0 <= u8 (Z.shiftr d 4) <= 15.
Proof.
  intros Hd. rewrite Z.shiftr_div_pow2 by lia. change (2 ^ 4) with 16.
  rewrite u8_small; Z.div_mod_to_equations; lia.
Qed.

Lemma dvg_handler_7_beam m : beam_inv m -> beam_inv (dvg_handler_7 m).
Proof.
  intros H. pose proof H as (Hp & Hin & Hc & Hs & Hx & Hy & Hint & Hb & Hd).
  unfold dvg_handler_7, beam_inv.
  cbn [vbuf dvg set_dvg vector_ram dvg_state.x dvg_state.y dvg_state.intensity
       dvg_state.data dvg_state.set_dvx dvg_state.set_intensity].
  pose proof (u8_shiftr4_nibble _ Hd).
  repeat split; try assumption; lia.
Qed.

Lemma aget_bytes l i : bytes l -> 0 <= aget 0 l i < 256.
Proof.
  intros Hl. unfold aget. destruct (l !! Z.to_nat i) as [b|] eqn:Hb; cbn; [|lia].
  apply (Forall_lookup_1 _ _ _ _ Hl Hb).
Qed.

Section BeamProofs.

Variables rom prom : Z -> Z.
Hypothesis rom_bytes : forall off, 0 <= rom off < 256.

Lemma dvg_update_databus_beam m :
  beam_inv m -> beam_inv (dvg_update_databus rom m).
Proof.
  intros H. pose proof H as (Hp & Hin & Hc & Hs & Hx & Hy & Hint & Hb & Hd).
  unfold dvg_update_databus, beam_inv.
  cbn [vbuf dvg upd set_dvg vector_ram dvg_state.x dvg_state.y dvg_state.intensity
       dvg_state.data dvg_state.set_data].
  repeat split; try assumption;
    split_ifs; try lia; try apply aget_bytes; try apply rom_bytes; assumption.
Qed.

Lemma dvg_dispatch_beam h m : beam_inv m -> beam_inv (dvg_dispatch h m).
Proof.
  intros H. pose proof H as (_ & _ & _ & _ & _ & _ & Hint & _).
  unfold dvg_dispatch.
  destruct (h =? 0); [unfold dvg_handler_0; cbv zeta; keeps_beam H|].
  destruct (h =? 1); [unfold dvg_handler_1; cbv zeta; keeps_beam H|].
  destruct (h =? 2); [apply dvg_add_vector_beam; assumption|].
  destruct (h =? 3).
  { unfold dvg_handler_3. cbv zeta.
    match goal with |- context [if ?c then _ else _] => destruct c end.
    - keeps_beam H.
    - apply dvg_add_vector_beam; [lia|]. keeps_beam H. }
  destruct (h =? 4).
  { unfold dvg_handler_4. cbv zeta.
    match goal with |- context [if ?c then _ else _] => destruct c end.
    - assert (H1 : beam_inv (dvg_handler_7
                (upd (fun d => dvg_state.set_dvy (Z.land (dvg_state.dvy d) 0xf00) d) m))).
      { apply dvg_handler_7_beam. keeps_beam H. }
      keeps_beam H1.
    - keeps_beam H. }
  destruct (h =? 5); [unfold dvg_handler_5; cbv zeta; keeps_beam H|].
  destruct (h =? 6); [unfold dvg_handler_6; cbv zeta; keeps_beam H|].
  destruct (h =? 7); [apply dvg_handler_7_beam, H|].
  exact H.
Qed.

Lemma dvg_cycle_beam p m : beam_inv m -> beam_inv (dvg_cycle rom p m).
Proof.
  intros H. unfold dvg_cycle. cbv zeta.
  match goal with |- context [if ?c then _ else _] => destruct c end.
  - apply dvg_dispatch_beam, dvg_update_databus_beam. keeps_beam H.
  - keeps_beam H.
Qed.

Lemma dvg_go_beam m value :
  arrays_ok m ->
  bytes (vector_ram m) ->
  0 <= dvg_state.x (dvg m) <= 1023 ->
  0 <= dvg_state.y (dvg m) <= 1023 ->
  0 <= dvg_state.intensity (dvg m) <= 15 ->
  beam_inv (dvg_go rom prom m value).
Proof.
  intros (_ & _ & Hp & Hi & _) Hb Hx Hy Hint.
  apply dvg_go_preserves.
  - intros p m0. apply dvg_cycle_beam.
  - intros b m0 H0. keeps_beam H0.
  - intros b m0 H0. keeps_beam H0.
  - unfold beam_inv, dvg_go_start, VECT_POINTS_PER_FRAME in *.
    cbn. repeat split; try assumption; try lia. constructor.
Qed.

(** X7: whatever the vector program and the sequencer PROM, an
    activation leaves only on-screen samples in the buffer: every x and y
    in 0..1023 and every intensity in 0..15, at most 2048 of them, with the
    beam itself and the latched intensity in the same ranges afterwards. *)
Theorem dvg_go_samples_on_screen m value :
  arrays_ok m ->
  bytes (vector_ram m) ->
  0 <= dvg_state.x (dvg m) <= 1023 ->
  0 <= dvg_state.y (dvg m) <= 1023 ->
  0 <= dvg_state.intensity (dvg m) <= 15 ->
  let m' := dvg_go rom prom m value in
  Forall sample_ok (samples (vbuf m')) /\
  (length (samples (vbuf m')) <= 2048)%nat /\
  0 <= dvg_state.x (dvg m') <= 1023 /\
  0 <= dvg_state.y (dvg m') <= 1023 /\
  0 <= dvg_state.intensity (dvg m') <= 15.
Proof.
  intros Hok Hb Hx Hy Hint m'.
  destruct (dvg_go_beam m value Hok Hb Hx Hy Hint)
    as (Hp' & Hi' & Hc' & Hs' & Hx' & Hy' & Hint' & _).
  fold m' in Hp', Hi', Hc', Hs', Hx', Hy', Hint'.
  repeat split; try assumption; try lia.
  unfold samples. rewrite length_take. unfold VECT_POINTS_PER_FRAME in *. lia.
Qed.
End BeamProofs.

Lemma vram_of_bytes prog : bytes prog -> bytes (vram_of prog).
Proof.
  intros H. unfold bytes, vram_of. apply Forall_take, Forall_app. split; [exact H|].
  apply Forall_replicate. lia.
Qed.

(** X7, witness: the draw-then-halt table on the power-on machine. *)
Lemma dvg_go_samples_on_screen_witness :
  let m' := dvg_go rom_zero prom_draw_then_halt (setup (vram_of [])) 0 in
  Forall sample_ok (samples (vbuf m')) /\
  (length (samples (vbuf m')) <= 2048)%nat /\
  0 <= dvg_state.x (dvg m') <= 1023 /\
  0 <= dvg_state.y (dvg m') <= 1023 /\
  0 <= dvg_state.intensity (dvg m') <= 15.
Proof.
  apply (dvg_go_samples_on_screen rom_zero prom_draw_then_halt
           ltac:(intros off; unfold rom_zero; lia) (setup (vram_of [])) 0).
  - apply setup_arrays_ok.
  - apply vram_of_bytes. constructor.
  - cbn; lia.
  - cbn; lia.
  - cbn; lia.
Defined.

(** *** What the generator leaves alone *)

Lemma same_memory_ext m0 m m' :
  ram m' = ram m -> vector_ram m' = vector_ram m -> btn m' = btn m ->
  dip_switches m' = dip_switches m -> clock_3khz m' = clock_3khz m ->
  total_cpu_cycles m' = total_cpu_cycles m ->
  millis_now m' = millis_now m -> game_start_time m' = game_start_time m ->
  same_memory m0 m -> same_memory m0 m'.
Proof. unfold same_memory. intros -> -> -> -> -> -> -> ->. auto. Qed.

Ltac keeps_memory H :=
  apply (same_memory_ext _ _ _) with (9 := H); split_ifs; reflexivity.

Section GoFacts.

Variables rom_vector prom0 prom1 prom2 prom : Z -> Z.

Lemma dvg_add_vector_same_memory m0 dx dy i m :
  same_memory m0 m -> same_memory m0 (dvg_add_vector dx dy i m).
Proof. intros H. unfold dvg_add_vector. cbv zeta. keeps_memory H. Qed.

Lemma dvg_dispatch_same_memory m0 h m :
  same_memory m0 m -> same_memory m0 (dvg_dispatch h m).
Proof.
  intros H. unfold dvg_dispatch.
  destruct (h =? 0); [unfold dvg_handler_0; cbv zeta; keeps_memory H|].
  destruct (h =? 1); [unfold dvg_handler_1; cbv zeta; keeps_memory H|].
  destruct (h =? 2); [apply dvg_add_vector_same_memory, H|].
  destruct (h =? 3).
  { unfold dvg_handler_3. cbv zeta.
    match goal with |- context [if ?c then _ else _] => destruct c end.
    - keeps_memory H.
    - apply dvg_add_vector_same_memory. keeps_memory H. }
  destruct (h =? 4);
    [unfold dvg_handler_4, dvg_handler_7; cbv zeta; keeps_memory H|].
  destruct (h =? 5); [unfold dvg_handler_5; cbv zeta; keeps_memory H|].
  destruct (h =? 6); [unfold dvg_handler_6; cbv zeta; keeps_memory H|].
  destruct (h =? 7); [unfold dvg_handler_7; cbv zeta; keeps_memory H|].
  exact H.
Qed.

Lemma dvg_cycle_same_memory m0 p m :
  same_memory m0 m -> same_memory m0 (dvg_cycle rom_vector p m).
Proof.
  intros H. unfold dvg_cycle. cbv zeta.
  match goal with |- context [if ?c then _ else _] => destruct c end.
  - apply dvg_dispatch_same_memory. keeps_memory H.
  - keeps_memory H.
Qed.

Lemma dvg_go_same_memory m value :
  same_memory m (dvg_go rom_vector prom m value).
Proof.
  apply dvg_go_preserves.
  - intros p m0. apply dvg_cycle_same_memory.
  - intros b m0 H0. keeps_memory H0.
  - intros b m0 H0. keeps_memory H0.
  - repeat split.
Qed.

(** X8: the generator is never seen busy.  The write to DVG GO returns
    only after the sequencer has stopped, so the very next read of the
    busy bit at 0x2002 is 0x7F (clear), whatever the program and the
    PROM. *)
Theorem dvg_go_never_busy m value :
  let m' := write rom_vector prom m 0x3000 value in
  read rom_vector prom0 prom1 prom2 m' 0x2002 = 0x7F /\
  dvg_state.running (dvg m') = false.
Proof.
  intros m'.
  assert (Hm' : m' = dvg_go rom_vector prom m value) by reflexivity.
  assert (Hrun : dvg_state.running (dvg m') = false).
  { rewrite Hm'. unfold dvg_go.
    destruct (dvg_run_fuel_spec rom_vector prom (dvg_go_start m value))
      as (r & n & Hany & _ & Hoff & _).
    unfold dvg_run_state_machine. rewrite (Hany 1001%nat) by lia. exact Hoff. }
  clearbody m'. split; [|exact Hrun].
  change 0x2002 with (0x2000 + 2).
  unfold read, cpu6502_read_callback. zdecide. cbn [fst].
  rewrite bit_select_result_testbit, in0_row_testbit by (reflexivity || lia).
  unfold in0_input. cbn. rewrite Hrun. reflexivity.
Qed.

(** X9: an activation of the generator writes nothing but its own
    registers, the sample buffer and the frame counter: RAM, vector RAM,
    buttons, switches and the clocks are as before the write to DVG GO. *)
Theorem dvg_go_keeps_memory m value :
  same_memory m (write rom_vector prom m 0x3000 value).
Proof. exact (dvg_go_same_memory m value). Qed.

End GoFacts.

(** *** The part of the PROM that is used *)

Lemma land_7_mod z : Z.land z 7 = z mod 8.
Proof. change 7 with (Z.ones 3). rewrite Z.land_ones by lia. reflexivity. Qed.

(** While bit 4 of the state latch is clear the sequencer addresses the
    upper half of the PROM. *)
Lemma dvg_state_addr_upper_half m :
  0 <= dvg_state.state_latch (dvg m) < 16 ->
  0x80 <= dvg_state_addr m < 0x100.
Proof.
  intros HL. unfold dvg_state_addr. cbv zeta.
  set (L := dvg_state.state_latch (dvg m)) in *.
  rewrite land_7_mod.
  pose proof (Z.mod_pos_bound (dvg_state.op (dvg m)) 8 ltac:(lia)) as Hk.
  set (k := dvg_state.op (dvg m) mod 8) in *.
  assert (HLc : L = 0 \/ L = 1 \/ L = 2 \/ L = 3 \/ L = 4 \/ L = 5 \/ L = 6 \/ L = 7 \/
                L = 8 \/ L = 9 \/ L = 10 \/ L = 11 \/ L = 12 \/ L = 13 \/ L = 14 \/ L = 15)
    by lia.
  assert (Hkc : k = 0 \/ k = 1 \/ k = 2 \/ k = 3 \/ k = 4 \/ k = 5 \/ k = 6 \/ k = 7)
    by lia.
  clearbody L k.
  destruct (nz _);
    decompose [or] HLc; subst L; decompose [or] Hkc; subst k;
    vm_compute; split; congruence.
Qed.

Lemma dvg_dispatch_keeps_latch h m :
  dvg_state.state_latch (dvg (dvg_dispatch h m)) = dvg_state.state_latch (dvg m).
Proof.
  unfold dvg_dispatch, dvg_handler_0, dvg_handler_1, dvg_handler_2,
    dvg_handler_3, dvg_handler_4, dvg_handler_5, dvg_handler_6, dvg_handler_7,
    dvg_process_vector.
  cbv zeta.
  destruct (h =? 0); [split_ifs; reflexivity|].
  destruct (h =? 1); [split_ifs; reflexivity|].
  destruct (h =? 2); [unfold dvg_add_vector; split_ifs; reflexivity|].
  destruct (h =? 3); [unfold dvg_add_vector; split_ifs; reflexivity|].
  destruct (h =? 4); [split_ifs; reflexivity|].
  destruct (h =? 5); [split_ifs; reflexivity|].
  destruct (h =? 6); [split_ifs; reflexivity|].
  destruct (h =? 7); [split_ifs; reflexivity|].
  reflexivity.
Qed.

Section PromFacts.

Variables rom prom prom' : Z -> Z.
Hypothesis upper_half_agrees :
  forall a, 0x80 <= a < 0x100 -> prom a = prom' a.

Lemma dvg_cycle_latch_small p m :
  0 <= dvg_state.state_latch (dvg m) < 16 ->
  0 <= dvg_state.state_latch (dvg (dvg_cycle rom p m)) < 16.
Proof.
  intros HL.
  assert (Hnew : dvg_state.state_latch (dvg (dvg_cycle rom p m))
                 = u8 (Z.lor (Z.land (dvg_state.state_latch (dvg m)) 0x10)
                             (Z.land p 0x0f))).
  { unfold dvg_cycle. cbv zeta.
    match goal with |- context [if ?c then _ else _] => destruct c end;
      [rewrite dvg_dispatch_keeps_latch|]; reflexivity. }
  rewrite Hnew. rewrite land_f.
  pose proof (Z.mod_pos_bound p 16 ltac:(lia)) as Hp.
  assert (H0 : Z.land (dvg_state.state_latch (dvg m)) 0x10 = 0).
  { set (L := dvg_state.state_latch (dvg m)) in *.
    assert (HLc : L = 0 \/ L = 1 \/ L = 2 \/ L = 3 \/ L = 4 \/ L = 5 \/ L = 6 \/ L = 7 \/
                  L = 8 \/ L = 9 \/ L = 10 \/ L = 11 \/ L = 12 \/ L = 13 \/ L = 14 \/
                  L = 15) by lia.
    clearbody L. decompose [or] HLc; subst L; reflexivity. }
  rewrite H0, Z.lor_0_l, u8_small; lia.
Qed.

Lemma dvg_loop_prom_ext fuel l :
  0 <= dvg_state.state_latch (dvg (l_m l)) < 16 ->
  dvg_loop rom prom fuel l = dvg_loop rom prom' fuel l.
Proof.
  revert l. induction fuel as [|fuel IH]; intros l HL; [reflexivity|].
  cbn [dvg_loop]. unfold dvg_loop_cond.
  destruct (dvg_state.halt (dvg (l_m l))); [reflexivity|].
  destruct (0 <? l_max_iterations l); [|reflexivity].
  destruct (l_cycles l <? 10000); [|reflexivity].
  cbn [l_m l_max_iterations l_cycles l_passes].
  assert (Hbody : dvg_loop_body rom prom (l_m l) = dvg_loop_body rom prom' (l_m l)).
  { unfold dvg_loop_body.
    rewrite (upper_half_agrees _ (dvg_state_addr_upper_half _ HL)). reflexivity. }
  rewrite Hbody. apply IH. cbn [l_m]. unfold dvg_loop_body.
  apply dvg_cycle_latch_small, HL.
Qed.

(** X10: an activation never looks at sequencer PROM entries below 0x80
    (bit 4 of the state latch is cleared at the start and never set again):
    two tables that agree on 0x80-0xFF drive every activation the same
    way. *)
Theorem dvg_go_reads_upper_prom_only m value :
  dvg_go rom prom m value = dvg_go rom prom' m value.
Proof.
  unfold dvg_go, dvg_run_state_machine, dvg_run_state_machine_fuel.
  destruct (dvg_state.running (dvg (dvg_go_start m value))); cbn [negb];
    [|reflexivity].
  rewrite dvg_loop_prom_ext by (cbn; lia). reflexivity.
Qed.
End PromFacts.

(** X10, witness: the draw-then-halt table with its lower half filled
    with LATCH3 strobes. *)
Lemma dvg_go_reads_upper_prom_only_witness :
  dvg_go rom_zero prom_draw_then_halt (setup (vram_of [])) 0
  = dvg_go rom_zero prom_lower_half_filled (setup (vram_of [])) 0.
Proof.
  apply (dvg_go_reads_upper_prom_only rom_zero prom_draw_then_halt
           prom_lower_half_filled).
  intros a Ha. unfold prom_lower_half_filled.
  destruct (Z.ltb_spec a 0x80); [lia|reflexivity].
Defined.

(** *** Calls followed by returns *)

(** X11: calls and returns compose as a stack of depth 4.  After any
    number of nested calls, the (k+1)-th return (k < 4, and no more returns
    than calls) resumes at the return address of the (k+1)-th most recent
    call, and as many returns as calls bring the stack pointer back to
    where it was. *)
Theorem calls_then_returns_lifo rets m k :
  length (dvg_state.stack (dvg m)) = 4%nat ->
  0 <= dvg_state.stack_ptr (dvg m) < 16 ->
  (k < length rets)%nat -> (k < 4)%nat ->
  dvg_state.pc (dvg (nested_returns (S k) (nested_calls rets m)))
  = nth k (rev rets) 0 /\
  dvg_state.stack_ptr (dvg (nested_returns (length rets) (nested_calls rets m)))
  = dvg_state.stack_ptr (dvg m).
Proof.
  intros Hlen Hsp Hk Hk4.
  destruct (nested_calls_slots rets m k Hlen Hsp Hk Hk4) as (Hsp' & Hslot).
  cbv zeta in Hsp', Hslot.
  set (m' := nested_calls rets m) in *.
  assert (Hsp'r : 0 <= dvg_state.stack_ptr (dvg m') < 16)
    by (rewrite Hsp'; apply Z.mod_pos_bound; lia).
  split.
  - destruct (nested_returns_ctl k m' Hsp'r) as (Hst & Hspk).
    rewrite nested_returns_succ.
    destruct (pop_ctl (nested_returns k m')) as (-> & _).
    rewrite Hst, Hspk, land_3_mod, <- Hslot. f_equal.
    Z.div_mod_to_equations; lia.
  - destruct (nested_returns_ctl (length rets) m' Hsp'r) as (_ & ->).
    rewrite Hsp'. Z.div_mod_to_equations; lia.
Qed.

(** X11, witness: three nested calls on the power-on machine, second
    return. *)
Lemma calls_then_returns_lifo_witness :
  dvg_state.pc (dvg (nested_returns 2
                       (nested_calls [0x10; 0x20; 0x30] (setup (vram_of [])))))
  = nth 1 (rev [0x10; 0x20; 0x30]) 0 /\
  dvg_state.stack_ptr
    (dvg (nested_returns (length [0x10; 0x20; 0x30])
            (nested_calls [0x10; 0x20; 0x30] (setup (vram_of [])))))
  = dvg_state.stack_ptr (dvg (setup (vram_of []))).
Proof.
  apply (calls_then_returns_lifo [0x10; 0x20; 0x30] (setup (vram_of [])) 1).
  - reflexivity.
  - cbn; lia.
  - cbn; lia.
  - lia.
Defined.

(** ** The direct interpreter *)

Lemma word_of_bytes lo hi :
  0 <= lo < 256 -> 0 <= hi < 256 ->
  u16 (Z.lor (Z.shiftl hi 8) lo) = lo + 256 * hi.
Proof.
  intros Hlo Hhi. rewrite shiftl_8, Z.lor_comm, lor_low_high by lia.
  rewrite u16_small; lia.
Qed.

Section WordProofs.

Variables rom_vector prom0 prom1 prom2 : Z -> Z.
Hypothesis rom_bytes : forall off, 0 <= rom_vector off < 256.

(** X12: [dvg_read_word] takes a byte address relative to 0x4000 and
    assembles the two bytes the CPU sees there, low byte first; the last
    byte of vector RAM (0x7FF) and of vector ROM (0xFFF) cannot start a
    word, and those and every address from 0x1000 on read as 0. *)
Theorem dvg_read_word_little_endian m addr :
  bytes (vector_ram m) ->
  0 <= addr < 0x10000 ->
  dvg_read_word rom_vector m addr =
    if addr <? 0x7FF then
      read rom_vector prom0 prom1 prom2 m (0x4000 + addr)
      + 256 * read rom_vector prom0 prom1 prom2 m (0x4000 + addr + 1)
    else if (0x800 <=? addr) && (addr <? 0xFFF) then
      read rom_vector prom0 prom1 prom2 m (0x5000 + (addr - 0x800))
      + 256 * read rom_vector prom0 prom1 prom2 m (0x5000 + (addr - 0x800) + 1)
    else 0.
Proof.
  intros Hb Ha. unfold dvg_read_word.
  destruct (Z.ltb_spec addr 0x7FF) as [H1|H1].
  - zdecide. rewrite word_of_bytes by (apply aget_bytes, Hb).
    unfold read, cpu6502_read_callback. zdecide. cbn [fst].
    replace (0x4000 + addr - 0x4000) with addr by lia.
    replace (0x4000 + addr + 1 - 0x4000) with (addr + 1) by lia.
    reflexivity.
  - destruct (Z.ltb_spec addr 0x800) as [H2|H2].
    + zdecide. reflexivity.
    + zdecide. rewrite u16_small by lia.
      destruct (Z.ltb_spec addr 0xFFF) as [H3|H3]; zdecide; [|reflexivity].
      rewrite word_of_bytes by apply rom_bytes.
      unfold read, cpu6502_read_callback. zdecide. cbn [fst].
      replace (0x5000 + (addr - 0x800) - 0x5000) with (addr - 0x800) by lia.
      replace (0x5000 + (addr - 0x800) + 1 - 0x5000) with (addr - 0x800 + 1) by lia.
      reflexivity.
Qed.
End WordProofs.

(** X12, witness: the first word of the call-and-return program. *)
Lemma dvg_read_word_little_endian_witness :
  let m := setup (vram_of call_return_program) in
  dvg_read_word rom_zero m 0 =
    if 0 <? 0x7FF then
      read rom_zero rom_zero rom_zero rom_zero m (0x4000 + 0)
      + 256 * read rom_zero rom_zero rom_zero rom_zero m (0x4000 + 0 + 1)
    else if (0x800 <=? 0) && (0 <? 0xFFF) then
      read rom_zero rom_zero rom_zero rom_zero m (0x5000 + (0 - 0x800))
      + 256 * read rom_zero rom_zero rom_zero rom_zero m (0x5000 + (0 - 0x800) + 1)
    else 0.
Proof.
  apply (dvg_read_word_little_endian rom_zero rom_zero rom_zero rom_zero
           ltac:(intros off; unfold rom_zero; lia)
           (setup (vram_of call_return_program)) 0).
  - apply vram_of_bytes. unfold call_return_program.
    repeat (apply Forall_app; split); try apply Forall_replicate;
      repeat constructor; lia.
  - lia.
Defined.

Lemma clip4095_range z : 0 <= clip4095 z <= 4095.
Proof.
  unfold clip4095. destruct (Z.ltb_spec z 0); [cbn; lia|].
  destruct (Z.ltb_spec 4095 z); lia.
Qed.

Lemma exec_inv_ext m m' :
  vbuf m' = vbuf m ->
  dvg_state.stack (dvg m') = dvg_state.stack (dvg m) ->
  dvg_state.stack_ptr (dvg m') = dvg_state.stack_ptr (dvg m) ->
  exec_inv m -> exec_inv m'.
Proof. unfold exec_inv. intros -> -> ->. auto. Qed.

Ltac keeps_exec H :=
  apply (exec_inv_ext _ _) with (4 := H); split_ifs; reflexivity.

Lemma dvg_add_point_exec x y i m :
  exec_inv m -> exec_inv (dvg_add_point x y i m).
Proof.
  intros H. pose proof H as (Hp & Hi & Hc & Hs & Hst & Hsp).
  unfold dvg_add_point. cbv zeta.
  destruct (Z.leb_spec VECT_POINTS_PER_FRAME (vector_buffer.count (vbuf m)))
    as [Hfull|Hroom]; [exact H|].
  fold (clip4095 (s16 (Z.quot (x * 4095) 1023))).
  fold (clip4095 (s16 (Z.quot (y * 4095) 1023))).
  pose proof (clip4095_range (s16 (Z.quot (x * 4095) 1023))) as Hx.
  pose proof (clip4095_range (s16 (Z.quot (y * 4095) 1023))) as Hy.
  unfold exec_inv, VECT_POINTS_PER_FRAME in *.
  cbn [vbuf dvg set_vbuf vector_buffer.points vector_buffer.intensity
       vector_buffer.count].
  rewrite !length_aset.
  repeat split; try assumption; try lia.
  destruct (vbuf m) as [pts ints c].
  cbn [vector_buffer.points vector_buffer.intensity vector_buffer.count] in *.
  rewrite samples_store by lia.
  rewrite Forall_app. split; [exact Hs|].
  constructor; [|constructor]. cbn.
  rewrite !u16_small by lia.
  pose proof (Z.mod_pos_bound (Z.quot (i * 255) 15) 256 ltac:(lia)).
  unfold u8. lia.
Qed.

Lemma fold_left_exec (f : machine -> nat -> machine) l m :
  (forall m i, exec_inv m -> exec_inv (f m i)) ->
  exec_inv m -> exec_inv (fold_left f l m).
Proof.
  intros Hf. revert m. induction l as [|j l IH]; intros m H; [exact H|].
  cbn [fold_left]. apply IH, Hf, H.
Qed.

Section ExecuteProofs.

Variable rom : Z -> Z.

Lemma dvg_execute_vctr_exec opcode m :
  exec_inv m -> exec_inv (dvg_execute_vctr opcode m).
Proof.
  intros H. unfold dvg_execute_vctr. cbv zeta.
  match goal with
  | |- exec_inv (upd _ (fold_left ?f ?l m)) =>
      assert (Hf : exec_inv (fold_left f l m))
  end.
  { apply fold_left_exec; [|exact H].
    intros m0 j H0. apply dvg_add_point_exec, H0. }
  apply (exec_inv_ext _ _) with (4 := Hf); reflexivity.
Qed.

Lemma dvg_execute_svec_exec opcode m :
  exec_inv m -> exec_inv (dvg_execute_svec opcode m).
Proof.
  intros H. unfold dvg_execute_svec. cbv zeta.
  match goal with
  | |- exec_inv (upd _ ?m2) => assert (Hf : exec_inv m2)
  end.
  { apply dvg_add_point_exec, dvg_add_point_exec, H. }
  apply (exec_inv_ext _ _) with (4 := Hf); reflexivity.
Qed.

Lemma dvg_execute_step_exec m :
  exec_inv m -> exec_inv (dvg_execute_step rom m).
Proof.
  intros H. pose proof H as (Hp & Hi & Hc & Hs & Hst & Hsp).
  unfold dvg_execute_step. cbv zeta.
  set (m1 := upd _ m).
  assert (H1 : exec_inv m1) by (subst m1; keeps_exec H).
  destruct (_ <? 0x8); [apply dvg_execute_vctr_exec, H1|].
  destruct (_ <? 0xA); [keeps_exec H1|].
  destruct (_ =? 0xA).
  { unfold exec_inv.
    cbn [vbuf dvg set_dvg dvg_state.stack dvg_state.stack_ptr dvg_state.set_pc].
    change (vbuf m1) with (vbuf m).
    change (dvg_state.stack_ptr (dvg m1)) with (dvg_state.stack_ptr (dvg m)).
    change (dvg_state.stack (dvg m1)) with (dvg_state.stack (dvg m)).
    destruct (Z.ltb_spec (dvg_state.stack_ptr (dvg m)) 4);
      cbn [dvg_state.stack dvg_state.stack_ptr dvg_state.set_stack
           dvg_state.set_stack_ptr];
      rewrite ?length_aset, ?u8_small by lia;
      repeat split; try assumption; try lia;
      destruct H1 as (_ & _ & _ & _ & _ & ?); lia. }
  destruct (_ =? 0xB); [keeps_exec H1|].
  destruct (_ =? 0xC).
  { change (dvg m1) with (dvg_state.set_pc (u16 (dvg_state.pc (dvg m) + 2)) (dvg m)).
    cbn [dvg_state.stack_ptr dvg_state.set_pc].
    destruct (Z.ltb_spec 0 (dvg_state.stack_ptr (dvg m))); [|keeps_exec H1].
    unfold exec_inv.
    cbn [vbuf dvg set_dvg dvg_state.stack dvg_state.stack_ptr dvg_state.set_pc
         dvg_state.set_stack_ptr].
    change (vbuf m1) with (vbuf m).
    rewrite u8_small by lia.
    repeat split; try assumption; lia. }
  destruct (_ =? 0xD); [keeps_exec H1|].
  apply dvg_execute_svec_exec, H1.
Qed.

Lemma dvg_execute_loop_exec n m :
  exec_inv m -> exec_inv (dvg_execute_loop rom n m).
Proof.
  revert m. induction n as [|n IH]; intros m H; [exact H|].
  cbn [dvg_execute_loop]. destruct (dvg_state.halt (dvg m)); [exact H|].
  apply IH, dvg_execute_step_exec, H.
Qed.

Lemma dvg_execute_exec m :
  arrays_ok m -> exec_inv (dvg_execute rom m).
Proof.
  intros (_ & _ & Hp & Hi & Hst). unfold dvg_execute. cbv zeta.
  apply dvg_execute_loop_exec.
  unfold exec_inv, dvg_reset, VECT_POINTS_PER_FRAME in *.
  cbn [vbuf dvg set_vbuf set_dvg vector_buffer.points vector_buffer.intensity
       vector_buffer.count dvg_state.stack dvg_state.stack_ptr
       dvg_state.set_pc dvg_state.set_x dvg_state.set_y dvg_state.set_scale
       dvg_state.set_intensity dvg_state.set_stack_ptr dvg_state.set_halt].
  repeat split; try assumption; try lia. constructor.
Qed.

(** X13: whatever the vector program, the direct interpreter leaves only
    samples in DAC range in the buffer: x and y in 0..4095 (scaled from the
    10-bit beam and clipped), intensity in 0..255, at most 2048 of them. *)
Theorem dvg_execute_output_in_dac_range m :
  arrays_ok m ->
  let m' := dvg_execute rom m in
  Forall dac_ok (samples (vbuf m')) /\
  (length (samples (vbuf m')) <= 2048)%nat.
Proof.
  intros Hok m'. destruct (dvg_execute_exec m Hok) as (Hp & Hi & Hc & Hs & _).
  split; [exact Hs|]. subst m'.
  unfold samples. rewrite length_take. unfold VECT_POINTS_PER_FRAME in *. lia.
Qed.

Lemma dvg_execute_step_full_stack m :
  4 <= dvg_state.stack_ptr (dvg m) ->
  Z.land (Z.shiftr (dvg_read_word rom m (dvg_state.pc (dvg m))) 12) 0x0F = 0xA ->
  let m' := dvg_execute_step rom m in
  dvg_state.stack (dvg m') = dvg_state.stack (dvg m) /\
  dvg_state.stack_ptr (dvg m') = dvg_state.stack_ptr (dvg m) /\
  dvg_state.pc (dvg m')
  = Z.land (dvg_read_word rom m (dvg_state.pc (dvg m))) 0x0FFF.
Proof.
  intros Hsp Hop. unfold dvg_execute_step. cbv zeta. rewrite Hop.
  cbn [Z.ltb Z.eqb Z.compare Pos.compare Pos.compare_cont Pos.eqb].
  cbn [dvg upd set_dvg dvg_state.stack_ptr dvg_state.set_pc].
  rewrite (proj2 (Z.ltb_ge _ _) Hsp). repeat split; reflexivity.
Qed.

Lemma dvg_execute_step_empty_stack m :
  dvg_state.stack_ptr (dvg m) <= 0 ->
  Z.land (Z.shiftr (dvg_read_word rom m (dvg_state.pc (dvg m))) 12) 0x0F = 0xC ->
  let m' := dvg_execute_step rom m in
  dvg_state.stack (dvg m') = dvg_state.stack (dvg m) /\
  dvg_state.stack_ptr (dvg m') = dvg_state.stack_ptr (dvg m) /\
  dvg_state.halt (dvg m') = true.
Proof.
  intros Hsp Hop. unfold dvg_execute_step. cbv zeta. rewrite Hop.
  cbn [Z.ltb Z.eqb Z.compare Pos.compare Pos.compare_cont Pos.eqb].
  cbn [dvg upd set_dvg dvg_state.stack_ptr dvg_state.set_pc].
  rewrite (proj2 (Z.ltb_ge _ _) Hsp). repeat split; reflexivity.
Qed.

(** X14: the direct interpreter's call stack can neither overflow nor
    underflow (unlike the sequencer, whose pointer wraps).  After any
    program the stack pointer is within 0..4 and the stack has its 4
    slots; a JSRL met with the stack full still jumps but pushes nothing,
    stack and stack pointer stay as they are; an RTSL met with the stack
    empty pops nothing and halts. *)
Theorem dvg_execute_stack_bounded m m1 m2 :
  arrays_ok m ->
  4 <= dvg_state.stack_ptr (dvg m1) ->
  Z.land (Z.shiftr (dvg_read_word rom m1 (dvg_state.pc (dvg m1))) 12) 0x0F = 0xA ->
  dvg_state.stack_ptr (dvg m2) <= 0 ->
  Z.land (Z.shiftr (dvg_read_word rom m2 (dvg_state.pc (dvg m2))) 12) 0x0F = 0xC ->
  let m' := dvg_execute rom m in
  let m1' := dvg_execute_step rom m1 in
  let m2' := dvg_execute_step rom m2 in
  (0 <= dvg_state.stack_ptr (dvg m') <= 4 /\
   length (dvg_state.stack (dvg m')) = 4%nat) /\
  (dvg_state.stack (dvg m1') = dvg_state.stack (dvg m1) /\
   dvg_state.stack_ptr (dvg m1') = dvg_state.stack_ptr (dvg m1) /\
   dvg_state.pc (dvg m1')
   = Z.land (dvg_read_word rom m1 (dvg_state.pc (dvg m1))) 0x0FFF) /\
  (dvg_state.stack (dvg m2') = dvg_state.stack (dvg m2) /\
   dvg_state.stack_ptr (dvg m2') = dvg_state.stack_ptr (dvg m2) /\
   dvg_state.halt (dvg m2') = true).
Proof.
  intros Hok Hsp1 Hop1 Hsp2 Hop2 m' m1' m2'.
  destruct (dvg_execute_exec m Hok) as (_ & _ & _ & _ & Hst & Hsp).
  split; [split; assumption|]. split.
  - exact (dvg_execute_step_full_stack m1 Hsp1 Hop1).
  - exact (dvg_execute_step_empty_stack m2 Hsp2 Hop2).
Qed.
End ExecuteProofs.

(** X13, witness: a program that draws six samples, the last two at the
    far corner of the DAC range. *)
Lemma dvg_execute_output_in_dac_range_witness :
  let m' := dvg_execute rom_zero (setup (vram_of draw_program)) in
  (Forall dac_ok (samples (vbuf m')) /\
   (length (samples (vbuf m')) <= 2048)%nat) /\
  samples (vbuf m')
  = [(2049, 2049, 119); (2049, 2049, 119); (4002, 40, 255); (4002, 40, 255);
     (4095, 4095, 255); (4095, 4095, 255)].
Proof.
  split.
  - apply (dvg_execute_output_in_dac_range rom_zero (setup (vram_of draw_program))).
    apply setup_arrays_ok.
  - vm_compute. reflexivity.
Defined.

(** X14, witness: the chain of five JSRL.  After four of them the stack
    is full; the fifth jumps to 0x50 and leaves the four return addresses
    and the stack pointer as they are.  The return on an empty stack is
    the first word of [call_return_program], which is RTSL for this
    interpreter. *)
Lemma dvg_execute_stack_bounded_witness :
  let m := setup (vram_of jsrl_chain_program) in
  let m1 := dvg_execute_loop rom_zero 4 (dvg_reset m) in
  let m2 := dvg_reset (setup (vram_of call_return_program)) in
  let m' := dvg_execute rom_zero m in
  let m1' := dvg_execute_step rom_zero m1 in
  let m2' := dvg_execute_step rom_zero m2 in
  ((0 <= dvg_state.stack_ptr (dvg m') <= 4 /\
    length (dvg_state.stack (dvg m')) = 4%nat) /\
   (dvg_state.stack (dvg m1') = dvg_state.stack (dvg m1) /\
    dvg_state.stack_ptr (dvg m1') = dvg_state.stack_ptr (dvg m1) /\
    dvg_state.pc (dvg m1')
    = Z.land (dvg_read_word rom_zero m1 (dvg_state.pc (dvg m1))) 0x0FFF) /\
   (dvg_state.stack (dvg m2') = dvg_state.stack (dvg m2) /\
    dvg_state.stack_ptr (dvg m2') = dvg_state.stack_ptr (dvg m2) /\
    dvg_state.halt (dvg m2') = true)) /\
  dvg_state.stack (dvg m1) = [0x02; 0x12; 0x22; 0x32] /\
  dvg_state.stack_ptr (dvg m1) = 4 /\
  dvg_state.pc (dvg m1') = 0x50 /\
  dvg_state.stack (dvg m') = [0x02; 0x12; 0x22; 0x32] /\
  dvg_state.stack_ptr (dvg m') = 4.
Proof.
  split.
  - apply (dvg_execute_stack_bounded rom_zero
             (setup (vram_of jsrl_chain_program))
             (dvg_execute_loop rom_zero 4
                (dvg_reset (setup (vram_of jsrl_chain_program))))
             (dvg_reset (setup (vram_of call_return_program)))).
    + apply setup_arrays_ok.
    + vm_compute; congruence.
    + vm_compute; reflexivity.
    + vm_compute; congruence.
    + vm_compute; reflexivity.
  - vm_compute. repeat split; reflexivity.
Defined.

(** ** The DAC driver *)

Lemma land_fff z : Z.land z 0x0FFF = z mod 4096.
Proof. change 0x0FFF with (Z.ones 12). rewrite Z.land_ones by lia. reflexivity. Qed.

Lemma land_lor_fff c v :
  Z.land c 0x0FFF = 0 -> 0 <= v < 4096 -> Z.land (Z.lor c v) 0x0FFF = v.
Proof.
  intros Hc Hv. rewrite Z.land_lor_distr_l, Hc, Z.lor_0_l, land_fff.
  apply Z.mod_small; lia.
Qed.

Lemma land_u16_fff z : Z.land (u16 z) 0x0FFF = Z.land z 0x0FFF.
Proof.
  unfold u16. rewrite !land_fff.
  change 65536 with (4096 * 16) || change (2 ^ 16) with (4096 * 16).
  rewrite Z.rem_mul_r by lia. rewrite Z.add_mod, Z.mod_mod by lia.
  rewrite (Z.mul_comm 4096), Z.mod_mul, Z.add_0_r, Z.mod_mod by lia.
  reflexivity.
Qed.

Lemma dac_words_app low ev1 ev2 :
  dac_words low (ev1 ++ ev2) =
  dac_words low ev1 ++
  dac_words (fold_left (fun l e => match e with
                                   | digitalWrite pin false => Some pin
                                   | digitalWrite pin true => None
                                   | _ => l end) ev1 low) ev2.
Proof.
  revert low. induction ev1 as [|e ev1 IH]; intros low; [reflexivity|].
  destruct e as [| |pin [|]| |]; cbn [dac_words app fold_left]; rewrite IH;
    reflexivity.
Qed.

Lemma flat_map_index {A B} (d : A) (l : list A) (g : A -> list B) n :
  (n <= length l)%nat ->
  flat_map (fun i => g (aget d l i)) (seqZ 0 (Z.of_nat n)) = flat_map g (take n l).
Proof.
  induction n as [|n IH]; intros Hn; [reflexivity|].
  destruct (lookup_lt_is_Some_2 l n ltac:(lia)) as [a Ha].
  rewrite seqZ_S.
  rewrite (take_S_r _ _ _ Ha), !flat_map_app, IH by lia.
  cbn [flat_map]. unfold aget. rewrite Z.add_0_l, Nat2Z.id, Ha. reflexivity.
Qed.

Section DacProofs.

Variable DAC_CMD_SINGLE : Z.
Hypothesis cmd_bits : Z.land DAC_CMD_SINGLE 0x0FFF = 0.

Lemma write_dac_single_words low cs v :
  dac_words low (write_dac_single DAC_CMD_SINGLE cs v) = [(Some cs, v mod 4096)].
Proof.
  unfold write_dac_single. cbn [dac_words].
  rewrite land_u16_fff, (land_fff v).
  pose proof (Z.mod_pos_bound v 4096 ltac:(lia)).
  rewrite land_lor_fff by (assumption || lia). reflexivity.
Qed.

Lemma write_dac_single_low low cs v :
  fold_left (fun l e => match e with
                        | digitalWrite pin false => Some pin
                        | digitalWrite pin true => None
                        | _ => l end) (write_dac_single DAC_CMD_SINGLE cs v) low
  = None.
Proof. reflexivity. Qed.

Lemma setXY_words low x y :
  dac_words low (setXY DAC_CMD_SINGLE x y) =
  [(Some VECT_SPI_CS_X, x mod 4096); (Some VECT_SPI_CS_Y, y mod 4096)].
Proof.
  unfold setXY. cbv zeta. rewrite !dac_words_app, !write_dac_single_words.
  rewrite !land_fff, !Z.mod_mod by lia. reflexivity.
Qed.

Lemma setXY_low low x y :
  fold_left (fun l e => match e with
                        | digitalWrite pin false => Some pin
                        | digitalWrite pin true => None
                        | _ => l end) (setXY DAC_CMD_SINGLE x y ++ [delayMicroseconds VECT_DWELL_US]) low
  = None.
Proof. reflexivity. Qed.

Lemma render_words (l : list (Z * Z)) low :
  dac_words low
    (flat_map (fun p : Z * Z => let '(x, y) := p in
                 setXY DAC_CMD_SINGLE x y ++ [delayMicroseconds VECT_DWELL_US]) l)
  = flat_map (fun p : Z * Z => [(Some VECT_SPI_CS_X, p.1 mod 4096);
                                (Some VECT_SPI_CS_Y, p.2 mod 4096)]) l.
Proof.
  revert low. induction l as [|[x y] l IH]; intros low; [reflexivity|].
  cbn [flat_map]. rewrite dac_words_app, setXY_low, IH.
  rewrite dac_words_app, setXY_words. reflexivity.
Qed.

Lemma widen_intensity i :
  0 <= i <= 255 ->
  (if 0 <? i
   then u16 (Z.lor (Z.shiftl (u16 i) 4) (Z.shiftr i 4))
   else 0) = 16 * i + i / 16.
Proof.
  intros Hi. destruct (Z.ltb_spec 0 i).
  - rewrite (u16_small i), Z.shiftl_mul_pow2, Z.shiftr_div_pow2 by lia.
    change (2 ^ 4) with 16.
    assert (Hlor : Z.lor (i * 16) (i / 16) = i * 16 + i / 16).
    { symmetry. apply Z.add_nocarry_lor.
      apply Z.bits_inj'. intros n Hn. rewrite Z.land_spec, Z.bits_0.
      destruct (Z.ltb_spec n 4).
      - change 16 with (2 ^ 4). rewrite Z.mul_pow2_bits_low by lia. reflexivity.
      - assert (0 <= i / 16 < 16) by (Z.div_mod_to_equations; lia).
        rewrite <- (Z.mod_small (i / 16) 16), <- land_f, Z.land_spec by lia.
        change 0xf with (Z.ones 4). rewrite Z.ones_spec_high by lia.
        rewrite !andb_false_r. reflexivity. }
    rewrite Hlor, u16_small; Z.div_mod_to_equations; lia.
  - assert (i = 0) by lia. subst i. reflexivity.
Qed.

Lemma setIntensity_words i :
  0 <= i <= 255 ->
  dac_words None (setIntensity DAC_CMD_SINGLE i)
  = [(Some VECT_SPI_CS_Z, 16 * i + i / 16)].
Proof.
  intros Hi. unfold setIntensity. cbv zeta.
  rewrite (widen_intensity i Hi), write_dac_single_words.
  rewrite Z.mod_small by (Z.div_mod_to_equations; lia). reflexivity.
Qed.

(** X15: the Z DAC receives the 8-bit intensity widened to 12 bits by
    repeating its high nibble below it: 16 i + i / 16, which the 12-bit
    mask of the command leaves whole, from which the intensity is read back
    by dropping four bits, and which is full scale (4095) exactly for 255
    and 0 exactly for 0. *)
Theorem setIntensity_widens_to_12_bits i :
  0 <= i <= 255 ->
  dac_words None (setIntensity DAC_CMD_SINGLE i)
  = [(Some VECT_SPI_CS_Z, 16 * i + i / 16)] /\
  0 <= 16 * i + i / 16 <= 4095 /\
  (16 * i + i / 16) / 16 = i /\
  (16 * i + i / 16 = 4095 <-> i = 255) /\
  (16 * i + i / 16 = 0 <-> i = 0).
Proof.
  intros Hi. split; [apply setIntensity_words, Hi|].
  repeat split; try lia; Z.div_mod_to_equations; lia.
Qed.

Lemma render_vectors_words m :
  length (vector_buffer.points (vbuf m)) = length (vector_buffer.intensity (vbuf m)) ->
  0 <= vector_buffer.count (vbuf m) <= Z.of_nat (length (vector_buffer.points (vbuf m))) ->
  dac_words None (render_vectors DAC_CMD_SINGLE m)
  = flat_map (fun s : Z * Z * Z =>
                let '(x, y, _) := s in
                [(Some VECT_SPI_CS_X, x mod 4096); (Some VECT_SPI_CS_Y, y mod 4096)])
             (samples (vbuf m)).
Proof.
  intros Hlen Hc. unfold render_vectors, samples.
  rewrite <- (Z2Nat.id (vector_buffer.count (vbuf m))) at 1 by lia.
  rewrite (flat_map_index (0, 0) (vector_buffer.points (vbuf m))
             (fun p : Z * Z => let '(x, y) := p in
                setXY DAC_CMD_SINGLE x y ++ [delayMicroseconds VECT_DWELL_US]))
    by lia.
  rewrite render_words.
  generalize (Z.to_nat (vector_buffer.count (vbuf m))) as n.
  generalize dependent (vector_buffer.intensity (vbuf m)).
  generalize (vector_buffer.points (vbuf m)) as pts.
  induction pts as [|[x y] pts IH]; intros ints Hl n.
  - destruct n; reflexivity.
  - destruct ints as [|i ints]; [discriminate|].
    destruct n as [|n]; [reflexivity|].
    cbn [take zip zip_with flat_map app fst snd]. f_equal. f_equal.
    apply IH. cbn in Hl. lia.
Qed.

(** X16: [render_vectors] clocks out the buffered samples in buffer order,
    for each one X to the X DAC and then Y to the Y DAC, each coordinate
    reduced modulo 4096 (masked, not clamped); the intensity array is not
    sent and the Z DAC is never selected. *)
Theorem render_vectors_sends_samples_in_order m :
  length (vector_buffer.points (vbuf m)) = length (vector_buffer.intensity (vbuf m)) ->
  0 <= vector_buffer.count (vbuf m) <= Z.of_nat (length (vector_buffer.points (vbuf m))) ->
  dac_words None (render_vectors DAC_CMD_SINGLE m)
  = flat_map (fun s : Z * Z * Z =>
                let '(x, y, _) := s in
                [(Some VECT_SPI_CS_X, x mod 4096); (Some VECT_SPI_CS_Y, y mod 4096)])
             (samples (vbuf m)).
Proof. exact (render_vectors_words m). Qed.

End DacProofs.

Section FrameToDac.

Variables rom prom : Z -> Z.
Variable DAC_CMD_SINGLE : Z.
Hypothesis rom_bytes : forall off, 0 <= rom off < 256.
Hypothesis cmd_bits : Z.land DAC_CMD_SINGLE 0x0FFF = 0.

(** X22: from the sequencer to the DACs nothing is rescaled.  The frame an
    activation leaves in the buffer is clocked out by [render_vectors]
    coordinate for coordinate, the mask changing none of them, so every
    word the X and Y DACs receive is in 0..1023, the lower quarter of their
    12-bit range. *)
Theorem sequencer_frame_reaches_dac_unscaled m value :
  arrays_ok m ->
  bytes (vector_ram m) ->
  0 <= dvg_state.x (dvg m) <= 1023 ->
  0 <= dvg_state.y (dvg m) <= 1023 ->
  0 <= dvg_state.intensity (dvg m) <= 15 ->
  let m' := dvg_go rom prom m value in
  dac_words None (render_vectors DAC_CMD_SINGLE m')
  = flat_map (fun s : Z * Z * Z =>
                let '(x, y, _) := s in
                [(Some VECT_SPI_CS_X, x); (Some VECT_SPI_CS_Y, y)])
             (samples (vbuf m')) /\
  Forall (fun w : option Z * Z => 0 <= w.2 <= 1023)
         (dac_words None (render_vectors DAC_CMD_SINGLE m')).
Proof.
  intros Hok Hb Hx Hy Hint m'.
  destruct (dvg_go_beam rom prom rom_bytes m value Hok Hb Hx Hy Hint)
    as (Hp & Hi & Hc & Hs & _).
  fold m' in Hp, Hi, Hc, Hs.
  rewrite (render_vectors_words DAC_CMD_SINGLE cmd_bits m')
    by (unfold VECT_POINTS_PER_FRAME in *; lia).
  induction Hs as [|[[x y] i] l (Hx' & Hy' & _) _ IH]; [split; [reflexivity|constructor]|].
  destruct IH as [IH1 IH2]. cbn [flat_map app].
  rewrite !Z.mod_small by lia. split.
  - rewrite IH1. reflexivity.
  - repeat (constructor; [cbn; lia|]). exact IH2.
Qed.

End FrameToDac.

(** X22, witness: the draw-then-halt table on the power-on machine. *)
Lemma sequencer_frame_reaches_dac_unscaled_witness :
  let m' := dvg_go rom_zero prom_draw_then_halt (setup (vram_of [])) 0 in
  dac_words None (render_vectors sample_dac_cmd m')
  = flat_map (fun s : Z * Z * Z =>
                let '(x, y, _) := s in
                [(Some VECT_SPI_CS_X, x); (Some VECT_SPI_CS_Y, y)])
             (samples (vbuf m')) /\
  Forall (fun w : option Z * Z => 0 <= w.2 <= 1023)
         (dac_words None (render_vectors sample_dac_cmd m')).
Proof.
  apply (sequencer_frame_reaches_dac_unscaled rom_zero prom_draw_then_halt
           sample_dac_cmd ltac:(intros off; unfold rom_zero; lia)
           ltac:(reflexivity) (setup (vram_of [])) 0).
  - apply setup_arrays_ok.
  - apply vram_of_bytes. constructor.
  - cbn; lia.
  - cbn; lia.
  - cbn; lia.
Defined.

(** X15, witness: half scale. *)
Lemma setIntensity_widens_to_12_bits_witness :
  dac_words None (setIntensity sample_dac_cmd 128)
  = [(Some VECT_SPI_CS_Z, 16 * 128 + 128 / 16)] /\
  0 <= 16 * 128 + 128 / 16 <= 4095 /\
  (16 * 128 + 128 / 16) / 16 = 128 /\
  (16 * 128 + 128 / 16 = 4095 <-> 128 = 255) /\
  (16 * 128 + 128 / 16 = 0 <-> 128 = 0).
Proof.
  apply (setIntensity_widens_to_12_bits sample_dac_cmd ltac:(reflexivity) 128).
  lia.
Defined.

(** X16, witness: a buffer of two samples, one with x = 5000. *)
Lemma render_vectors_sends_samples_in_order_witness :
  dac_words None (render_vectors sample_dac_cmd setup_two_samples)
  = flat_map (fun s : Z * Z * Z =>
                let '(x, y, _) := s in
                [(Some VECT_SPI_CS_X, x mod 4096); (Some VECT_SPI_CS_Y, y mod 4096)])
             (samples (vbuf setup_two_samples)).
Proof.
  apply (render_vectors_sends_samples_in_order sample_dac_cmd ltac:(reflexivity)
           setup_two_samples).
  - reflexivity.
  - cbn; lia.
Defined.

(** ** The vector logger *)

Lemma length_bytes_of str : length (bytes_of str) = String.length str.
Proof.
  unfold bytes_of. rewrite length_map.
  induction str as [|c str IH]; [reflexivity|]. cbn. rewrite IH. reflexivity.
Qed.

Lemma u32_add_l a b : u32 (u32 a + b) = u32 (a + b).
Proof. unfold u32. rewrite Z.add_mod_idemp_l by lia. reflexivity. Qed.

Lemma writeSerial_str_counted base s str :
  counted base s -> counted base (writeSerial_str s str).
Proof.
  intros [Hb Hc]. unfold counted, writeSerial_str. cbn.
  rewrite length_app, length_bytes_of, Hc, u32_add_l. split; [lia|].
  f_equal. lia.
Qed.

Lemma writeSerial_byte_counted base s b :
  counted base s -> counted base (writeSerial_byte s b).
Proof.
  intros [Hb Hc]. unfold counted, writeSerial_byte. cbn.
  rewrite length_app, Hc, u32_add_l. cbn. split; [lia|]. f_equal. lia.
Qed.

Lemma counted_ext base s s' :
  logger.serial s' = logger.serial s ->
  logger.bytes_written s' = logger.bytes_written s ->
  counted base s -> counted base s'.
Proof. unfold counted. intros -> ->. trivial. Qed.

Lemma logXYZ_record_counted base s x y z :
  counted base s -> counted base (logXYZ_record s x y z).
Proof.
  intros H. unfold logXYZ_record.
  destruct (logger.mode s); cbv zeta;
    repeat (apply writeSerial_str_counted || apply writeSerial_byte_counted);
    exact H.
Qed.

Lemma logXYZ_counted base s x y z :
  counted base s -> counted base (logXYZ s x y z).
Proof.
  intros H. unfold logXYZ. destruct (negb (logger.logging_active s)); [exact H|].
  cbv zeta. eapply counted_ext; [reflexivity|reflexivity|].
  apply logXYZ_record_counted.
  eapply counted_ext; [..|exact H]; reflexivity.
Qed.

Lemma logBlank_counted base s : counted base s -> counted base (logBlank s).
Proof.
  intros H. unfold logBlank. destruct (negb (logger.logging_active s)); [exact H|].
  destruct (logger.mode s); cbv zeta;
    repeat (apply writeSerial_str_counted || apply writeSerial_byte_counted);
    exact H.
Qed.

Lemma logUnblank_counted base s : counted base s -> counted base (logUnblank s).
Proof.
  intros H. unfold logUnblank. destruct (negb (logger.logging_active s)); [exact H|].
  destruct (logger.mode s); cbv zeta;
    repeat (apply writeSerial_str_counted || apply writeSerial_byte_counted);
    exact H.
Qed.

Lemma log_session_counted base calls s :
  counted base s -> counted base (log_session calls s).
Proof.
  unfold log_session. revert s.
  induction calls as [|c calls IH]; intros s H; [exact H|].
  cbn [fold_left]. apply IH.
  destruct c; cbn [log_step]; unfold logXYZ_intensity;
    auto using logXYZ_counted, logBlank_counted, logUnblank_counted;
    (eapply counted_ext; [..|exact H]; reflexivity).
Qed.

Lemma begin_counted mode_code millis s log_mode :
  log_mode <> LOG_DISABLED ->
  counted (length (logger.serial s)) (begin mode_code millis s log_mode).
Proof.
  intros Hm. unfold begin. cbv zeta.
  assert (H0 : counted (length (logger.serial s))
                 (resetStats (set_logging_active true (set_mode log_mode s)))).
  { split; cbn; [lia|]. rewrite Z.sub_diag. reflexivity. }
  destruct log_mode; [contradiction| | |]; cbn [set_mode logger.mode];
    repeat (apply writeSerial_str_counted || apply writeSerial_byte_counted);
    exact H0.
Qed.

(** X19: [bytes_written] is exact: through a session of any mode that [begin]
    opened, it is the number of bytes sent over [Serial] since that
    [begin] (header included), modulo 2^32. *)
Theorem bytes_written_counts_serial mode_code millis s log_mode calls :
  log_mode <> LOG_DISABLED ->
  let s' := log_session calls (begin mode_code millis s log_mode) in
  logger.bytes_written s' = u32 (Z.of_nat (length (emitted s s'))).
Proof.
  intros Hm s'. unfold emitted. rewrite length_drop.
  destruct (log_session_counted (length (logger.serial s)) calls _
              (begin_counted mode_code millis s log_mode Hm)) as [Hb Hc].
  fold s' in Hb, Hc. rewrite Hc. f_equal. lia.
Qed.

(** X19, witness: a CSV session of two markers and two points. *)
Lemma bytes_written_counts_serial_witness :
  logger.bytes_written
    (log_session sample_session (begin sample_mode_code 1234 VectorLogger LOG_CSV))
  = u32 (Z.of_nat (length (emitted VectorLogger
      (log_session sample_session
         (begin sample_mode_code 1234 VectorLogger LOG_CSV))))).
Proof.
  apply (bytes_written_counts_serial sample_mode_code 1234 VectorLogger LOG_CSV
           sample_session).
  discriminate.
Defined.

Lemma serial_writeSerial_byte s b :
  logger.serial (writeSerial_byte s b) = logger.serial s ++ [b].
Proof. reflexivity. Qed.

Lemma emitted_six s0 s b0 b1 b2 b3 b4 b5 :
  logger.serial s = logger.serial s0 ->
  emitted s0 (writeSerial_byte (writeSerial_byte (writeSerial_byte
    (writeSerial_byte (writeSerial_byte (writeSerial_byte s b0) b1) b2) b3) b4) b5)
  = [b0; b1; b2; b3; b4; b5].
Proof.
  intros E. unfold emitted. rewrite !serial_writeSerial_byte, E.
  rewrite <- !app_assoc. cbn [app]. rewrite drop_app_length. reflexivity.
Qed.

Lemma emitted_ext s s1 s2 :
  logger.serial s1 = logger.serial s2 -> emitted s s1 = emitted s s2.
Proof. unfold emitted. intros ->. reflexivity. Qed.

Lemma logXYZ_record_binary s0 s x y z :
  logger.serial s = logger.serial s0 -> logger.mode s = LOG_BINARY ->
  emitted s0 (logXYZ_record s x y z)
  = [u8 (Z.land x 0xFF); u8 (Z.shiftr x 8); u8 (Z.land y 0xFF);
     u8 (Z.shiftr y 8); u8 (Z.land z 0xFF); u8 (Z.shiftr z 8)].
Proof.
  intros E Hm. unfold logXYZ_record. rewrite Hm. cbv zeta.
  apply emitted_six. exact E.
Qed.

Lemma logXYZ_record_stats s x y z :
  logger.min_x (logXYZ_record s x y z) = logger.min_x s /\
  logger.max_x (logXYZ_record s x y z) = logger.max_x s /\
  logger.min_y (logXYZ_record s x y z) = logger.min_y s /\
  logger.max_y (logXYZ_record s x y z) = logger.max_y s /\
  logger.min_z (logXYZ_record s x y z) = logger.min_z s /\
  logger.max_z (logXYZ_record s x y z) = logger.max_z s /\
  logger.logging_active (logXYZ_record s x y z) = logger.logging_active s /\
  logger.point_count (logXYZ_record s x y z) = logger.point_count s.
Proof.
  unfold logXYZ_record. destruct (logger.mode s); repeat split; reflexivity.
Qed.

Lemma logXYZ_binary_emits s x y z :
  logger.logging_active s = true -> logger.mode s = LOG_BINARY ->
  emitted s (logXYZ s x y z)
  = [(x mod 4096) mod 256; (x mod 4096) / 256;
     (y mod 4096) mod 256; (y mod 4096) / 256;
     (z mod 4096) mod 256; (z mod 4096) / 256].
Proof.
  intros Ha Hm. unfold logXYZ. rewrite Ha. cbn [negb]. cbv zeta.
  erewrite emitted_ext; [|unfold set_point_count; cbn [logger.serial]; reflexivity].
  rewrite (logXYZ_record_binary s) by (reflexivity || exact Hm).
  rewrite !land_fff, !land_ff, !Z.shiftr_div_pow2 by lia. change (2 ^ 8) with 256.
  pose proof (Z.mod_pos_bound x 4096 ltac:(lia)).
  pose proof (Z.mod_pos_bound y 4096 ltac:(lia)).
  pose proof (Z.mod_pos_bound z 4096 ltac:(lia)).
  rewrite !u8_small by (Z.div_mod_to_equations; lia). reflexivity.
Qed.

Lemma logBlank_binary_emits s :
  logger.logging_active s = true -> logger.mode s = LOG_BINARY ->
  emitted s (logBlank s) = [0xFF; 0xFF; 0xFF; 0xFF; 0x00; 0x00].
Proof.
  intros Ha Hm. unfold logBlank. rewrite Ha, Hm. cbn [negb]. cbv zeta.
  apply emitted_six. reflexivity.
Qed.

Lemma logUnblank_binary_emits s :
  logger.logging_active s = true -> logger.mode s = LOG_BINARY ->
  emitted s (logUnblank s) = [0xFF; 0xFF; 0xFF; 0xFF; 0xFF; 0xFF].
Proof.
  intros Ha Hm. unfold logUnblank. rewrite Ha, Hm. cbn [negb]. cbv zeta.
  apply emitted_six. reflexivity.
Qed.

(** X17: in binary mode a point is sent as one 6-byte record that a
    little-endian reader decodes to the three values reduced modulo 4096;
    the record is never one of the two marker records that [logBlank] and
    [logUnblank] send. *)
Theorem binary_record_round_trip s x y z :
  logger.logging_active s = true -> logger.mode s = LOG_BINARY ->
  let r := emitted s (logXYZ s x y z) in
  decode_record r = Some (x mod 4096, y mod 4096, z mod 4096) /\
  Forall (fun b => 0 <= b < 256) r /\
  r <> emitted s (logBlank s) /\ r <> emitted s (logUnblank s).
Proof.
  intros Ha Hm r. subst r.
  rewrite logXYZ_binary_emits, logBlank_binary_emits, logUnblank_binary_emits
    by assumption.
  pose proof (Z.mod_pos_bound x 4096 ltac:(lia)).
  pose proof (Z.mod_pos_bound y 4096 ltac:(lia)).
  pose proof (Z.mod_pos_bound z 4096 ltac:(lia)).
  split; [|split; [|split]].
  - cbn [decode_record]. do 3 f_equal; Z.div_mod_to_equations; lia.
  - repeat constructor; Z.div_mod_to_equations; lia.
  - intros E. injection E as _ E _. Z.div_mod_to_equations; lia.
  - intros E. injection E as _ E _. Z.div_mod_to_equations; lia.
Qed.

Lemma stats_cover_widen s s' pts :
  logger.min_x s' <= logger.min_x s -> logger.max_x s <= logger.max_x s' ->
  logger.min_y s' <= logger.min_y s -> logger.max_y s <= logger.max_y s' ->
  logger.min_z s' <= logger.min_z s -> logger.max_z s <= logger.max_z s' ->
  stats_cover s pts -> stats_cover s' pts.
Proof.
  intros ? ? ? ? ? ? Hc. unfold stats_cover in *.
  eapply Forall_impl; [exact Hc|]. intros [[x y] z]. lia.
Qed.

Lemma logXYZ_stats s x y z pts :
  logger.logging_active s = true ->
  stats_cover s pts ->
  stats_cover (logXYZ s x y z) (pts ++ [(x mod 4096, y mod 4096, z mod 4096)]) /\
  logger.logging_active (logXYZ s x y z) = true /\
  logger.point_count (logXYZ s x y z) = u32 (logger.point_count s + 1).
Proof.
  intros Ha Hc. unfold logXYZ. rewrite Ha. cbn [negb]. cbv zeta.
  rewrite !land_fff.
  set (s1 := updateStats s _ _ _).
  destruct (logXYZ_record_stats s1 (x mod 4096) (y mod 4096) (z mod 4096))
    as (E1 & E2 & E3 & E4 & E5 & E6 & E7 & E8).
  split; [|split].
  - unfold stats_cover. apply Forall_app. split.
    + apply (stats_cover_widen s); [..|exact Hc];
        cbn [set_point_count logger.min_x logger.max_x logger.min_y logger.max_y
             logger.min_z logger.max_z];
        rewrite ?E1, ?E2, ?E3, ?E4, ?E5, ?E6; subst s1; cbn [updateStats
             logger.min_x logger.max_x logger.min_y logger.max_y
             logger.min_z logger.max_z];
        repeat match goal with |- context [?a <? ?b] => destruct (Z.ltb_spec a b) end;
        lia.
    + constructor; [|constructor].
      cbn [set_point_count logger.min_x logger.max_x logger.min_y logger.max_y
             logger.min_z logger.max_z].
      rewrite E1, E2, E3, E4, E5, E6. subst s1.
      cbn [updateStats logger.min_x logger.max_x logger.min_y logger.max_y
             logger.min_z logger.max_z].
      repeat match goal with |- context [?a <? ?b] => destruct (Z.ltb_spec a b) end;
        lia.
  - cbn [set_point_count logger.logging_active]. rewrite E7. exact Ha.
  - cbn [set_point_count logger.point_count]. rewrite E8. reflexivity.
Qed.

Lemma logBlank_stats s pts :
  logger.logging_active s = true -> stats_cover s pts ->
  stats_cover (logBlank s) pts /\ logger.logging_active (logBlank s) = true /\
  logger.point_count (logBlank s) = logger.point_count s.
Proof.
  intros Ha Hc. unfold logBlank. rewrite Ha. cbn [negb].
  destruct (logger.mode s); (split; [|split]); try exact Ha; try reflexivity;
    exact Hc.
Qed.

Lemma logUnblank_stats s pts :
  logger.logging_active s = true -> stats_cover s pts ->
  stats_cover (logUnblank s) pts /\ logger.logging_active (logUnblank s) = true /\
  logger.point_count (logUnblank s) = logger.point_count s.
Proof.
  intros Ha Hc. unfold logUnblank. rewrite Ha. cbn [negb].
  destruct (logger.mode s); (split; [|split]); try exact Ha; try reflexivity;
    exact Hc.
Qed.

Lemma omap_call_point_cons c calls :
  omap call_point (c :: calls)
  = match call_point c with
    | Some p => p :: omap call_point calls
    | None => omap call_point calls
    end.
Proof. reflexivity. Qed.

Lemma log_session_stats calls s pts :
  logger.logging_active s = true -> stats_cover s pts ->
  0 <= logger.point_count s < 2 ^ 32 ->
  stats_cover (log_session calls s) (pts ++ omap call_point calls) /\
  logger.point_count (log_session calls s)
  = u32 (logger.point_count s + Z.of_nat (length (omap call_point calls))).
Proof.
  unfold log_session. revert s pts.
  induction calls as [|c calls IH]; intros s pts Ha Hc Hp.
  - cbn. rewrite app_nil_r, Z.add_0_r. split; [exact Hc|].
    unfold u32. rewrite Z.mod_small; lia.
  - cbn [fold_left].
    assert (Hu : forall a, 0 <= u32 a < 2 ^ 32)
      by (intros a; unfold u32; apply Z.mod_pos_bound; lia).
    rewrite omap_call_point_cons.
    destruct c as [x y z|x y i| | |n|]; cbn [log_step call_point].
    + destruct (logXYZ_stats s x y z pts Ha Hc) as (H1 & H2 & H3).
      destruct (IH _ _ H2 H1) as [H4 H5]; [rewrite H3; apply Hu|].
      rewrite <- app_assoc in H4. split; [exact H4|].
      rewrite H5, H3, u32_add_l. rewrite length_cons. f_equal. lia.
    + unfold logXYZ_intensity.
      set (z := if 0 <? i then _ else 0).
      destruct (logXYZ_stats s x y z pts Ha Hc) as (H1 & H2 & H3).
      destruct (IH _ _ H2 H1) as [H4 H5]; [rewrite H3; apply Hu|].
      rewrite <- app_assoc in H4. split; [exact H4|].
      rewrite H5, H3, u32_add_l. rewrite length_cons. f_equal. lia.
    + destruct (logBlank_stats s pts Ha Hc) as (H1 & H2 & H3).
      destruct (IH _ _ H2 H1) as [H4 H5]; [rewrite H3; exact Hp|].
      split; [exact H4|]. rewrite H5, H3. reflexivity.
    + destruct (logUnblank_stats s pts Ha Hc) as (H1 & H2 & H3).
      destruct (IH _ _ H2 H1) as [H4 H5]; [rewrite H3; exact Hp|].
      split; [exact H4|]. rewrite H5, H3. reflexivity.
    + apply (IH (beginFrame s n) pts Ha Hc Hp).
    + apply (IH (endFrame s) pts Ha Hc Hp).
Qed.

Lemma log_step_frame_count s c :
  logger.frame_count (log_step s c)
  = match c with
    | call_endFrame => u32 (logger.frame_count s + 1)
    | _ => logger.frame_count s
    end.
Proof.
  destruct c; cbn [log_step];
    unfold logXYZ_intensity, logXYZ, logXYZ_record, logBlank, logUnblank;
    cbv zeta; cbn [updateStats logger.mode];
    try (destruct (logger.logging_active s), (logger.mode s)); reflexivity.
Qed.

Lemma log_session_frame_count calls s :
  0 <= logger.frame_count s < 2 ^ 32 ->
  logger.frame_count (log_session calls s)
  = u32 (logger.frame_count s + Z.of_nat (frames_ended calls)).
Proof.
  unfold log_session, frames_ended. revert s.
  induction calls as [|c calls IH]; intros s Hf.
  - cbn. rewrite Z.add_0_r. unfold u32. rewrite Z.mod_small; lia.
  - cbn [fold_left List.filter]. pose proof (log_step_frame_count s c) as Hc.
    assert (Hu : forall a, 0 <= u32 a < 2 ^ 32)
      by (intros a; unfold u32; apply Z.mod_pos_bound; lia).
    destruct c; rewrite IH by (rewrite Hc; auto); rewrite Hc; try reflexivity.
    rewrite u32_add_l, length_cons. f_equal. lia.
Qed.

Lemma begin_fresh mode_code millis s log_mode :
  log_mode <> LOG_DISABLED ->
  let s0 := begin mode_code millis s log_mode in
  logger.logging_active s0 = true /\ logger.point_count s0 = 0 /\
  logger.frame_count s0 = 0.
Proof.
  intros Hm. destruct log_mode; [contradiction| | |]; repeat split; reflexivity.
Qed.

(** X20: after [begin], whatever the mode: every point a session logs lies
    between the recorded minima and maxima (each axis, values as masked to
    12 bits), [point_count] is the number of points logged and
    [frame_count] the number of frames ended, both modulo 2^32; blanking
    markers count for neither. *)
Theorem logger_stats_cover_session mode_code millis s log_mode calls :
  log_mode <> LOG_DISABLED ->
  let s' := log_session calls (begin mode_code millis s log_mode) in
  Forall (fun p : Z * Z * Z =>
            let '(x, y, z) := p in
            logger.min_x s' <= x <= logger.max_x s' /\
            logger.min_y s' <= y <= logger.max_y s' /\
            logger.min_z s' <= z <= logger.max_z s')
         (omap call_point calls) /\
  logger.point_count s' = u32 (Z.of_nat (length (omap call_point calls))) /\
  logger.frame_count s' = u32 (Z.of_nat (frames_ended calls)).
Proof.
  intros Hm s'.
  destruct (begin_fresh mode_code millis s log_mode Hm) as (Ha & Hp & Hf).
  destruct (log_session_stats calls (begin mode_code millis s log_mode) []
              Ha ltac:(constructor) ltac:(rewrite Hp; lia)) as [H1 H2].
  split; [exact H1|]. subst s'. split.
  - rewrite H2, Hp. reflexivity.
  - rewrite log_session_frame_count by (rewrite Hf; lia). rewrite Hf. reflexivity.
Qed.

(** X20, witness: the same session in text mode. *)
Lemma logger_stats_cover_session_witness :
  let s' := log_session sample_session
              (begin sample_mode_code 1234 VectorLogger LOG_TEXT) in
  Forall (fun p : Z * Z * Z =>
            let '(x, y, z) := p in
            logger.min_x s' <= x <= logger.max_x s' /\
            logger.min_y s' <= y <= logger.max_y s' /\
            logger.min_z s' <= z <= logger.max_z s')
         (omap call_point sample_session) /\
  logger.point_count s' = u32 (Z.of_nat (length (omap call_point sample_session))) /\
  logger.frame_count s' = u32 (Z.of_nat (frames_ended sample_session)).
Proof.
  apply (logger_stats_cover_session sample_mode_code 1234 VectorLogger LOG_TEXT
           sample_session).
  discriminate.
Defined.

Lemma same_log_refl s : same_log s s.
Proof. repeat split. Qed.

Lemma log_step_inactive s0 s c :
  logger.logging_active s0 = false -> same_log s0 s -> same_log s0 (log_step s c).
Proof.
  intros Ha0 H. pose proof H as (Ha & _). rewrite Ha0 in Ha.
  destruct c; cbn [log_step];
    unfold logXYZ_intensity, logXYZ, logBlank, logUnblank; rewrite ?Ha;
    cbn [negb]; exact H.
Qed.

Lemma log_session_inactive calls s :
  logger.logging_active s = false -> same_log s (log_session calls s).
Proof.
  intros Ha. unfold log_session.
  generalize (same_log_refl s). generalize s at 2 4 as s1. revert Ha.
  induction calls as [|c calls IH]; intros Ha s1 H; [exact H|].
  cbn [fold_left]. apply (IH Ha). apply log_step_inactive; assumption.
Qed.

Lemma begin_disabled_keeps_flag mode_code millis s :
  logger.logging_active (begin mode_code millis s LOG_DISABLED)
  = logger.logging_active s.
Proof. reflexivity. Qed.

(** X21: a logger whose [logging_active] flag is clear, as the constructor
    leaves it, ignores the points and markers of a whole session: no byte
    is sent, and it stays inactive with [point_count], [bytes_written] and
    the statistics as they were; only the frame counters follow
    [beginFrame] and [endFrame].  The same holds after such a logger is
    begun with [LOG_DISABLED], because [begin(LOG_DISABLED)] sets the mode
    and returns: it never changes the flag, so on a logger that is active
    it does not stop the logging either. *)
Theorem inactive_logger_ignores_session mode_code millis calls s s0 :
  logger.logging_active s = false ->
  same_log s (log_session calls s) /\
  same_log (begin mode_code millis s LOG_DISABLED)
           (log_session calls (begin mode_code millis s LOG_DISABLED)) /\
  logger.logging_active (begin mode_code millis s0 LOG_DISABLED)
  = logger.logging_active s0.
Proof.
  intros Ha. split; [|split].
  - apply log_session_inactive, Ha.
  - apply log_session_inactive. rewrite begin_disabled_keeps_flag. exact Ha.
  - apply begin_disabled_keeps_flag.
Qed.

(** X21, witness: the session on a fresh logger, and [begin(LOG_DISABLED)]
    on a logger begun in binary mode, which stays active and counts the
    two points of the session. *)
Lemma inactive_logger_ignores_session_witness :
  let s := VectorLogger in
  let s0 := begin sample_mode_code 0 VectorLogger LOG_BINARY in
  (same_log s (log_session sample_session s) /\
   same_log (begin sample_mode_code 0 s LOG_DISABLED)
            (log_session sample_session (begin sample_mode_code 0 s LOG_DISABLED)) /\
   logger.logging_active (begin sample_mode_code 0 s0 LOG_DISABLED)
   = logger.logging_active s0) /\
  logger.logging_active s0 = true /\
  logger.point_count
    (log_session sample_session (begin sample_mode_code 0 s0 LOG_DISABLED)) = 2.
Proof.
  split.
  - apply (inactive_logger_ignores_session sample_mode_code 0 sample_session
             VectorLogger (begin sample_mode_code 0 VectorLogger LOG_BINARY)).
    reflexivity.
  - vm_compute. split; reflexivity.
Defined.

Section LoggerDac.

Variable DAC_CMD_SINGLE : Z.
Hypothesis cmd_bits : Z.land DAC_CMD_SINGLE 0x0FFF = 0.

(** X18: the logger's 8-bit overload records the value the Z DAC receives: in
    binary mode the Z word of the record of [logXYZ(x, y, intensity)] is
    the data field that [setIntensity(intensity)] clocks into the Z DAC. *)
Theorem logger_records_dac_intensity s x y i :
  logger.logging_active s = true -> logger.mode s = LOG_BINARY ->
  0 <= i <= 255 ->
  exists zw,
    decode_record (emitted s (logXYZ_intensity s x y i))
    = Some (x mod 4096, y mod 4096, zw) /\
    dac_words None (setIntensity DAC_CMD_SINGLE i) = [(Some VECT_SPI_CS_Z, zw)].
Proof.
  intros Ha Hm Hi.
  pose proof (setIntensity_words DAC_CMD_SINGLE cmd_bits i Hi) as Hd.
  exists (16 * i + i / 16). split; [|exact Hd].
  unfold logXYZ_intensity.
  set (z := if 0 <? i then _ else 0).
  rewrite logXYZ_binary_emits by assumption. cbn [decode_record].
  pose proof (Z.mod_pos_bound x 4096 ltac:(lia)).
  pose proof (Z.mod_pos_bound y 4096 ltac:(lia)).
  pose proof (Z.mod_pos_bound z 4096 ltac:(lia)).
  assert (Hz : z mod 4096 = 16 * i + i / 16).
  { revert Hd. unfold setIntensity. cbv zeta. fold z.
    rewrite write_dac_single_words by exact cmd_bits.
    intros E. injection E as E. exact E. }
  rewrite <- Hz. f_equal. f_equal; [f_equal|]; Z.div_mod_to_equations; lia.
Qed.

End LoggerDac.

(** X17, witness: a point with x = 5000 on a logger begun in binary
    mode. *)
Lemma binary_record_round_trip_witness :
  let s := begin sample_mode_code 0 VectorLogger LOG_BINARY in
  let r := emitted s (logXYZ s 5000 300 4095) in
  decode_record r = Some (5000 mod 4096, 300 mod 4096, 4095 mod 4096) /\
  Forall (fun b => 0 <= b < 256) r /\
  r <> emitted s (logBlank s) /\ r <> emitted s (logUnblank s).
Proof.
  apply (binary_record_round_trip
           (begin sample_mode_code 0 VectorLogger LOG_BINARY) 5000 300 4095).
  - reflexivity.
  - reflexivity.
Defined.

(** X18, witness: full intensity on a logger begun in binary mode. *)
Lemma logger_records_dac_intensity_witness :
  exists zw,
    decode_record
      (emitted (begin sample_mode_code 0 VectorLogger LOG_BINARY)
         (logXYZ_intensity (begin sample_mode_code 0 VectorLogger LOG_BINARY)
            100 200 255))
    = Some (100 mod 4096, 200 mod 4096, zw) /\
    dac_words None (setIntensity sample_dac_cmd 255) = [(Some VECT_SPI_CS_Z, zw)].
Proof.
  apply (logger_records_dac_intensity sample_dac_cmd ltac:(reflexivity)
           (begin sample_mode_code 0 VectorLogger LOG_BINARY) 100 200 255).
  - reflexivity.
  - reflexivity.
  - lia.
Defined.
